(** * Drive scanner: change detection and versioned snapshots

    A shallow embedding of the core of [main.py] (class
    [SimpleDriveScanner]): the version arithmetic of [increment_version],
    the history merge of [save_version_history], the signature diff of
    [detect_changes], the retry loop of [make_api_call_with_retry] and the
    recursive scan of [get_folder_tree], followed by the properties the
    specification states about them.

    Conventions of the embedding.
    - Python [int] is [Z]; a Python [str] is a [string] whose characters
      stand for the code points 0..255. [int] of a string and [str] of an
      [int] keep to the interpreter's default limit of 4300 digits.
    - A Python [dict] is an association list in insertion order whose keys
      are pairwise distinct ([PyDict]).
    - A function that can raise returns a [pyresult].
    - Code that talks to the remote service threads the scanner's [stats]
      and takes the service as an oracle indexed by the number of the
      attempt. *)

From Stdlib Require Import ZArith List String Ascii Bool Lia.
From Stdlib Require Import Permutation QArith Qround.
Import ListNotations.

Set Warnings "-register-all".

Local Open Scope string_scope.
Local Open Scope list_scope.
Local Open Scope Z_scope.

(* ================================================================== *)
(** ** Exceptions and results *)

Inductive pyexn : Type :=
| ValueError
| KeyError (key : string)
| TypeError
| AttributeError
| OverflowError
| HttpError (status : Z) (msg : string)
| OtherError (msg : string).

Inductive pyresult (A : Type) : Type :=
| Ok (a : A)
| Raise (e : pyexn).
Arguments Ok {A} a.
Arguments Raise {A} e.

Definition rbind {A B} (m : pyresult A) (k : A -> pyresult B) : pyresult B :=
  match m with
  | Ok a => k a
  | Raise e => Raise e
  end.

Declare Scope pyres_scope.
Delimit Scope pyres_scope with pyres.
Notation "x <- m ;; k" := (rbind m (fun x => k))
  (at level 61, m at next level, right associativity) : pyres_scope.

(** [int(…)] and tuple unpacking signal failure with [ValueError]. *)
Definition or_ValueError {A} (o : option A) : pyresult A :=
  match o with
  | Some a => Ok a
  | None => Raise ValueError
  end.

(* ================================================================== *)
(** ** Python strings: [str.split], [int(str)], [str(int)] *)

Module PyStr.

(** [s.split(sep)] for a one-character separator: never empty, one more
    piece than there are separators. *)
Fixpoint split (sep : ascii) (s : string) : list string :=
  match s with
  | EmptyString => [EmptyString]
  | String c rest =>
      if Ascii.eqb c sep then EmptyString :: split sep rest
      else match split sep rest with
           | w :: ws => String c w :: ws
           | [] => [String c EmptyString]
           end
  end.

Definition code (c : ascii) : N := N_of_ascii c.

(** The characters [int] skips around a literal: tab, line feed,
    vertical tab, form feed, carriage return and space, and of the
    non-ASCII ones below 256, NEL (133) and the no-break space (160).
    The separators 28..31 are not skipped. *)
Definition is_space (c : ascii) : bool :=
  let n := code c in
  ((9 <=? n) && (n <=? 13) || (n =? 32) || (n =? 133) || (n =? 160))%N.

Fixpoint lstrip (s : string) : string :=
  match s with
  | EmptyString => EmptyString
  | String c rest => if is_space c then lstrip rest else s
  end.

Fixpoint rstrip (s : string) : string :=
  match s with
  | EmptyString => EmptyString
  | String c rest =>
      match rstrip rest with
      | EmptyString => if is_space c then EmptyString else String c EmptyString
      | rest' => String c rest'
      end
  end.

Definition strip (s : string) : string := rstrip (lstrip s).

Definition digit_val (c : ascii) : option Z :=
  let n := code c in
  if ((48 <=? n) && (n <=? 57))%N then Some (Z.of_N n - 48) else None.

(** Digits of a literal, least recent first in [acc]; a single
    underscore may separate two digits. [prev_digit] tells whether the
    character just read was a digit. *)
Fixpoint int_digits (s : string) (prev_digit : bool) (acc : Z) : option Z :=
  match s with
  | EmptyString => if prev_digit then Some acc else None
  | String c rest =>
      match digit_val c with
      | Some d => int_digits rest true (10 * acc + d)
      | None =>
          if Ascii.eqb c "_" && prev_digit then int_digits rest false acc
          else None
      end
  end.

(** [sys.get_int_max_str_digits()], the interpreter's default limit on
    the digits of a decimal literal that is read or written. *)
Definition MAX_STR_DIGITS : Z := 4300.

Definition is_digit (c : ascii) : bool :=
  match digit_val c with
  | Some _ => true
  | None => false
  end.

(** The digits of a literal; signs, underscores and white space do not
    count. *)
Fixpoint count_digits (s : string) : Z :=
  match s with
  | EmptyString => 0
  | String c rest => (if is_digit c then 1 else 0) + count_digits rest
  end.

(** The digits behind the sign: a literal of more than
    [MAX_STR_DIGITS] digits is refused, leading zeros included. *)
Definition int_literal (body : string) : option Z :=
  if MAX_STR_DIGITS <? count_digits body then None
  else int_digits body false 0.

(** [int(s)] in base 10: surrounding white space, an optional sign, then
    the digits, at most [MAX_STR_DIGITS] of them. [None] stands for
    [ValueError]. *)
Definition int_of_str (s : string) : option Z :=
  match strip s with
  | String "-" rest => option_map Z.opp (int_literal rest)
  | String "+" rest => int_literal rest
  | body => int_literal body
  end.

Definition digit_char (d : Z) : ascii := ascii_of_N (Z.to_N (48 + d)).

Fixpoint str_digits (fuel : nat) (n : Z) (acc : string) : string :=
  match fuel with
  | O => acc
  | S fuel' =>
      let acc' := String (digit_char (n mod 10)) acc in
      if n <? 10 then acc' else str_digits fuel' (n / 10) acc'
  end.

(** Decimal digits of a non-negative number; a number has no more
    decimal digits than binary ones. *)
Definition str_of_nonneg (n : Z) : string :=
  str_digits (S (Z.to_nat (Z.log2 n))) n EmptyString.

(** The decimal numeral of [n]: what [str(n)] is when it is written. *)
Definition decimal (n : Z) : string :=
  if n <? 0 then String "-" (str_of_nonneg (- n)) else str_of_nonneg n.

(** [str(n)], also what an f-string writes for an [int]: a numeral of
    more than [MAX_STR_DIGITS] digits, the sign not counted, is not
    written. [None] stands for [ValueError]. *)
Definition str_of_int (n : Z) : option string :=
  if MAX_STR_DIGITS <? count_digits (decimal n) then None
  else Some (decimal n).

(** Every character of [s] satisfies [p]. *)
Fixpoint all_chars (p : ascii -> bool) (s : string) : bool :=
  match s with
  | EmptyString => true
  | String c rest => p c && all_chars p rest
  end.

Definition not_dot (c : ascii) : bool := negb (Ascii.eqb c ".").

End PyStr.

(* ================================================================== *)
(** ** Version Manager: [increment_version] *)

(** [major, minor, patch = map(int, current_version.split('.'))]:
    exactly three pieces, each accepted by [int]. *)
Definition parse_version (current_version : string) : pyresult (Z * Z * Z) :=
  match map PyStr.int_of_str (PyStr.split "." current_version) with
  | [Some major; Some minor; Some patch] => Ok (major, minor, patch)
  | _ => Raise ValueError
  end.

(** The carry of lines 317-323. *)
Definition carry (v : Z * Z * Z) : Z * Z * Z :=
  let '(major, minor, patch) := v in
  let patch := patch + 1 in
  if patch >? 9 then
    let patch := 0 in
    let minor := minor + 1 in
    if minor >? 9 then
      let minor := 0 in
      let major := major + 1 in
      (major, minor, patch)
    else (major, minor, patch)
  else (major, minor, patch).

(** [f"{major}.{minor}.{patch}"], line 325: the three numbers are
    written from left to right. *)
Definition format_version (v : Z * Z * Z) : pyresult string :=
  let '(major, minor, patch) := v in
  (a <- or_ValueError (PyStr.str_of_int major) ;;
   b <- or_ValueError (PyStr.str_of_int minor) ;;
   c <- or_ValueError (PyStr.str_of_int patch) ;;
   Ok (a ++ "." ++ b ++ "." ++ c)%string)%pyres.

Definition increment_version (current_version : string) (has_changes : bool)
  : pyresult string :=
  if negb has_changes then Ok current_version
  else
    match (v <- parse_version current_version ;;
           format_version (carry v))%pyres with
    | Ok s => Ok s
    | Raise ValueError => Ok "1.0.1"
    | Raise e => Raise e
    end.

(* ================================================================== *)
(** ** Python dictionaries *)

(** A [dict] with [str] keys: the items in insertion order. Assigning to a
    key that is present keeps its place; assigning to a new key appends. *)
Module PyDict.
Section Dict.
Context {V : Type}.

Definition dict : Type := list (string * V).

Definition keys (d : dict) : list string := map fst d.

(** No key occurs twice. Every dictionary the interpreter builds or
    reads from JSON is of this kind. *)
Definition wf (d : dict) : Prop := NoDup (keys d).

Fixpoint get (d : dict) (k : string) : option V :=
  match d with
  | [] => None
  | (k', v) :: rest => if String.eqb k' k then Some v else get rest k
  end.

(** [k in d] *)
Definition contains (d : dict) (k : string) : bool :=
  match get d k with
  | Some _ => true
  | None => false
  end.

(** [d[k]] *)
Definition getitem (d : dict) (k : string) : pyresult V :=
  match get d k with
  | Some v => Ok v
  | None => Raise (KeyError k)
  end.

(** [d.get(k, dflt)] *)
Definition get_default (d : dict) (k : string) (dflt : V) : V :=
  match get d k with
  | Some v => v
  | None => dflt
  end.

(** [d[k] = v] *)
Fixpoint set (d : dict) (k : string) (v : V) : dict :=
  match d with
  | [] => [(k, v)]
  | (k', v') :: rest =>
      if String.eqb k' k then (k', v) :: rest
      else (k', v') :: set rest k v
  end.

(** The dictionary left by [d.pop(k)]. *)
Fixpoint remove (d : dict) (k : string) : dict :=
  match d with
  | [] => []
  | (k', v') :: rest =>
      if String.eqb k' k then rest else (k', v') :: remove rest k
  end.

(** [d.pop(k)]: the value and the dictionary without the key. *)
Definition pop (d : dict) (k : string) : pyresult (V * dict) :=
  match get d k with
  | Some v => Ok (v, remove d k)
  | None => Raise (KeyError k)
  end.
End Dict.
Arguments dict V : clear implicits.
End PyDict.

Abbreviation dict := PyDict.dict.

(* ================================================================== *)
(** ** JSON-like values and the history merge: [save_version_history] *)

(** The values a history entry holds. A [float] is the rational it
    denotes. *)
Inductive pyval : Type :=
| PNone
| PBool (b : bool)
| PInt (z : Z)
| PFloat (q : Q)
| PStr (s : string)
| PList (l : list pyval)
| PDict (d : list (string * pyval)).

(** [v == n] for an [int] [n]: numbers compare by value, [bool] is a
    number, anything else differs. *)
Definition py_eq_int (v : pyval) (n : Z) : bool :=
  match v with
  | PInt z => z =? n
  | PBool b => (if b then 1 else 0) =? n
  | PFloat q => Qeq_bool q (inject_Z n)
  | _ => false
  end.

(** [v.get(k, dflt)]; only a [dict] has [get]. *)
Definition py_get (v : pyval) (k : string) (dflt : pyval) : pyresult pyval :=
  match v with
  | PDict d => Ok (PyDict.get_default d k dflt)
  | _ => Raise AttributeError
  end.

Definition entry : Type := dict pyval.

(** Lines 281-285: the version key of an old entry is renamed to
    ["version"]. *)
Definition standardize_entry (e : entry) : pyresult entry :=
  (if PyDict.contains e "current_version" then
     p <- PyDict.pop e "current_version" ;;
     Ok (PyDict.set (snd p) "version" (fst p))
   else if PyDict.contains e "n_version" then
     p <- PyDict.pop e "n_version" ;;
     Ok (PyDict.set (snd p) "version" (fst p))
   else Ok e)%pyres.

Fixpoint standardize (history : list entry) : pyresult (list entry) :=
  match history with
  | [] => Ok []
  | e :: rest =>
      (e' <- standardize_entry e ;;
       rest' <- standardize rest ;;
       Ok (e' :: rest'))%pyres
  end.

(** [new_entry.get("changes", {}).get("total_changes", 0) == 0] *)
Definition no_changes (new_entry : entry) : pyresult bool :=
  (total <- py_get (PyDict.get_default new_entry "changes" (PDict []))
                  "total_changes" (PInt 0) ;;
   Ok (py_eq_int total 0))%pyres.

Definition MAX_HISTORY : nat := 50.

(** [save_version_history]; [loaded] is what [load_version_history]
    returned. The handler of line 305 prints and re-raises, so an
    exception leaves as it came. *)
Definition save_version_history (loaded : list entry) (new_entry : entry)
  : pyresult (list entry) :=
  (history <- standardize loaded ;;
   unchanged <- no_changes new_entry ;;
   history <-
     match unchanged, history with
     | true, top :: rest =>
         scan_date <- PyDict.getitem new_entry "scan_date" ;;
         let top := PyDict.set top "scan_date" scan_date in
         top <- (if PyDict.contains new_entry "stats" then
                   stats <- PyDict.getitem new_entry "stats" ;;
                   Ok (PyDict.set top "stats" stats)
                 else Ok top) ;;
         Ok (top :: rest)
     | _, _ => Ok (new_entry :: history)
     end ;;
   let history :=
     if (MAX_HISTORY <? List.length history)%nat then firstn MAX_HISTORY history
     else history in
   Ok history)%pyres.

(* ================================================================== *)
(** ** Python floats *)

(** The operations the scanner performs on [float]s, and the few facts
    about them that the properties below rest on. [F] is the set of float
    values up to [==]; the [int] [0] that starts a sum is identified with
    [0.0], to which it compares equal. *)
Class PyFloat (F : Type) : Type := {
  fzero : F;
  (** [x + y] *)
  fadd : F -> F -> F;
  (** [a / b] on two [int]s; too large a quotient raises
      [OverflowError]. *)
  fdiv : Z -> Z -> pyresult F;
  (** [round(x, ndigits)] *)
  fround : F -> Z -> F;
  (** [x < n] for an [int] [n] *)
  flt_int : F -> Z -> bool;
  fadd_zero_r : forall x, fadd x fzero = x;
  fadd_zero_l : forall x, fadd fzero x = x;
  fdiv_zero : forall d, 0 < d -> fdiv 0 d = Ok fzero;
  fround_zero : forall n, fround fzero n = fzero;
  flt_zero : forall n, 0 < n -> flt_int fzero n = true
}.

(* ================================================================== *)
(** ** More of Python's strings and values *)

Module PyStrMore.

(** [s.replace(old, new)] for a non-empty [old]: occurrences are taken
    from the left and do not overlap. [skip] counts the characters of
    the occurrence being replaced that are still to be dropped. *)
Fixpoint replace_from (old new s : string) (skip : nat) : string :=
  match s with
  | EmptyString => EmptyString
  | String c rest =>
      match skip with
      | S k => replace_from old new rest k
      | O =>
          if String.prefix old s
          then (new ++ replace_from old new rest (String.length old - 1))%string
          else String c (replace_from old new rest 0)
      end
  end.

Definition replace (s old new : string) : string :=
  replace_from old new s 0.

(** [max(a, b)]: the first of the largest. *)
Definition max (a b : string) : string :=
  if String.ltb a b then b else a.

(** [sep.join(parts)] *)
Fixpoint join (sep : string) (parts : list string) : string :=
  match parts with
  | [] => EmptyString
  | [p] => p
  | p :: rest => (p ++ sep ++ join sep rest)%string
  end.

End PyStrMore.

(** Truth value of a value. *)
Definition py_truthy (v : pyval) : bool :=
  match v with
  | PNone => false
  | PBool b => b
  | PInt z => negb (z =? 0)
  | PFloat q => negb (Qeq_bool q 0)
  | PStr s => negb (String.eqb s "")
  | PList l => match l with [] => false | _ => true end
  | PDict d => match d with [] => false | _ => true end
  end.

(** [int(v)]: a string is parsed, a [float] is truncated towards zero. *)
Definition py_int (v : pyval) : pyresult Z :=
  match v with
  | PBool b => Ok (if b then 1 else 0)
  | PInt z => Ok z
  | PFloat q => Ok (Z.quot (Qnum q) (Zpos (Qden q)))
  | PStr s => or_ValueError (PyStr.int_of_str s)
  | PNone | PList _ | PDict _ => Raise TypeError
  end.

(* ================================================================== *)
(** ** Categories *)

Definition FILE_CATEGORIES : dict (list string) :=
  [ ("documents",
      [ "application/pdf";
        "application/vnd.google-apps.document";
        "application/msword";
        "application/vnd.openxmlformats-officedocument.wordprocessingml.document";
        "text/plain" ]);
    ("spreadsheets",
      [ "application/vnd.google-apps.spreadsheet";
        "application/vnd.ms-excel";
        "application/vnd.openxmlformats-officedocument.spreadsheetml.sheet" ]);
    ("presentations",
      [ "application/vnd.google-apps.presentation";
        "application/vnd.ms-powerpoint";
        "application/vnd.openxmlformats-officedocument.presentationml.presentation" ]);
    ("images",
      [ "image/jpeg"; "image/png"; "image/gif"; "image/bmp"; "image/svg+xml" ]);
    ("videos",
      [ "video/mp4"; "video/avi"; "video/mkv"; "video/mov"; "video/wmv" ]);
    ("audio",
      [ "audio/mp3"; "audio/wav"; "audio/flac"; "audio/aac" ]);
    ("archives",
      [ "application/zip"; "application/x-rar-compressed";
        "application/x-7z-compressed" ]) ].

Definition str_in (s : string) (l : list string) : bool :=
  existsb (String.eqb s) l.

Definition categorize_file (mime_type : string) : string :=
  if String.eqb mime_type "" then "others"
  else
    match find (fun cm => str_in mime_type (snd cm)) FILE_CATEGORIES with
    | Some (category, _) => category
    | None => "others"
    end.

(** [None] is an absent or null time. *)
Definition safe_datetime_format (dt : option string) : string :=
  match dt with
  | None => "N/A"
  | Some dt =>
      if String.eqb dt "" then "N/A"
      else PyStrMore.replace
             (PyStrMore.replace (PyStrMore.replace dt "T" " ") "Z" "")
             ".000" ""
  end.

(* ================================================================== *)
(** ** The captured tree *)

(** What [format_file_size] returns. *)
Record size_info (F : Type) : Type := {
  bytes : Z;
  kb : F;
  mb : F;
  gb : F
}.
Arguments bytes {F} _.
Arguments kb {F} _.
Arguments mb {F} _.
Arguments gb {F} _.

(** A child with ["type": "file"]. *)
Record file_node (F : Type) : Type := {
  f_name : string;
  f_id : string;
  f_mimeType : string;
  f_category : string;
  f_size : size_info F;
  f_driveLink : string;
  f_modifiedTime : string;
  f_createdTime : string
}.
Arguments f_name {F} _.
Arguments f_id {F} _.
Arguments f_mimeType {F} _.
Arguments f_category {F} _.
Arguments f_size {F} _.
Arguments f_driveLink {F} _.
Arguments f_modifiedTime {F} _.
Arguments f_createdTime {F} _.

(** The dictionary under ["sizeDistribution"]: always these four keys. *)
Record size_distribution : Type := {
  small : Z;
  medium : Z;
  large : Z;
  huge : Z
}.

(** A child of a folder: a file, or a folder (["type": "folder"]) that
    carries its own counters and children. *)
Inductive node (F : Type) : Type :=
| FileNode (f : file_node F)
| FolderNode (name id driveLink description : string)
             (fileCount folderCount : Z) (totalSizeMB : F)
             (lastUpdated : string) (children : list (node F))
             (fileTypes : dict Z) (sizeDistribution : size_distribution).
Arguments FileNode {F} f.
Arguments FolderNode {F} name id driveLink description fileCount folderCount
  totalSizeMB lastUpdated children fileTypes sizeDistribution.

(** What [get_folder_tree] returns for one folder. *)
Record folder_data (F : Type) : Type := {
  fileCount : Z;
  folderCount : Z;
  totalSizeMB : F;
  lastUpdated : string;
  children : list (node F);
  fileTypes : dict Z;
  sizeDistribution : size_distribution
}.
Arguments fileCount {F} _.
Arguments folderCount {F} _.
Arguments totalSizeMB {F} _.
Arguments lastUpdated {F} _.
Arguments children {F} _.
Arguments fileTypes {F} _.
Arguments sizeDistribution {F} _.

(** Lines 429-442: the child built from a scanned subfolder copies the
    subtree's fields. *)
Definition folder_child {F} (name id description : string)
  (subtree : folder_data F) : node F :=
  FolderNode name id
    ("https://drive.google.com/drive/folders/" ++ id)%string
    description
    (fileCount subtree) (folderCount subtree) (totalSizeMB subtree)
    (lastUpdated subtree) (children subtree) (fileTypes subtree)
    (sizeDistribution subtree).

(** The aggregate fields of a folder child, read back. *)
Definition node_data {F} (n : node F) : option (folder_data F) :=
  match n with
  | FileNode _ => None
  | FolderNode _ _ _ _ fc dc sz lu ch ft sd =>
      Some {| fileCount := fc; folderCount := dc; totalSizeMB := sz;
              lastUpdated := lu; children := ch; fileTypes := ft;
              sizeDistribution := sd |}
  end.

(* ================================================================== *)
(** ** Fingerprint Extractor and Diff Engine *)

(** An entry of the signature map. *)
Record sig_info : Type := {
  signature : string;
  sig_name : string;
  sig_size : Z;
  sig_modified : string
}.

(** An entry of [added_files] or [deleted_files]. *)
Record file_ref : Type := {
  ref_id : string;
  ref_name : string;
  ref_size : Z
}.

(** An entry of [modified_files]. *)
Record modified_entry : Type := {
  m_id : string;
  m_name : string;
  m_old_name : string;
  m_old_modified : string;
  m_new_modified : string;
  m_old_size : Z;
  m_new_size : Z;
  m_change_type : string
}.

Record change_set : Type := {
  added_files : list file_ref;
  deleted_files : list file_ref;
  modified_files : list modified_entry;
  total_changes : Z;
  summary : string
}.

(** The part of the previous scan that [detect_changes] reads;
    [None] is a missing ["file_signatures"] key. *)
Record previous_scan : Type := {
  prev_version : string;
  file_signatures : option (dict sig_info)
}.

Definition len {A} (l : list A) : Z := Z.of_nat (List.length l).

(** [previous_data.get('file_signatures', {})] *)
Definition previous_signatures (previous_data : previous_scan) : dict sig_info :=
  match file_signatures previous_data with
  | Some sigs => sigs
  | None => []
  end.

Section Diff.
Context {F : Type} {PF : PyFloat F}.

(** [hashlib.md5(s.encode()).hexdigest()] *)
Variable md5_hexdigest : string -> string.

(** [repr(x)] of a [float] *)
Variable frepr : F -> string.

(** What an f-string writes for the dictionary under ["size"]. The
    number of bytes of a scanned file was read by [int] or by the JSON
    decoder, which keep to the limit on digits, so its numeral is
    written in full. *)
Definition size_repr (sz : size_info F) : string :=
  ("{'bytes': " ++ PyStr.decimal (bytes sz)
    ++ ", 'kb': " ++ frepr (kb sz)
    ++ ", 'mb': " ++ frepr (mb sz)
    ++ ", 'gb': " ++ frepr (gb sz) ++ "}")%string.

Definition generate_file_signature (file_data : file_node F) : string :=
  let signature_data :=
    (f_id file_data ++ "-" ++ f_name file_data ++ "-"
      ++ size_repr (f_size file_data) ++ "-"
      ++ f_modifiedTime file_data)%string in
  md5_hexdigest signature_data.

(** The loop body of [extract_file_signatures] on one child; a folder
    child is walked with the same dictionary. *)
Fixpoint extract_item (item : node F) (signatures : dict sig_info)
  : dict sig_info :=
  match item with
  | FileNode f =>
      let sig := generate_file_signature f in
      PyDict.set signatures (f_id f)
        {| signature := sig;
           sig_name := f_name f;
           sig_size := bytes (f_size f);
           sig_modified := f_modifiedTime f |}
  | FolderNode _ _ _ _ _ _ _ _ children _ _ =>
      fold_left (fun sigs child => extract_item child sigs) children signatures
  end.

Definition extract_items (items : list (node F)) (signatures : dict sig_info)
  : dict sig_info :=
  fold_left (fun sigs child => extract_item child sigs) items signatures.

(** [extract_file_signatures(folder_data)] with a fresh dictionary. *)
Definition extract_file_signatures (data : folder_data F) : dict sig_info :=
  extract_items (children data) [].

(** Lines 199-205. *)
Definition find_added (current_sigs previous_sigs : dict sig_info)
  : list file_ref :=
  flat_map
    (fun '(file_id, file_info) =>
       if negb (PyDict.contains previous_sigs file_id)
       then [ {| ref_id := file_id;
                 ref_name := sig_name file_info;
                 ref_size := sig_size file_info |} ]
       else [])
    current_sigs.

(** Lines 208-214. *)
Definition find_deleted (current_sigs previous_sigs : dict sig_info)
  : list file_ref :=
  flat_map
    (fun '(file_id, file_info) =>
       if negb (PyDict.contains current_sigs file_id)
       then [ {| ref_id := file_id;
                 ref_name := sig_name file_info;
                 ref_size := sig_size file_info |} ]
       else [])
    previous_sigs.

(** Lines 222-245 for one file present in both maps. *)
Definition compare_infos (file_id : string) (current_info previous_info : sig_info)
  : list modified_entry :=
  let name_changed := negb (String.eqb (sig_name current_info) (sig_name previous_info)) in
  let size_changed := negb (sig_size current_info =? sig_size previous_info) in
  let time_changed :=
    negb (String.eqb (sig_modified current_info) (sig_modified previous_info)) in
  if name_changed || size_changed || time_changed then
    let change_type :=
      (if name_changed then ["renamed"] else [])
        ++ (if size_changed then ["resized"] else [])
        ++ (if time_changed then ["modified"] else []) in
    [ {| m_id := file_id;
         m_name := sig_name current_info;
         m_old_name := sig_name previous_info;
         m_old_modified := sig_modified previous_info;
         m_new_modified := sig_modified current_info;
         m_old_size := sig_size previous_info;
         m_new_size := sig_size current_info;
         m_change_type := PyStrMore.join ", " change_type |} ]
  else [].

(** Lines 217-245. *)
Definition find_modified (current_sigs previous_sigs : dict sig_info)
  : list modified_entry :=
  flat_map
    (fun '(file_id, current_info) =>
       match PyDict.get previous_sigs file_id with
       | Some previous_info => compare_infos file_id current_info previous_info
       | None => []
       end)
    current_sigs.

(** Lines 251-259. A length has at most 19 digits, so [str] writes its
    numeral in full. *)
Definition make_summary (added deleted : list file_ref)
  (modified : list modified_entry) : string :=
  let summary_parts :=
    (match added with
     | [] => []
     | _ => [(PyStr.decimal (len added) ++ " files added")%string]
     end)
      ++ (match deleted with
          | [] => []
          | _ => [(PyStr.decimal (len deleted) ++ " files deleted")%string]
          end)
      ++ (match modified with
          | [] => []
          | _ => [(PyStr.decimal (len modified) ++ " files modified")%string]
          end) in
  match summary_parts with
  | [] => "No changes detected"
  | _ => PyStrMore.join ", " summary_parts
  end.

(** The comparison of two signature maps, lines 190-261. *)
Definition diff_signatures (current_sigs previous_sigs : dict sig_info)
  : change_set :=
  let added := find_added current_sigs previous_sigs in
  let deleted := find_deleted current_sigs previous_sigs in
  let modified := find_modified current_sigs previous_sigs in
  {| added_files := added;
     deleted_files := deleted;
     modified_files := modified;
     total_changes := len added + len deleted + len modified;
     summary := make_summary added deleted modified |}.

Definition detect_changes (current_data : folder_data F)
  (previous_data : previous_scan) : change_set :=
  let current_sigs := extract_file_signatures current_data in
  let previous_sigs := previous_signatures previous_data in
  diff_signatures current_sigs previous_sigs.

(** The files the specification calls unchanged: present in both maps
    with equal name, size and modification time. The program does not
    list them. *)
Definition unchanged_ids (current_sigs previous_sigs : dict sig_info)
  : list string :=
  flat_map
    (fun '(file_id, current_info) =>
       match PyDict.get previous_sigs file_id with
       | Some previous_info =>
           if String.eqb (sig_name current_info) (sig_name previous_info)
              && (sig_size current_info =? sig_size previous_info)
              && String.eqb (sig_modified current_info) (sig_modified previous_info)
           then [file_id] else []
       | None => []
       end)
    current_sigs.

End Diff.

(* ================================================================== *)
(** ** The remote service and the scanner's state *)

(** An entry of a listing. [id], [name] and [mimeType] are read with
    [item[...]]; the other keys with [item.get(...)], [None] being an
    absent key. [r_size] keeps the JSON value, so that a null is
    [Some PNone]. *)
Record remote_item : Type := {
  r_id : string;
  r_name : string;
  r_mimeType : string;
  r_size : option pyval;
  r_modifiedTime : option string;
  r_createdTime : option string;
  r_webViewLink : option string
}.

(** The answer to [files().list]. *)
Record list_response : Type := {
  files : option (list remote_item);
  nextPageToken : option string
}.

(** The answer to [files().get(fields='description')]. *)
Record get_response : Type := {
  description : option string
}.

(** What one [execute()] does: it returns (possibly [None]), raises
    [HttpError] with a status, or raises something else. The strings are
    [str(e)]. *)
Inductive api_outcome (R : Type) : Type :=
| ApiReturn (r : option R)
| ApiHttpError (status : Z) (msg : string)
| ApiException (msg : string).
Arguments ApiReturn {R} r.
Arguments ApiHttpError {R} status msg.
Arguments ApiException {R} msg.

(** [self.stats], and the pauses requested from [time.sleep], latest
    last. *)
Record stats : Type := {
  totalFiles : Z;
  totalFolders : Z;
  apiCallsCount : Z;
  errors : list string;
  slept : list Z
}.

Definition initial_stats : stats :=
  {| totalFiles := 0; totalFolders := 0; apiCallsCount := 0;
     errors := []; slept := [] |}.

Definition count_api_call (st : stats) : stats :=
  {| totalFiles := totalFiles st; totalFolders := totalFolders st;
     apiCallsCount := apiCallsCount st + 1;
     errors := errors st; slept := slept st |}.

Definition record_error (msg : string) (st : stats) : stats :=
  {| totalFiles := totalFiles st; totalFolders := totalFolders st;
     apiCallsCount := apiCallsCount st;
     errors := errors st ++ [msg]; slept := slept st |}.

(** [time.sleep(seconds)]; a negative length is a [ValueError]. *)
Definition sleep (seconds : Z) (st : stats) : pyresult unit * stats :=
  if seconds <? 0 then (Raise ValueError, st)
  else
    (Ok tt,
     {| totalFiles := totalFiles st; totalFolders := totalFolders st;
        apiCallsCount := apiCallsCount st;
        errors := errors st; slept := slept st ++ [seconds] |}).

Definition count_folder (st : stats) : stats :=
  {| totalFiles := totalFiles st; totalFolders := totalFolders st + 1;
     apiCallsCount := apiCallsCount st;
     errors := errors st; slept := slept st |}.

Definition count_file (st : stats) : stats :=
  {| totalFiles := totalFiles st + 1; totalFolders := totalFolders st;
     apiCallsCount := apiCallsCount st;
     errors := errors st; slept := slept st |}.

(** A computation of the scanner: from the state to a result and the
    state it leaves, also when it raises. [None] means the fuel of the
    model ran out before the computation ended. *)
Definition scan (A : Type) : Type := stats -> option (pyresult A * stats).

Definition ret {A} (a : A) : scan A := fun st => Some (Ok a, st).

Definition raise {A} (e : pyexn) : scan A := fun st => Some (Raise e, st).

Definition out_of_fuel {A} : scan A := fun _ => None.

Definition bind {A B} (m : scan A) (k : A -> scan B) : scan B :=
  fun st =>
    match m st with
    | Some (Ok a, st') => k a st'
    | Some (Raise e, st') => Some (Raise e, st')
    | None => None
    end.

Definition modify (f : stats -> stats) : scan unit :=
  fun st => Some (Ok tt, f st).

(** A step outside the state that may raise. *)
Definition lift {A} (r : pyresult A) : scan A := fun st => Some (r, st).

Declare Scope scan_scope.
Delimit Scope scan_scope with scan.
Notation "x <- m ;; k" := (bind m (fun x => k))
  (at level 61, m at next level, right associativity) : scan_scope.
Notation "m ;;; k" := (bind m (fun _ => k))
  (at level 61, right associativity) : scan_scope.

(** The counters of one folder while it is scanned ([folder_stats]). *)
Record folder_stats (F : Type) : Type := {
  fs_totalSizeMB : F;
  fs_fileCount : Z;
  fs_folderCount : Z;
  fs_lastModified : option string;
  fs_fileTypes : dict Z;
  fs_sizeDistribution : size_distribution
}.
Arguments fs_totalSizeMB {F} _.
Arguments fs_fileCount {F} _.
Arguments fs_folderCount {F} _.
Arguments fs_lastModified {F} _.
Arguments fs_fileTypes {F} _.
Arguments fs_sizeDistribution {F} _.

Inductive bucket : Type := Small | Medium | Large | Huge.

Definition bucket_count (sd : size_distribution) (b : bucket) : Z :=
  match b with
  | Small => small sd
  | Medium => medium sd
  | Large => large sd
  | Huge => huge sd
  end.

(** [sizeDistribution[b] += n] *)
Definition bucket_add (sd : size_distribution) (b : bucket) (n : Z)
  : size_distribution :=
  match b with
  | Small => {| small := small sd + n; medium := medium sd;
                large := large sd; huge := huge sd |}
  | Medium => {| small := small sd; medium := medium sd + n;
                 large := large sd; huge := huge sd |}
  | Large => {| small := small sd; medium := medium sd;
                large := large sd + n; huge := huge sd |}
  | Huge => {| small := small sd; medium := medium sd;
               large := large sd; huge := huge sd + n |}
  end.

(** [x or y] on two optional strings, and the truth value of the result. *)
Definition str_or (x y : option string) : option string :=
  match x with
  | Some s => if String.eqb s "" then y else x
  | None => y
  end.

Definition str_truthy (x : option string) : bool :=
  match x with
  | Some s => negb (String.eqb s "")
  | None => false
  end.

(** [lastModified = max(lastModified or t, t)] *)
Definition watermark (lastModified : option string) (t : string) : option string :=
  Some (PyStrMore.max
          (match str_or lastModified (Some t) with Some s => s | None => t end)
          t).

(* ================================================================== *)
(** ** Tree Scanner *)

Definition FOLDER_MIME : string := "application/vnd.google-apps.folder".

Section Scanner.
Context {F : Type} {PF : PyFloat F}.

(** [self.config] *)
Variable maxRetries : Z.
Variable retryDelay : Z.

(** The remote service. The first argument is the value of
    [apiCallsCount] once the attempt is counted, so that every attempt
    of a run may be answered differently. *)
Variable remote_list : Z -> string -> option string -> api_outcome list_response.
Variable remote_get : Z -> string -> api_outcome get_response.

(** [format_file_size]; [None] is the argument [None]. *)
Definition format_file_size (size_bytes : option Z) : pyresult (size_info F) :=
  let size_bytes := match size_bytes with Some n => n | None => 0 end in
  (k <- fdiv size_bytes 1024 ;;
   m <- fdiv size_bytes (1024 * 1024) ;;
   g <- fdiv size_bytes (1024 * 1024 * 1024) ;;
   Ok {| bytes := size_bytes;
         kb := fround k 2;
         mb := fround m 2;
         gb := fround g 4 |})%pyres.

(** The body of the loop of [make_api_call_with_retry], for the
    attempts [attempt], [attempt + 1], ... of which [remaining] are
    left. Leaving the loop without [return] or [raise] returns
    [None]. An exception of [time.sleep] inside a handler leaves the
    function. *)
Fixpoint retry_loop {R} (call : Z -> api_outcome R) (remaining : nat)
  (attempt : Z) (st : stats) : pyresult (option R) * stats :=
  match remaining with
  | O => (Ok None, st)
  | S remaining' =>
      let st := count_api_call st in
      let sleep_and_continue (seconds : Z) :=
        match sleep seconds st with
        | (Ok _, st') => retry_loop call remaining' (attempt + 1) st'
        | (Raise e, st') => (Raise e, st')
        end in
      match call (apiCallsCount st) with
      | ApiReturn r => (Ok r, st)
      | ApiHttpError status msg =>
          if status =? 429 then
            let wait := retryDelay * 2 ^ attempt in
            sleep_and_continue wait
          else if status =? 403 then
            (Ok None, record_error ("Access forbidden: " ++ msg) st)
          else if attempt =? maxRetries - 1 then
            (Raise (HttpError status msg), record_error ("API Error: " ++ msg) st)
          else
            sleep_and_continue retryDelay
      | ApiException msg =>
          if attempt =? maxRetries - 1 then
            (Raise (OtherError msg), record_error ("Unexpected error: " ++ msg) st)
          else
            sleep_and_continue retryDelay
      end
  end.

(** [for attempt in range(self.config.maxRetries)] *)
Definition make_api_call_with_retry {R} (call : Z -> api_outcome R)
  : scan (option R) :=
  fun st => Some (retry_loop call (Z.to_nat maxRetries) 0 st).

(** [get_folder_description]: any exception gives the empty string. *)
Definition get_folder_description (folder_id : string) : scan string :=
  fun st =>
    match make_api_call_with_retry (fun n => remote_get n folder_id) st with
    | Some (Ok (Some meta), st') =>
        Some (Ok (match description meta with Some d => d | None => "" end), st')
    | Some (Ok None, st') => Some (Ok "", st')
    | Some (Raise _, st') => Some (Ok "", st')
    | None => None
    end.

(** Lines 464-471. *)
Definition size_bucket (size_mb : F) : bucket :=
  if flt_int size_mb 1 then Small
  else if flt_int size_mb 10 then Medium
  else if flt_int size_mb 100 then Large
  else Huge.

(** [int(item.get('size', 0) or 0)] *)
Definition item_size_bytes (item : remote_item) : pyresult Z :=
  let v := match r_size item with Some v => v | None => PInt 0 end in
  py_int (if py_truthy v then v else PInt 0).

Definition initial_folder_stats : folder_stats F :=
  {| fs_totalSizeMB := fzero;
     fs_fileCount := 0;
     fs_folderCount := 0;
     fs_lastModified := None;
     fs_fileTypes := [];
     fs_sizeDistribution := {| small := 0; medium := 0; large := 0; huge := 0 |} |}.

(** Lines 448-449. *)
Definition merge_fileTypes (into from : dict Z) : dict Z :=
  fold_left
    (fun acc '(ft, count) =>
       PyDict.set acc ft (PyDict.get_default acc ft 0 + count))
    from into.

(** Lines 451-452. *)
Definition merge_sizeDistribution (into from : size_distribution)
  : size_distribution :=
  {| small := small into + small from;
     medium := medium into + medium from;
     large := large into + large from;
     huge := huge into + huge from |}.

(** Lines 423-455: a folder entry. [get_folder_tree] is the recursive
    call. *)
Definition scan_folder (get_folder_tree : string -> string -> scan (folder_data F))
  (item : remote_item) (acc : folder_stats F * list (node F))
  : scan (folder_stats F * list (node F)) :=
  let '(folder_stats, children) := acc in
  (modify count_folder ;;;
   let folderCount1 := fs_folderCount folder_stats + 1 in
   subtree <- get_folder_tree (r_id item) (r_name item) ;;
   description <- get_folder_description (r_id item) ;;
   let children := children ++ [folder_child (r_name item) (r_id item) description subtree] in
   let lastModified :=
     if negb (String.eqb (lastUpdated subtree) "")
        && negb (String.eqb (lastUpdated subtree) "N/A")
     then watermark (fs_lastModified folder_stats) (lastUpdated subtree)
     else fs_lastModified folder_stats in
   ret ({| fs_totalSizeMB := fadd (fs_totalSizeMB folder_stats) (totalSizeMB subtree);
           fs_fileCount := fs_fileCount folder_stats + fileCount subtree;
           fs_folderCount := folderCount1 + folderCount subtree;
           fs_lastModified := lastModified;
           fs_fileTypes := merge_fileTypes (fs_fileTypes folder_stats) (fileTypes subtree);
           fs_sizeDistribution :=
             merge_sizeDistribution (fs_sizeDistribution folder_stats)
                                    (sizeDistribution subtree) |},
        children))%scan.

(** Lines 458-494: a file entry. *)
Definition scan_file (item : remote_item) (acc : folder_stats F * list (node F))
  : scan (folder_stats F * list (node F)) :=
  let '(folder_stats, children) := acc in
  (modify count_file ;;;
   let fileCount1 := fs_fileCount folder_stats + 1 in
   size_bytes <- lift (item_size_bytes item) ;;
   size_mb <- lift (fdiv size_bytes (1024 * 1024)) ;;
   let sizeDistribution1 :=
     bucket_add (fs_sizeDistribution folder_stats) (size_bucket size_mb) 1 in
   let totalSizeMB1 := fadd (fs_totalSizeMB folder_stats) size_mb in
   let file_type := categorize_file (r_mimeType item) in
   let fileTypes1 :=
     PyDict.set (fs_fileTypes folder_stats) file_type
       (PyDict.get_default (fs_fileTypes folder_stats) file_type 0 + 1) in
   let modified := str_or (r_modifiedTime item) (r_createdTime item) in
   let lastModified1 :=
     if str_truthy modified
     then watermark (fs_lastModified folder_stats) (safe_datetime_format modified)
     else fs_lastModified folder_stats in
   size <- lift (format_file_size (Some size_bytes)) ;;
   let child :=
     FileNode
       {| f_name := r_name item;
          f_id := r_id item;
          f_mimeType := r_mimeType item;
          f_category := file_type;
          f_size := size;
          f_driveLink :=
            match r_webViewLink item with
            | Some link => link
            | None => ("https://drive.google.com/file/d/" ++ r_id item ++ "/view")%string
            end;
          f_modifiedTime := safe_datetime_format modified;
          f_createdTime :=
            safe_datetime_format
              (match r_createdTime item with Some t => Some t | None => Some "" end) |} in
   ret ({| fs_totalSizeMB := totalSizeMB1;
           fs_fileCount := fileCount1;
           fs_folderCount := fs_folderCount folder_stats;
           fs_lastModified := lastModified1;
           fs_fileTypes := fileTypes1;
           fs_sizeDistribution := sizeDistribution1 |},
        children ++ [child]))%scan.

(** The [for item in response.get('files', [])] loop. *)
Fixpoint scan_items (get_folder_tree : string -> string -> scan (folder_data F))
  (items : list remote_item) (acc : folder_stats F * list (node F))
  : scan (folder_stats F * list (node F)) :=
  match items with
  | [] => ret acc
  | item :: rest =>
      (acc' <- (if String.eqb (r_mimeType item) FOLDER_MIME
                then scan_folder get_folder_tree item acc
                else scan_file item acc) ;;
       scan_items get_folder_tree rest acc')%scan
  end.

(** The [while True] loop over the pages of one folder, lines 408-498. *)
Fixpoint scan_pages (get_folder_tree : string -> string -> scan (folder_data F))
  (fuel : nat) (query : string) (page_token : option string)
  (acc : folder_stats F * list (node F))
  : scan (folder_stats F * list (node F)) :=
  match fuel with
  | O => out_of_fuel
  | S fuel' =>
      (response <- make_api_call_with_retry
                     (fun n => remote_list n query page_token) ;;
       match response with
       | None => ret acc
       | Some response =>
           acc' <- scan_items get_folder_tree
                     (match files response with Some l => l | None => [] end)
                     acc ;;
           let page_token := nextPageToken response in
           if str_truthy page_token
           then scan_pages get_folder_tree fuel' query page_token acc'
           else ret acc'
       end)%scan
  end.

(** [get_folder_tree]; [fuel] bounds the depth of the recursion and the
    number of pages of a folder. *)
Fixpoint get_folder_tree (fuel : nat) (folder_id folder_name : string)
  : scan (folder_data F) :=
  match fuel with
  | O => out_of_fuel
  | S fuel' =>
      let query := ("'" ++ folder_id ++ "' in parents and trashed = false")%string in
      (acc <- scan_pages (get_folder_tree fuel') fuel query None
                (initial_folder_stats, []) ;;
       let '(folder_stats, children) := acc in
       ret {| fileCount := fs_fileCount folder_stats;
              folderCount := fs_folderCount folder_stats;
              totalSizeMB := fround (fs_totalSizeMB folder_stats) 2;
              lastUpdated :=
                match str_or (fs_lastModified folder_stats) (Some "N/A") with
                | Some s => s
                | None => "N/A"
                end;
              children := children;
              fileTypes := fs_fileTypes folder_stats;
              sizeDistribution := fs_sizeDistribution folder_stats |})%scan
  end.

End Scanner.

(* ================================================================== *)
(** ** The aggregates of a folder, read off its children *)

Section Aggregates.
Context {F : Type} {PF : PyFloat F}.

Definition sum_over {A} (f : A -> Z) (l : list A) : Z :=
  fold_right (fun x acc => f x + acc) 0 l.

(** What a child adds to the file count of its parent: a file counts
    for one, a folder for the files it counts itself. *)
Definition child_fileCount (n : node F) : Z :=
  match n with
  | FileNode _ => 1
  | FolderNode _ _ _ _ fc _ _ _ _ _ _ => fc
  end.

(** A folder counts for itself and for the folders it counts. *)
Definition child_folderCount (n : node F) : Z :=
  match n with
  | FileNode _ => 0
  | FolderNode _ _ _ _ _ dc _ _ _ _ _ => 1 + dc
  end.

Definition child_category_count (category : string) (n : node F) : Z :=
  match n with
  | FileNode f => if String.eqb (f_category f) category then 1 else 0
  | FolderNode _ _ _ _ _ _ _ _ _ ft _ => PyDict.get_default ft category 0
  end.

Definition bucket_eqb (a b : bucket) : bool :=
  match a, b with
  | Small, Small | Medium, Medium | Large, Large | Huge, Huge => true
  | _, _ => false
  end.

(** The size of a child in MB as the parent adds it: the bytes of a
    file over [1024 * 1024], the stored total of a folder. *)
Definition child_size (n : node F) : pyresult F :=
  match n with
  | FileNode f => fdiv (bytes (f_size f)) (1024 * 1024)
  | FolderNode _ _ _ _ _ _ sz _ _ _ _ => Ok sz
  end.

Definition child_bucket_count (b : bucket) (n : node F) : Z :=
  match n with
  | FileNode f =>
      match child_size n with
      | Ok size_mb => if bucket_eqb (size_bucket size_mb) b then 1 else 0
      | Raise _ => 0
      end
  | FolderNode _ _ _ _ _ _ _ _ _ _ sd => bucket_count sd b
  end.

(** The sizes of the children added from the left, starting from
    [acc]. *)
Fixpoint sum_sizes (l : list (node F)) (acc : F) : pyresult F :=
  match l with
  | [] => Ok acc
  | n :: rest => (s <- child_size n ;; sum_sizes rest (fadd acc s))%pyres
  end.

(** The counters and histograms of a folder are the sums over its
    children. *)
Record counts_aggregate (d : folder_data F) : Prop := {
  agg_fileCount :
    fileCount d = sum_over child_fileCount (children d);
  agg_folderCount :
    folderCount d = sum_over child_folderCount (children d);
  agg_fileTypes :
    forall category,
      PyDict.get_default (fileTypes d) category 0
      = sum_over (child_category_count category) (children d);
  agg_sizeDistribution :
    forall b,
      bucket_count (sizeDistribution d) b
      = sum_over (child_bucket_count b) (children d)
}.

(** The total size is the sum over the children. *)
Definition size_is_sum (d : folder_data F) : Prop :=
  exists s, sum_sizes (children d) fzero = Ok s /\ totalSizeMB d = s.

(** The total size is the sum over the children, rounded to two
    decimals. *)
Definition size_is_rounded_sum (d : folder_data F) : Prop :=
  exists s, sum_sizes (children d) fzero = Ok s /\ totalSizeMB d = fround s 2.

(** [folder_in d l]: [d] holds the fields of a folder node that is one
    of the nodes [l] or lies below one of them. *)
Inductive folder_in (d : folder_data F) : list (node F) -> Prop :=
| folder_here n ns :
    node_data n = Some d -> folder_in d (n :: ns)
| folder_below n ns d' :
    node_data n = Some d' -> folder_in d (children d') -> folder_in d (n :: ns)
| folder_next n ns :
    folder_in d ns -> folder_in d (n :: ns).

(** The folders of a tree: its root and the folder nodes below. *)
Definition folder_of_tree (d tree : folder_data F) : Prop :=
  d = tree \/ folder_in d (children tree).

End Aggregates.

(* ================================================================== *)
(** ** Predicates of the statements and proofs below *)

(** [x in l] on a list of strings. *)
Definition mem (l : list string) (x : string) : bool :=
  existsb (String.eqb x) l.

(** The text ["major.minor.patch"] of three numbers. *)
Definition version_text (v : Z * Z * Z) : string :=
  let '(major, minor, patch) := v in
  (PyStr.decimal major ++ "." ++ PyStr.decimal minor ++ "."
     ++ PyStr.decimal patch)%string.

(** The property claim C2 asks of a previous version [v]: one more in
    the patch, a patch above 9 carried into the minor, a minor above 9
    carried into the major. *)
Definition advances_with_carry (v : string) : Prop :=
  forall major minor patch,
    parse_version v = Ok (major, minor, patch) ->
    increment_version v true
    = Ok (version_text
            (if patch + 1 <=? 9 then (major, minor, patch + 1)
             else if minor + 1 <=? 9 then (major, minor + 1, 0)
             else (major + 1, 0, 0))).

(** The property claim C9 asks of a previous version [v]. *)
Definition stays_single_digit (v : string) : Prop :=
  forall major minor patch,
    parse_version v = Ok (major, minor, patch) ->
    0 <= major <= 9 -> 0 <= minor <= 9 -> 0 <= patch <= 9 ->
    exists s major' minor' patch',
      increment_version v true = Ok s
      /\ parse_version s = Ok (major', minor', patch')
      /\ 0 <= major' <= 9 /\ 0 <= minor' <= 9 /\ 0 <= patch' <= 9.

(** An entry of the history as the merge keeps it: every field but the
    three version keys is the one of the old entry, and ["version"] holds
    the old entry's version, looked up under ["current_version"], then
    ["n_version"], then ["version"]. *)
Definition kept_from (old kept : entry) : Prop :=
  (forall k, k <> "version" -> k <> "current_version" -> k <> "n_version" ->
             PyDict.get kept k = PyDict.get old k)
  /\ PyDict.get kept "version"
     = match PyDict.get old "current_version" with
       | Some v => Some v
       | None =>
           match PyDict.get old "n_version" with
           | Some v => Some v
           | None => PyDict.get old "version"
           end
       end.

(** An entry written with the key ["version"] only. *)
Definition no_legacy_key (e : entry) : Prop :=
  PyDict.contains e "current_version" = false
  /\ PyDict.contains e "n_version" = false.


Section Invariants.
Context {F : Type} {PF : PyFloat F}.


(** What is shown of every folder: its counters and histograms are the
    sums over its children, its size the rounded sum, and its category
    histogram has each category once. *)
Definition folder_good (d : folder_data F) : Prop :=
  counts_aggregate d /\ size_is_rounded_sum d /\ PyDict.wf (fileTypes d).

Definition tree_good (tree : folder_data F) : Prop :=
  forall d, folder_of_tree d tree -> folder_good d.

Definition rec_good (rec : string -> string -> scan (folder_data F)) : Prop :=
  forall id name st tree st',
    rec id name st = Some (Ok tree, st') -> tree_good tree.

(** The invariant of the loops: the running counters are the sums over
    the children appended so far. *)
Definition acc_good (acc : folder_stats F * list (node F)) : Prop :=
  fs_fileCount (fst acc) = sum_over child_fileCount (snd acc)
  /\ fs_folderCount (fst acc) = sum_over child_folderCount (snd acc)
  /\ (forall category,
         PyDict.get_default (fs_fileTypes (fst acc)) category 0
         = sum_over (child_category_count category) (snd acc))
  /\ (forall b,
         bucket_count (fs_sizeDistribution (fst acc)) b
         = sum_over (child_bucket_count b) (snd acc))
  /\ sum_sizes (snd acc) fzero = Ok (fs_totalSizeMB (fst acc))
  /\ PyDict.wf (fs_fileTypes (fst acc))
  /\ (forall d, folder_in d (snd acc) -> folder_good d).

End Invariants.

(** Claim C4 as it is stated, for one configuration and service: in every
    tree the scanner returns, the counters and histograms of every folder
    are the sums over its children, and so is its total size. *)
Definition scanner_aggregates_exact {F} {PF : PyFloat F}
  (maxRetries retryDelay : Z)
  (remote_list : Z -> string -> option string -> api_outcome list_response)
  (remote_get : Z -> string -> api_outcome get_response) : Prop :=
  forall fuel id name st tree st',
    get_folder_tree maxRetries retryDelay remote_list remote_get fuel id name st
    = Some (Ok tree, st') ->
    forall d, folder_of_tree d tree -> counts_aggregate d /\ size_is_sum d.

(* ================================================================== *)
(** ** Further notions for the properties of the program *)


(** The tags of an entry of [modified_files], read off its own old and
    new values. *)
Definition tags_of (m : modified_entry) : list string :=
  (if String.eqb (m_name m) (m_old_name m) then [] else ["renamed"])
    ++ (if m_new_size m =? m_old_size m then [] else ["resized"])
    ++ (if String.eqb (m_new_modified m) (m_old_modified m) then []
        else ["modified"]).

Definition first_char (s : string) : option ascii :=
  match s with
  | EmptyString => None
  | String c _ => Some c
  end.

Section TreeWalk.
Context {F : Type} {PF : PyFloat F}.

(** The files at or below a node, in the order of the walk: children
    from first to last, a folder's files where the folder stands. *)
Fixpoint node_files (n : node F) : list (file_node F) :=
  match n with
  | FileNode f => [f]
  | FolderNode _ _ _ _ _ _ _ _ children _ _ => flat_map node_files children
  end.

Definition tree_files (data : folder_data F) : list (file_node F) :=
  flat_map node_files (children data).

(** The folder nodes at or below a node, each with its fields. *)
Fixpoint node_folders (n : node F) : list (folder_data F) :=
  match n with
  | FileNode _ => []
  | FolderNode _ _ _ _ fc dc sz lu children ft sd =>
      {| fileCount := fc; folderCount := dc; totalSizeMB := sz;
         lastUpdated := lu; children := children; fileTypes := ft;
         sizeDistribution := sd |}
        :: flat_map node_folders children
  end.

Definition tree_folders (data : folder_data F) : list (folder_data F) :=
  flat_map node_folders (children data).

Variable md5_hexdigest : string -> string.
Variable frepr : F -> string.

(** The entry that line 174 stores for a file. *)
Definition signature_entry (f : file_node F) : sig_info :=
  {| signature := generate_file_signature md5_hexdigest frepr f;
     sig_name := f_name f;
     sig_size := bytes (f_size f);
     sig_modified := f_modifiedTime f |}.

(** Line 174: the entry of a file is stored under its id. *)
Definition store_file (sigs : dict sig_info) (f : file_node F) : dict sig_info :=
  PyDict.set sigs (f_id f) (signature_entry f).

End TreeWalk.

(** What [get_folder_tree] returns for a folder without entries. *)
Definition empty_folder_data {F} {PF : PyFloat F} : folder_data F :=
  {| fileCount := 0; folderCount := 0; totalSizeMB := fzero;
     lastUpdated := "N/A"; children := []; fileTypes := [];
     sizeDistribution := {| small := 0; medium := 0; large := 0; huge := 0 |} |}.

(** The query of line 390. *)
Definition children_query (folder_id : string) : string :=
  ("'" ++ folder_id ++ "' in parents and trashed = false")%string.

(** The sum of the counts of a histogram. *)
Definition dict_total (d : dict Z) : Z :=
  fold_right (fun kv acc => snd kv + acc) 0 d.

Definition bucket_total (sd : size_distribution) : Z :=
  small sd + medium sd + large sd + huge sd.

Section CountInvariants.
Context {F : Type} {PF : PyFloat F}.

(** The counters of one folder against its own content. *)
Definition folder_counts (d : folder_data F) : Prop :=
  dict_total (fileTypes d) = fileCount d
  /\ bucket_total (sizeDistribution d) = fileCount d
  /\ fileCount d = len (tree_files d)
  /\ folderCount d = len (tree_folders d).

(** What is shown of a returned tree and the states before and after its
    scan. *)
Definition tree_counts (st : stats) (tree : folder_data F) (st' : stats) : Prop :=
  totalFiles st' = totalFiles st + fileCount tree
  /\ totalFolders st' = totalFolders st + folderCount tree
  /\ forall d, folder_of_tree d tree -> folder_counts d.

Definition rec_counts (rec : string -> string -> scan (folder_data F)) : Prop :=
  forall id name st tree st',
    rec id name st = Some (Ok tree, st') -> tree_counts st tree st'.

(** The same for the running counters of a folder; [st0] is the state in
    which its scan began. *)
Definition acc_counts (st0 : stats) (acc : folder_stats F * list (node F))
  (st : stats) : Prop :=
  totalFiles st = totalFiles st0 + fs_fileCount (fst acc)
  /\ totalFolders st = totalFolders st0 + fs_folderCount (fst acc)
  /\ dict_total (fs_fileTypes (fst acc)) = fs_fileCount (fst acc)
  /\ bucket_total (fs_sizeDistribution (fst acc)) = fs_fileCount (fst acc)
  /\ fs_fileCount (fst acc) = len (flat_map node_files (snd acc))
  /\ fs_folderCount (fst acc) = len (flat_map node_folders (snd acc))
  /\ forall d, folder_in d (snd acc) -> folder_counts d.

End CountInvariants.

Section NodeFields.
Context {F : Type}.

(** The ["id"], the ["name"] and the kind of a child. *)
Definition node_id (n : node F) : string :=
  match n with
  | FileNode f => f_id f
  | FolderNode _ id _ _ _ _ _ _ _ _ _ => id
  end.

Definition node_name (n : node F) : string :=
  match n with
  | FileNode f => f_name f
  | FolderNode name _ _ _ _ _ _ _ _ _ _ => name
  end.

Definition node_is_folder (n : node F) : bool :=
  match n with
  | FileNode _ => false
  | FolderNode _ _ _ _ _ _ _ _ _ _ _ => true
  end.

End NodeFields.

(** [item['mimeType'] == 'application/vnd.google-apps.folder'] *)
Definition item_is_folder (item : remote_item) : bool :=
  String.eqb (r_mimeType item) FOLDER_MIME.

(** A character of a date or a time of day: none of the separators
    ["T"], ["Z"] and ["."] of a timestamp. *)
Definition plain_time_char (c : ascii) : bool :=
  negb (Ascii.eqb c "T") && negb (Ascii.eqb c "Z") && negb (Ascii.eqb c ".").

(* ================================================================== *)
(** ** One run: the new version and the history *)

(** [__version__] of the scanner. *)
Definition scanner_version : string := "1.0.0".

(** The change set as the value stored under ["changes"], lines 190-259. *)
Definition file_ref_value (r : file_ref) : pyval :=
  PDict [ ("id", PStr (ref_id r));
          ("name", PStr (ref_name r));
          ("size", PInt (ref_size r)) ].

Definition modified_entry_value (m : modified_entry) : pyval :=
  PDict [ ("id", PStr (m_id m));
          ("name", PStr (m_name m));
          ("old_name", PStr (m_old_name m));
          ("old_modified", PStr (m_old_modified m));
          ("new_modified", PStr (m_new_modified m));
          ("old_size", PInt (m_old_size m));
          ("new_size", PInt (m_new_size m));
          ("change_type", PStr (m_change_type m)) ].

Definition changes_value (changes : change_set) : pyval :=
  PDict [ ("added_files", PList (map file_ref_value (added_files changes)));
          ("deleted_files", PList (map file_ref_value (deleted_files changes)));
          ("modified_files",
             PList (map modified_entry_value (modified_files changes)));
          ("total_changes", PInt (total_changes changes));
          ("summary", PStr (summary changes)) ].

Section Run.
Context {F : Type} {PF : PyFloat F}.
Variable md5_hexdigest : string -> string.
Variable frepr : F -> string.

(** The rational a [float] denotes. *)
Variable fval : F -> Q.

(** The ["stats"] of a history entry, lines 559-563; [total] is
    [self.stats['totalSizeMB']], set in line 596. *)
Definition stats_value (st : stats) (total : F) : pyval :=
  PDict [ ("totalFiles", PInt (totalFiles st));
          ("totalFolders", PInt (totalFolders st));
          ("totalSizeMB", PFloat (fval (fround total 2))) ].

(** [history_entry] of lines 554-564; [ph_time] is the time of the
    clock in line 520. *)
Definition history_entry (version ph_time : string) (changes : change_set)
  (st : stats) (total : F) : entry :=
  [ ("version", PStr version);
    ("scan_date", PStr ph_time);
    ("scanner_version", PStr scanner_version);
    ("changes", changes_value changes);
    ("stats", stats_value st total) ].

(** The part of [run] that decides the version and the history: lines
    599-609 with lines 554-567 of [save_scan_with_version]. [loaded] is
    what [load_version_history] returns, [st] the statistics after the
    scan, [current_version] is [self.current_version]. The result is the
    new version, the change set and the history that is written. *)
Definition run_version_history (current_version : string)
  (previous_data : previous_scan) (loaded : list entry) (ph_time : string)
  (scan_data : folder_data F) (st : stats)
  : pyresult (string * change_set * list entry) :=
  (let changes := detect_changes md5_hexdigest frepr scan_data previous_data in
   let has_changes := 0 <? total_changes changes in
   new_version <- increment_version current_version has_changes ;;
   updated_history <-
     save_version_history loaded
       (history_entry new_version ph_time changes st (totalSizeMB scan_data)) ;;
   Ok (new_version, changes, updated_history))%pyres.

End Run.

Section StampInvariants.
Context {F : Type} {PF : PyFloat F}.

(** The modification times shown by the files of a list of children, at
    any depth. *)
Definition file_times (nodes : list (node F)) : list string :=
  map f_modifiedTime (flat_map node_files nodes).

(** ["lastUpdated"] of one folder against the files below it. *)
Definition folder_stamp (d : folder_data F) : Prop :=
  lastUpdated d <> ""
  /\ (lastUpdated d = "N/A" \/ In (lastUpdated d) (file_times (children d))).

Definition rec_stamps (rec : string -> string -> scan (folder_data F)) : Prop :=
  forall id name st tree st',
    rec id name st = Some (Ok tree, st') ->
    forall d, folder_of_tree d tree -> folder_stamp d.

(** The same for the running ['lastModified'] of a folder. *)
Definition acc_stamps (acc : folder_stats F * list (node F)) : Prop :=
  (forall s, fs_lastModified (fst acc) = Some s -> In s (file_times (snd acc)))
  /\ forall d, folder_in d (snd acc) -> folder_stamp d.

End StampInvariants.

(** [response.get('files', [])] *)
Definition response_files (response : list_response) : list remote_item :=
  match files response with
  | Some l => l
  | None => []
  end.

(** The pages with which a service answers the listing [query] from
    [page_token] on, whatever the number of the call: every page but the
    last names the next one. *)
Inductive page_chain
  (remote_list : Z -> string -> option string -> api_outcome list_response)
  (query : string) : option string -> list list_response -> Prop :=
| chain_last (page_token : option string) (response : list_response) :
    (forall n, remote_list n query page_token = ApiReturn (Some response)) ->
    str_truthy (nextPageToken response) = false ->
    page_chain remote_list query page_token [response]
| chain_more (page_token : option string) (response : list_response)
    (rest : list list_response) :
    (forall n, remote_list n query page_token = ApiReturn (Some response)) ->
    str_truthy (nextPageToken response) = true ->
    page_chain remote_list query (nextPageToken response) rest ->
    page_chain remote_list query page_token (response :: rest).

(** The entries of a listing as the children show them. *)
Definition same_entries {F} (nodes : list (node F)) (items : list remote_item)
  : Prop :=
  map node_id nodes = map r_id items
  /\ map node_name nodes = map r_name items
  /\ map node_is_folder nodes = map item_is_folder items.




(* ================================================================== *)
(** ** Exact arithmetic as an instance of the float interface *)

(** Rationals with round-half-even; quotients and rounded values are kept
    in lowest terms. On the sizes used in the examples below every
    quotient and sum is a multiple of [2^-30] far below [2^53], hence
    exact in binary floating point as well, and no rounding hits a
    tie. This is not a model of binary doubles: on other sizes a double
    can round the other way, and a quotient too large for a double
    raises [OverflowError] where this division does not. The instance
    serves the examples only; every other statement is proved for all
    instances of [PyFloat]. *)
Module ExactFloat.

Definition round_half_even (q : Q) : Z :=
  let f := Qfloor q in
  let r := (q - inject_Z f)%Q in
  match (r ?= 1 # 2)%Q with
  | Lt => f
  | Gt => f + 1
  | Eq => if Z.even f then f else f + 1
  end.

Definition pow10 (n : Z) : Q := Qpower (inject_Z 10) n.

Definition round (x : Q) (ndigits : Z) : Q :=
  Qred (inject_Z (round_half_even (x * pow10 ndigits)) / pow10 ndigits).

Definition div (a b : Z) : pyresult Q :=
  if b =? 0 then Raise (OtherError "division by zero")
  else Ok (Qred (inject_Z a / inject_Z b)).

Definition lt_int (x : Q) (n : Z) : bool :=
  negb (Qle_bool (inject_Z n) x).

Lemma add_zero_r (x : Q) : (x + 0)%Q = x.
Proof.
  destruct x as [n d]. unfold Qplus. cbn [Qnum Qden].
  rewrite Z.mul_1_r, Z.mul_0_l, Z.add_0_r, Pos.mul_1_r. reflexivity.
Qed.

Lemma add_zero_l (x : Q) : (0 + x)%Q = x.
Proof.
  destruct x as [n d]. unfold Qplus. cbn [Qnum Qden].
  rewrite Z.mul_1_r, Z.mul_0_l, Z.add_0_l, Pos.mul_1_l. reflexivity.
Qed.

Lemma Qred_zero (q : Q) : (q == 0)%Q -> Qred q = 0%Q.
Proof. intros E. apply (Qred_complete _ _ E). Qed.

Lemma div_zero (d : Z) : 0 < d -> div 0 d = Ok 0%Q.
Proof.
  intros Hd. unfold div.
  destruct (Z.eqb_spec d 0) as [->|_]; [lia|].
  apply f_equal, Qred_zero. unfold Qdiv. apply Qmult_0_l.
Qed.

Lemma round_half_even_zero (q : Q) : (q == 0)%Q -> round_half_even q = 0.
Proof.
  intros E. unfold round_half_even.
  rewrite (Qfloor_comp _ _ E). change (Qfloor 0) with 0.
  assert (C : ((q - inject_Z 0 ?= 1 # 2) = Lt)%Q).
  { rewrite <- Qlt_alt. rewrite E. reflexivity. }
  rewrite C. reflexivity.
Qed.

Lemma round_zero (n : Z) : round 0%Q n = 0%Q.
Proof.
  unfold round. apply Qred_zero.
  rewrite round_half_even_zero by apply Qmult_0_l.
  unfold Qdiv. apply Qmult_0_l.
Qed.

Lemma lt_zero (n : Z) : 0 < n -> lt_int 0%Q n = true.
Proof.
  intros Hn. unfold lt_int.
  destruct (Qle_bool (inject_Z n) 0) eqn:E; [|reflexivity].
  apply Qle_bool_imp_le in E. unfold Qle in E. cbn in E. lia.
Qed.

#[global] Instance exact_float : PyFloat Q := {|
  fzero := 0%Q;
  fadd := Qplus;
  fdiv := div;
  fround := round;
  flt_int := lt_int;
  fadd_zero_r := add_zero_r;
  fadd_zero_l := add_zero_l;
  fdiv_zero := div_zero;
  fround_zero := round_zero;
  flt_zero := lt_zero
|}.

End ExactFloat.

(* ================================================================== *)
(** ** Sample inputs *)

(** A history entry that reports two changes. *)
Definition sample_changed_entry : entry :=
  [("version", PStr "1.0.1"); ("scan_date", PStr "2024-01-02");
   ("changes", PDict [("total_changes", PInt 2)])].

(** A history entry that reports no change. *)
Definition sample_unchanged_entry : entry :=
  [("version", PStr "1.0.0"); ("scan_date", PStr "2024-01-02");
   ("changes", PDict [("total_changes", PInt 0)])].

(** Fifty entries written with the old key ["n_version"]. *)
Definition sample_full_history : list entry :=
  repeat [("n_version", PStr "1.0.0")] 50.

(** A history whose only entry was written with the old key
    ["current_version"]. *)
Definition sample_legacy_history : list entry :=
  [ [("current_version", PStr "1.0.0"); ("scan_date", PStr "2024-01-01")] ].

(** A file child of [size] bytes. *)
Definition sample_file (id name : string) (size : Z) (modified : string)
  : node Q :=
  FileNode
    {| f_name := name; f_id := id; f_mimeType := "text/plain";
       f_category := "documents";
       f_size := {| bytes := size; kb := 0%Q; mb := 0%Q; gb := 0%Q |};
       f_driveLink := ""; f_modifiedTime := modified; f_createdTime := modified |}.

(** A tree with the files A and C at the top and D in a subfolder. *)
Definition sample_tree : folder_data Q :=
  {| fileCount := 3; folderCount := 1; totalSizeMB := 0%Q;
     lastUpdated := "2024-01-02";
     children :=
       [ sample_file "A" "a.txt" 700 "2024-01-02";
         FolderNode "sub" "S" "" "" 1 0 (0%Q) "2024-01-01"
           [ sample_file "D" "d.txt" 40 "2024-01-01" ]
           [("documents", 1)]
           {| small := 1; medium := 0; large := 0; huge := 0 |};
         sample_file "C" "c.txt" 500 "2024-01-02" ];
     fileTypes := [("documents", 3)];
     sizeDistribution := {| small := 3; medium := 0; large := 0; huge := 0 |} |}.

(** A previous scan that knew A with another size, B and D. *)
Definition sample_previous : previous_scan :=
  {| prev_version := "1.0.0";
     file_signatures :=
       Some [ ("A", {| signature := "s1"; sig_name := "a.txt"; sig_size := 600;
                       sig_modified := "2024-01-02" |});
              ("B", {| signature := "s2"; sig_name := "b.txt"; sig_size := 10;
                       sig_modified := "2024-01-01" |});
              ("D", {| signature := "s3"; sig_name := "d.txt"; sig_size := 40;
                       sig_modified := "2024-01-01" |}) ] |}.

(** Stand-ins for the hash and for [repr] in the examples. *)
Definition sample_md5 (s : string) : string := s.
Definition sample_repr (x : Q) : string := "0.0".

(** A listing entry for a file whose size the service reports as the
    string [size]. *)
Definition sample_item (id name mime : string) (size : option pyval)
  : remote_item :=
  {| r_id := id; r_name := name; r_mimeType := mime; r_size := size;
     r_modifiedTime := Some "2024-01-02T03:04:05.000Z";
     r_createdTime := Some "2024-01-01T00:00:00.000Z";
     r_webViewLink := None |}.

(** A service whose root folder holds two files of 3000 bytes. *)
Definition two_small_files (n : Z) (query : string) (page_token : option string)
  : api_outcome list_response :=
  ApiReturn
    (Some {| files := Some [ sample_item "A" "a.txt" "text/plain" (Some (PStr "3000"));
                             sample_item "B" "b.png" "image/png" (Some (PStr "3000")) ];
             nextPageToken := None |}).

(** A service whose root holds the folder S, a file A of 2 MB and a file
    B without size; S holds the file D. *)
Definition small_drive (n : Z) (query : string) (page_token : option string)
  : api_outcome list_response :=
  if String.eqb query "'root' in parents and trashed = false" then
    ApiReturn
      (Some {| files := Some [ sample_item "S" "sub" FOLDER_MIME None;
                               sample_item "A" "a.txt" "text/plain"
                                 (Some (PStr "2097152"));
                               sample_item "B" "b.png" "image/png" None ];
               nextPageToken := None |})
  else if String.eqb query "'S' in parents and trashed = false" then
    ApiReturn
      (Some {| files := Some [ sample_item "D" "d.pdf" "application/pdf"
                                 (Some (PStr "3000")) ];
               nextPageToken := None |})
  else ApiReturn None.

(** A service that answers every listing with the rate-limit status. *)
Definition always_rate_limited (n : Z) (query : string)
  (page_token : option string) : api_outcome list_response :=
  ApiHttpError 429 "rate limit".

(** A service that answers every listing with a server error. *)
Definition always_server_error (n : Z) (query : string)
  (page_token : option string) : api_outcome list_response :=
  ApiHttpError 500 "server error".

Definition no_description (n : Z) (folder_id : string) : api_outcome get_response :=
  ApiReturn (Some {| description := None |}).

(** A previous scan that knew the files of [sample_tree] as they are,
    under other fingerprints. *)
Definition sample_same_previous : previous_scan :=
  {| prev_version := "1.0.0";
     file_signatures :=
       Some [ ("D", {| signature := "x"; sig_name := "d.txt"; sig_size := 40;
                       sig_modified := "2024-01-01" |});
              ("A", {| signature := "y"; sig_name := "a.txt"; sig_size := 700;
                       sig_modified := "2024-01-02" |});
              ("C", {| signature := "z"; sig_name := "c.txt"; sig_size := 500;
                       sig_modified := "2024-01-02" |}) ] |}.


(** A service that refuses every listing. *)
Definition always_forbidden (n : Z) (query : string)
  (page_token : option string) : api_outcome list_response :=
  ApiHttpError 403 "forbidden".

(** The scan of a first run: nothing is known of a previous scan. *)
Definition sample_first_previous : previous_scan :=
  {| prev_version := "1.0.0"; file_signatures := None |}.

(** The tree of an empty root folder. *)
Definition sample_empty_tree : folder_data Q := empty_folder_data.

(** The two pages of the root of [paged_drive]. *)
Definition paged_drive_first : list_response :=
  {| files := Some [ sample_item "A" "a.txt" "text/plain" (Some (PStr "10"));
                     sample_item "S" "sub" FOLDER_MIME None ];
     nextPageToken := Some "p2" |}.

Definition paged_drive_last : list_response :=
  {| files := Some [ sample_item "B" "b.png" "image/png" None ];
     nextPageToken := None |}.

(** A service that lists its root in two pages; the folder S is empty. *)
Definition paged_drive (n : Z) (query : string) (page_token : option string)
  : api_outcome list_response :=
  if String.eqb query "'root' in parents and trashed = false" then
    match page_token with
    | None => ApiReturn (Some paged_drive_first)
    | Some _ => ApiReturn (Some paged_drive_last)
    end
  else ApiReturn (Some {| files := None; nextPageToken := None |}).

(** A service whose root holds a file and then a file whose size is not
    a number. *)
Definition drive_with_bad_size (n : Z) (query : string)
  (page_token : option string) : api_outcome list_response :=
  ApiReturn
    (Some {| files := Some [ sample_item "A" "a.txt" "text/plain" (Some (PStr "10"));
                             sample_item "B" "b.txt" "text/plain"
                               (Some (PStr "12 MB")) ];
             nextPageToken := None |}).

(** A row of [n] nines. *)
Fixpoint nines (n : nat) : string :=
  match n with
  | O => EmptyString
  | S n' => String "9" (nines n')
  end.

(** A version whose major is 4300 nines. *)
Definition sample_long_version : string := (nines 4300 ++ ".9.9")%string.

(* ================================================================== *)
(** * Properties *)

Example increment_129 : increment_version "1.2.9" true = Ok "1.3.0".
Proof. reflexivity. Qed.
Example increment_199 : increment_version "1.9.9" true = Ok "2.0.0".
Proof. reflexivity. Qed.
Example increment_999 : increment_version "9.9.9" true = Ok "10.0.0".
Proof. reflexivity. Qed.
Example increment_bad : increment_version "1.2" true = Ok "1.0.1".
Proof. reflexivity. Qed.
Example increment_ws : increment_version " +1_0 .-2. 3" true = Ok "10.-2.4".
Proof. reflexivity. Qed.

(* ------------------------------------------------------------------ *)
(** ** Facts about [str(int)] and [int(str)] *)

Module PyStrFacts.
Import PyStr.

Lemma digit_val_digit_char (d : Z) :
  0 <= d <= 9 -> digit_val (digit_char d) = Some d.
Proof.
  intros H.
  assert (C : d = 0 \/ d = 1 \/ d = 2 \/ d = 3 \/ d = 4 \/ d = 5 \/ d = 6
              \/ d = 7 \/ d = 8 \/ d = 9) by lia.
  repeat (destruct C as [-> | C]; [reflexivity|]). subst d. reflexivity.
Qed.

Lemma digit_char_cases (P : ascii -> Prop) :
  P "0"%char -> P "1"%char -> P "2"%char -> P "3"%char -> P "4"%char ->
  P "5"%char -> P "6"%char -> P "7"%char -> P "8"%char -> P "9"%char ->
  forall d, 0 <= d <= 9 -> P (digit_char d).
Proof.
  intros H0 H1 H2 H3 H4 H5 H6 H7 H8 H9 d H.
  assert (C : d = 0 \/ d = 1 \/ d = 2 \/ d = 3 \/ d = 4 \/ d = 5 \/ d = 6
              \/ d = 7 \/ d = 8 \/ d = 9) by lia.
  repeat (destruct C as [-> | C]; [assumption|]). subst d. assumption.
Qed.

Lemma mod10_range (n : Z) : 0 <= n mod 10 <= 9.
Proof. pose proof (Z.mod_pos_bound n 10). lia. Qed.

(** The digits written for [n] read back as [n]. *)
Lemma int_digits_str_digits (fuel : nat) :
  forall n rest b,
    0 <= n < 2 ^ Z.of_nat (S fuel) ->
    int_digits (str_digits (S fuel) n rest) b 0 = int_digits rest true n.
Proof.
  induction fuel as [|fuel IH]; intros n rest b Hn.
  - cbn [str_digits]. change (2 ^ Z.of_nat 1) with 2 in Hn.
    destruct (Z.ltb_spec n 10) as [Hlt|Hge]; [|lia].
    cbn [int_digits]. rewrite Z.mod_small by lia.
    rewrite digit_val_digit_char by lia. f_equal.
  - change (str_digits (S (S fuel)) n rest)
      with (let acc' := String (digit_char (n mod 10)) rest in
            if n <? 10 then acc' else str_digits (S fuel) (n / 10) acc').
    cbv zeta. destruct (Z.ltb_spec n 10) as [Hlt|Hge].
    + cbn [int_digits]. rewrite Z.mod_small by lia.
      rewrite digit_val_digit_char by lia. f_equal.
    + rewrite IH.
      * cbn [int_digits]. rewrite digit_val_digit_char by apply mod10_range.
        f_equal. pose proof (Z.div_mod n 10). lia.
      * rewrite (Nat2Z.inj_succ (S fuel)), Z.pow_succ_r in Hn by lia.
        split; [apply Z.div_pos; lia|].
        apply Z.div_lt_upper_bound; lia.
Qed.

Lemma log2_fuel (n : Z) : 0 <= n -> n < 2 ^ Z.of_nat (S (Z.to_nat (Z.log2 n))).
Proof.
  intros Hn. rewrite Nat2Z.inj_succ, Z2Nat.id by apply Z.log2_nonneg.
  destruct (Z.eq_dec n 0) as [->|Hz]; [reflexivity|].
  apply Z.log2_spec. lia.
Qed.

Lemma str_digits_head (fuel : nat) :
  forall n rest, exists d r,
    0 <= d <= 9 /\ str_digits (S fuel) n rest = String (digit_char d) r.
Proof.
  induction fuel as [|fuel IH]; intros n rest.
  - exists (n mod 10), rest. split; [apply mod10_range|].
    cbn [str_digits]. destruct (n <? 10); reflexivity.
  - change (str_digits (S (S fuel)) n rest)
      with (let acc' := String (digit_char (n mod 10)) rest in
            if n <? 10 then acc' else str_digits (S fuel) (n / 10) acc').
    cbv zeta. destruct (n <? 10).
    + exists (n mod 10), rest. split; [apply mod10_range|reflexivity].
    + apply IH.
Qed.

Lemma str_digits_all (p : ascii -> bool) :
  (forall d, 0 <= d <= 9 -> p (digit_char d) = true) ->
  forall fuel n rest,
    all_chars p rest = true -> all_chars p (str_digits fuel n rest) = true.
Proof.
  intros Hp. induction fuel as [|fuel IH]; intros n rest Hrest; [exact Hrest|].
  cbn [str_digits].
  assert (H : all_chars p (String (digit_char (n mod 10)) rest) = true).
  { cbn [all_chars]. rewrite Hp by apply mod10_range. exact Hrest. }
  destruct (n <? 10); [exact H | apply IH, H].
Qed.

Lemma lstrip_nonspace (c : ascii) (s : string) :
  is_space c = false -> lstrip (String c s) = String c s.
Proof. intros H. cbn [lstrip]. rewrite H. reflexivity. Qed.

Lemma rstrip_nonspace (s : string) :
  all_chars (fun c => negb (is_space c)) s = true -> rstrip s = s.
Proof.
  induction s as [|c s IH]; [reflexivity|].
  cbn [all_chars]. intros H. apply andb_prop in H. destruct H as [Hc Hs].
  cbn [rstrip]. rewrite (IH Hs).
  apply negb_true_iff in Hc. rewrite Hc.
  destruct s; reflexivity.
Qed.

Lemma digit_not_space (d : Z) :
  0 <= d <= 9 -> negb (is_space (digit_char d)) = true.
Proof.
  revert d.
  apply (digit_char_cases (fun c => negb (is_space c) = true)); reflexivity.
Qed.

Lemma strip_str_of_nonneg (n : Z) : strip (str_of_nonneg n) = str_of_nonneg n.
Proof.
  unfold strip, str_of_nonneg.
  destruct (str_digits_head (Z.to_nat (Z.log2 n)) n EmptyString)
    as (d & r & Hd & E).
  assert (A : all_chars (fun c => negb (is_space c))
                (str_digits (S (Z.to_nat (Z.log2 n))) n EmptyString) = true)
    by (apply str_digits_all; [exact digit_not_space | reflexivity]).
  rewrite E in *. rewrite lstrip_nonspace.
  - apply rstrip_nonspace, A.
  - apply negb_true_iff, digit_not_space, Hd.
Qed.

Lemma digit_val_range (c : ascii) (d : Z) :
  digit_val c = Some d -> 0 <= d <= 9.
Proof.
  unfold digit_val.
  destruct ((48 <=? code c) && (code c <=? 57))%N eqn:E; [|discriminate].
  apply andb_prop in E. destruct E as [E1 E2].
  apply N.leb_le in E1, E2. intros H. injection H as <-. lia.
Qed.

Lemma is_digit_digit_char (d : Z) : 0 <= d <= 9 -> is_digit (digit_char d) = true.
Proof.
  intros H. unfold is_digit. rewrite (digit_val_digit_char d H). reflexivity.
Qed.

Lemma count_digits_nonneg (s : string) : 0 <= count_digits s.
Proof.
  induction s as [|c s IH]; cbn [count_digits]; [lia|].
  destruct (is_digit c); lia.
Qed.

Lemma count_digits_digit (d : Z) (s : string) :
  count_digits (String (digit_char (d mod 10)) s) = 1 + count_digits s.
Proof.
  cbn [count_digits]. rewrite is_digit_digit_char by apply mod10_range.
  reflexivity.
Qed.

Lemma count_digits_str_digits_mono (fuel : nat) :
  forall n acc, count_digits acc <= count_digits (str_digits fuel n acc).
Proof.
  induction fuel as [|fuel IH]; intros n acc; [cbn [str_digits]; lia|].
  cbn [str_digits]. pose proof (count_digits_digit n acc) as D.
  destruct (n <? 10); [lia|].
  pose proof (IH (n / 10) (String (digit_char (n mod 10)) acc)). lia.
Qed.

(** A number below [10 ^ k] is written with at most [k] digits. *)
Lemma count_digits_str_digits_le (fuel : nat) :
  forall n acc k,
    1 <= k -> 0 <= n < 10 ^ k ->
    count_digits (str_digits fuel n acc) <= count_digits acc + k.
Proof.
  induction fuel as [|fuel IH]; intros n acc k Hk Hn; [cbn [str_digits]; lia|].
  cbn [str_digits]. pose proof (count_digits_digit n acc) as D.
  destruct (Z.ltb_spec n 10) as [Hlt|Hge]; [lia|].
  assert (K : 2 <= k).
  { destruct (Z.eq_dec k 1) as [->|]; [|lia].
    change (10 ^ 1) with 10 in Hn. lia. }
  assert (P : 10 ^ k = 10 * 10 ^ (k - 1)).
  { replace k with (Z.succ (k - 1)) at 1 by lia. apply Z.pow_succ_r. lia. }
  pose proof (IH (n / 10) (String (digit_char (n mod 10)) acc) (k - 1)) as H.
  assert (Q : 0 <= n / 10 < 10 ^ (k - 1)).
  { split; [apply Z.div_pos; lia|]. apply Z.div_lt_upper_bound; lia. }
  specialize (H ltac:(lia) Q). lia.
Qed.

(** A number from [10 ^ k] on is written with more than [k] digits. *)
Lemma count_digits_str_digits_gt (fuel : nat) :
  forall n acc k,
    0 <= k -> 10 ^ k <= n < 2 ^ Z.of_nat (S fuel) ->
    count_digits acc + k < count_digits (str_digits (S fuel) n acc).
Proof.
  induction fuel as [|fuel IH]; intros n acc k Hk Hn.
  - cbn [str_digits]. pose proof (count_digits_digit n acc) as D.
    change (2 ^ Z.of_nat 1) with 2 in Hn.
    assert (K : k = 0).
    { destruct (Z.eq_dec k 0) as [|Hne]; [assumption|].
      assert (10 ^ 1 <= 10 ^ k) by (apply Z.pow_le_mono_r; lia).
      change (10 ^ 1) with 10 in *. lia. }
    destruct (n <? 10); lia.
  - change (str_digits (S (S fuel)) n acc)
      with (let acc' := String (digit_char (n mod 10)) acc in
            if n <? 10 then acc' else str_digits (S fuel) (n / 10) acc').
    cbv zeta. pose proof (count_digits_digit n acc) as D.
    destruct (Z.ltb_spec n 10) as [Hlt|Hge].
    + assert (K : k = 0).
      { destruct (Z.eq_dec k 0) as [|Hne]; [assumption|].
        assert (10 ^ 1 <= 10 ^ k) by (apply Z.pow_le_mono_r; lia).
        change (10 ^ 1) with 10 in *. lia. }
      lia.
    + destruct (Z.eq_dec k 0) as [->|Hne].
      * pose proof (count_digits_str_digits_mono (S fuel) (n / 10)
                      (String (digit_char (n mod 10)) acc)). lia.
      * assert (P : 10 ^ k = 10 * 10 ^ (k - 1)).
        { replace k with (Z.succ (k - 1)) at 1 by lia. apply Z.pow_succ_r. lia. }
        pose proof (IH (n / 10) (String (digit_char (n mod 10)) acc) (k - 1)) as H.
        assert (Q : 10 ^ (k - 1) <= n / 10 < 2 ^ Z.of_nat (S fuel)).
        { rewrite (Nat2Z.inj_succ (S fuel)), Z.pow_succ_r in Hn by lia. split.
          - apply Z.div_le_lower_bound; lia.
          - apply Z.div_lt_upper_bound; lia. }
        specialize (H ltac:(lia) Q). lia.
Qed.

Lemma count_digits_app (a b : string) :
  count_digits (a ++ b) = count_digits a + count_digits b.
Proof.
  induction a as [|c a IH]; [reflexivity|].
  cbn [String.append count_digits]. rewrite IH. lia.
Qed.

Lemma count_digits_decimal (n : Z) :
  count_digits (decimal n) = count_digits (str_of_nonneg (Z.abs n)).
Proof.
  unfold decimal. destruct (Z.ltb_spec n 0).
  - cbn [count_digits]. change (is_digit "-") with false.
    rewrite Z.abs_neq by lia. reflexivity.
  - rewrite Z.abs_eq by lia. reflexivity.
Qed.

(** The digits of a numeral against the size of the number. *)
Lemma count_digits_decimal_le (n k : Z) :
  1 <= k -> Z.abs n < 10 ^ k -> count_digits (decimal n) <= k.
Proof.
  intros Hk Hn. rewrite count_digits_decimal. unfold str_of_nonneg.
  pose proof (count_digits_str_digits_le
                (S (Z.to_nat (Z.log2 (Z.abs n)))) (Z.abs n) EmptyString k Hk) as H.
  cbn [count_digits] in H. apply H. lia.
Qed.

Lemma count_digits_decimal_gt (n k : Z) :
  0 <= k -> 10 ^ k <= Z.abs n -> k < count_digits (decimal n).
Proof.
  intros Hk Hn. rewrite count_digits_decimal. unfold str_of_nonneg.
  pose proof (count_digits_str_digits_gt
                (Z.to_nat (Z.log2 (Z.abs n))) (Z.abs n) EmptyString k Hk) as H.
  cbn [count_digits] in H. apply H.
  split; [exact Hn | apply log2_fuel; lia].
Qed.

(** [str] writes a number exactly when it is below [10 ^ 4300] in
    absolute value. *)
Lemma str_of_int_within (n : Z) :
  Z.abs n < 10 ^ MAX_STR_DIGITS -> str_of_int n = Some (decimal n).
Proof.
  intros H. unfold str_of_int.
  pose proof (count_digits_decimal_le n MAX_STR_DIGITS ltac:(discriminate) H).
  destruct (Z.ltb_spec MAX_STR_DIGITS (count_digits (decimal n))); [lia|].
  reflexivity.
Qed.

Lemma str_of_int_over (n : Z) :
  10 ^ MAX_STR_DIGITS <= Z.abs n -> str_of_int n = None.
Proof.
  intros H. unfold str_of_int.
  pose proof (count_digits_decimal_gt n MAX_STR_DIGITS ltac:(discriminate) H).
  destruct (Z.ltb_spec MAX_STR_DIGITS (count_digits (decimal n))); [|lia].
  reflexivity.
Qed.

Lemma int_literal_str_of_nonneg (n : Z) :
  0 <= n < 10 ^ MAX_STR_DIGITS -> int_literal (str_of_nonneg n) = Some n.
Proof.
  intros Hn. unfold int_literal.
  pose proof (count_digits_decimal_le n MAX_STR_DIGITS ltac:(discriminate)) as C.
  rewrite count_digits_decimal, Z.abs_eq in C by lia.
  specialize (C ltac:(lia)).
  destruct (Z.ltb_spec MAX_STR_DIGITS (count_digits (str_of_nonneg n))); [lia|].
  unfold str_of_nonneg. rewrite int_digits_str_digits; [reflexivity|].
  split; [lia | apply log2_fuel; lia].
Qed.

Lemma int_of_str_nonneg (n : Z) :
  0 <= n < 10 ^ MAX_STR_DIGITS -> int_of_str (str_of_nonneg n) = Some n.
Proof.
  intros Hn. unfold int_of_str. rewrite strip_str_of_nonneg.
  pose proof (int_literal_str_of_nonneg n Hn) as V.
  unfold str_of_nonneg in *.
  destruct (str_digits_head (Z.to_nat (Z.log2 n)) n EmptyString)
    as (d & r & Hd & E).
  rewrite E in *. clear E. revert d Hd V.
  apply (digit_char_cases
           (fun c => int_literal (String c r) = Some n ->
                     match String c r with
                     | String "-" rest => option_map Z.opp (int_literal rest)
                     | String "+" rest => int_literal rest
                     | body => int_literal body
                     end = Some n)); intros V; exact V.
Qed.

(** [int(str(n)) == n] for every number that [str] writes. *)
Theorem int_of_str_decimal (n : Z) :
  Z.abs n < 10 ^ MAX_STR_DIGITS -> int_of_str (decimal n) = Some n.
Proof.
  intros Hn. unfold decimal. destruct (Z.ltb_spec n 0) as [Hneg|Hpos].
  - unfold int_of_str, strip.
    rewrite lstrip_nonspace by reflexivity.
    assert (R : rstrip (str_of_nonneg (- n)) = str_of_nonneg (- n)).
    { apply rstrip_nonspace. unfold str_of_nonneg.
      apply str_digits_all; [exact digit_not_space | reflexivity]. }
    destruct (str_digits_head (Z.to_nat (Z.log2 (- n))) (- n) EmptyString)
      as (d & r & Hd & E).
    cbn [rstrip]. rewrite R. unfold str_of_nonneg at 1. rewrite E.
    fold (str_of_nonneg (- n)) in E. rewrite <- E.
    rewrite int_literal_str_of_nonneg by lia.
    cbn [option_map]. f_equal. lia.
  - apply int_of_str_nonneg. lia.
Qed.

Lemma int_of_str_of_int (n : Z) (s : string) :
  str_of_int n = Some s -> int_of_str s = Some n.
Proof.
  intros H. destruct (Z.lt_ge_cases (Z.abs n) (10 ^ MAX_STR_DIGITS)) as [Hlt|Hge].
  - rewrite (str_of_int_within n Hlt) in H. injection H as <-.
    apply int_of_str_decimal, Hlt.
  - rewrite (str_of_int_over n Hge) in H. discriminate H.
Qed.

(** What the digits of a literal amount to. *)
Lemma int_digits_bound (s : string) :
  forall b acc n,
    0 <= acc -> int_digits s b acc = Some n ->
    acc * 10 ^ count_digits s <= n < (acc + 1) * 10 ^ count_digits s.
Proof.
  induction s as [|c s IH]; intros b acc n Hacc H.
  - cbn [int_digits] in H. destruct b; [|discriminate H].
    injection H as <-. cbn [count_digits]. change (10 ^ 0) with 1. lia.
  - cbn [int_digits] in H. cbn [count_digits]. unfold is_digit.
    pose proof (count_digits_nonneg s) as Hc.
    destruct (digit_val c) as [d|] eqn:D.
    + pose proof (digit_val_range c d D) as Hd.
      assert (Hacc' : 0 <= 10 * acc + d) by lia.
      destruct (IH _ _ _ Hacc' H) as [L U].
      replace (1 + count_digits s) with (Z.succ (count_digits s)) by lia.
      rewrite Z.pow_succ_r by lia.
      assert (0 < 10 ^ count_digits s) by (apply Z.pow_pos_nonneg; lia).
      split; nia.
    + destruct (Ascii.eqb c "_" && b); [|discriminate H].
      rewrite Z.add_0_l. exact (IH _ _ _ Hacc H).
Qed.

Lemma int_literal_within (body : string) (n : Z) :
  int_literal body = Some n -> 0 <= n < 10 ^ MAX_STR_DIGITS.
Proof.
  unfold int_literal.
  destruct (Z.ltb_spec MAX_STR_DIGITS (count_digits body)) as [|Hle];
    [discriminate|].
  intros H. destruct (int_digits_bound body false 0 n ltac:(lia) H) as [L U].
  pose proof (count_digits_nonneg body).
  assert (10 ^ count_digits body <= 10 ^ MAX_STR_DIGITS)
    by (apply Z.pow_le_mono_r; lia).
  lia.
Qed.

(** What [int] accepts is a number that [str] writes. *)
Lemma int_of_str_within (s : string) (n : Z) :
  int_of_str s = Some n -> Z.abs n < 10 ^ MAX_STR_DIGITS.
Proof.
  unfold int_of_str.
  assert (B : forall body m, int_literal body = Some m ->
                             Z.abs m < 10 ^ MAX_STR_DIGITS).
  { intros body m H. apply int_literal_within in H. lia. }
  assert (O : forall body, option_map Z.opp (int_literal body) = Some n ->
                           Z.abs n < 10 ^ MAX_STR_DIGITS).
  { intros body H. destruct (int_literal body) as [m|] eqn:E; [|discriminate H].
    cbn [option_map] in H. injection H as <-.
    apply int_literal_within in E. lia. }
  destruct (strip s) as [|c rest]; [apply B|].
  destruct c as [[] [] [] [] [] [] [] []]; try apply B; apply O.
Qed.

End PyStrFacts.

(* ------------------------------------------------------------------ *)
(** ** Version Manager *)

Section VersionFacts.
Import PyStr PyStrFacts.

Lemma split_no_sep (s : string) :
  all_chars not_dot s = true -> split "." s = [s].
Proof.
  induction s as [|c s IH]; [reflexivity|].
  cbn [all_chars]. intros H. apply andb_prop in H. destruct H as [Hc Hs].
  cbn [split]. unfold not_dot in Hc. apply negb_true_iff in Hc.
  rewrite Hc, (IH Hs). reflexivity.
Qed.

Lemma split_app_sep (a b : string) :
  all_chars not_dot a = true ->
  split "." (a ++ String "." b)%string = a :: split "." b.
Proof.
  induction a as [|c a IH]; [reflexivity|].
  cbn [all_chars]. intros H. apply andb_prop in H. destruct H as [Hc Ha].
  cbn [String.append split]. unfold not_dot in Hc. apply negb_true_iff in Hc.
  rewrite Hc, (IH Ha). reflexivity.
Qed.

Lemma digit_not_dot (d : Z) : 0 <= d <= 9 -> not_dot (digit_char d) = true.
Proof.
  revert d. apply (digit_char_cases (fun c => not_dot c = true)); reflexivity.
Qed.

Lemma decimal_no_dot (n : Z) : all_chars not_dot (decimal n) = true.
Proof.
  unfold decimal, str_of_nonneg. destruct (n <? 0).
  - cbn [all_chars]. rewrite str_digits_all; [reflexivity | exact digit_not_dot | reflexivity].
  - apply str_digits_all; [exact digit_not_dot | reflexivity].
Qed.

(** The text of three numbers that [str] writes reads back as the same
    numbers. *)
Lemma parse_version_text (major minor patch : Z) :
  Z.abs major < 10 ^ MAX_STR_DIGITS ->
  Z.abs minor < 10 ^ MAX_STR_DIGITS ->
  Z.abs patch < 10 ^ MAX_STR_DIGITS ->
  parse_version (version_text (major, minor, patch)) = Ok (major, minor, patch).
Proof.
  intros HM Hm Hp. unfold parse_version, version_text.
  cbn [String.append].
  rewrite split_app_sep by apply decimal_no_dot.
  rewrite split_app_sep by apply decimal_no_dot.
  rewrite split_no_sep by apply decimal_no_dot.
  cbn [map]. rewrite !int_of_str_decimal by assumption. reflexivity.
Qed.

(** The f-string writes the text when the three numbers are below
    [10 ^ 4300] in absolute value and raises [ValueError] otherwise. *)
Lemma format_version_within (major minor patch : Z) :
  Z.abs major < 10 ^ MAX_STR_DIGITS ->
  Z.abs minor < 10 ^ MAX_STR_DIGITS ->
  Z.abs patch < 10 ^ MAX_STR_DIGITS ->
  format_version (major, minor, patch) = Ok (version_text (major, minor, patch)).
Proof.
  intros HM Hm Hp. unfold format_version, version_text.
  rewrite (str_of_int_within major HM), (str_of_int_within minor Hm),
    (str_of_int_within patch Hp).
  reflexivity.
Qed.

Lemma format_version_cases (t : Z * Z * Z) :
  (format_version t = Ok (version_text t) /\ parse_version (version_text t) = Ok t)
  \/ (format_version t = Raise ValueError
      /\ let '(major, minor, patch) := t in
         10 ^ MAX_STR_DIGITS <= Z.abs major
         \/ 10 ^ MAX_STR_DIGITS <= Z.abs minor
         \/ 10 ^ MAX_STR_DIGITS <= Z.abs patch).
Proof.
  destruct t as [[major minor] patch].
  destruct (Z.lt_ge_cases (Z.abs major) (10 ^ MAX_STR_DIGITS)) as [HM|HM].
  - destruct (Z.lt_ge_cases (Z.abs minor) (10 ^ MAX_STR_DIGITS)) as [Hm|Hm].
    + destruct (Z.lt_ge_cases (Z.abs patch) (10 ^ MAX_STR_DIGITS)) as [Hp|Hp].
      * left. split; [apply format_version_within | apply parse_version_text];
          assumption.
      * right. split; [|auto]. unfold format_version.
        rewrite (str_of_int_within major HM), (str_of_int_within minor Hm),
          (str_of_int_over patch Hp).
        reflexivity.
    + right. split; [|auto]. unfold format_version.
      rewrite (str_of_int_within major HM), (str_of_int_over minor Hm).
      reflexivity.
  - right. split; [|auto]. unfold format_version.
    rewrite (str_of_int_over major HM). reflexivity.
Qed.

(** A version that was written reads back as the same numbers. *)
Lemma parse_format_version (v : Z * Z * Z) (s : string) :
  format_version v = Ok s -> parse_version s = Ok v.
Proof.
  intros H. destruct (format_version_cases v) as [[F P] | [F _]];
    rewrite F in H; [|discriminate H].
  injection H as <-. exact P.
Qed.

Lemma ten_within_limit : 10 < 10 ^ MAX_STR_DIGITS.
Proof.
  change 10 with (10 ^ 1) at 1. apply Z.pow_lt_mono_r; [lia | discriminate | reflexivity].
Qed.

Lemma small_within_limit (n : Z) :
  Z.abs n <= 10 -> Z.abs n < 10 ^ MAX_STR_DIGITS.
Proof. pose proof ten_within_limit. lia. Qed.

Lemma parse_version_inv (v : string) (major minor patch : Z) :
  parse_version v = Ok (major, minor, patch) <->
  exists a b c,
    split "." v = [a; b; c] /\ int_of_str a = Some major
    /\ int_of_str b = Some minor /\ int_of_str c = Some patch.
Proof.
  unfold parse_version. split.
  - destruct (split "." v) as [|a [|b [|c [|d l]]]]; cbn [map];
      try discriminate;
      repeat match goal with
             | |- context [match int_of_str ?x with _ => _ end] =>
                 destruct (int_of_str x) eqn:?
             end; try discriminate.
    intros H. injection H as -> -> ->. exists a, b, c. auto.
  - intros (a & b & c & -> & Ha & Hb & Hc). cbn [map].
    rewrite Ha, Hb, Hc. reflexivity.
Qed.

(** Anything else is a [ValueError]. *)
Lemma parse_version_malformed (v : string) :
  (List.length (split "." v) <> 3%nat
   \/ exists piece, In piece (split "." v) /\ int_of_str piece = None) ->
  parse_version v = Raise ValueError.
Proof.
  unfold parse_version. intros H.
  destruct (split "." v) as [|a [|b [|c [|d l]]]]; cbn [map];
    try reflexivity;
    repeat match goal with
           | |- context [match int_of_str ?x with _ => _ end] =>
               destruct (int_of_str x) eqn:?
           end; try reflexivity.
  exfalso. destruct H as [H | (piece & Hin & Hnone)].
  - apply H. reflexivity.
  - cbn [In] in Hin. destruct Hin as [<- | [<- | [<- | []]]]; congruence.
Qed.

Lemma increment_version_parsed (v : string) (t : Z * Z * Z) :
  parse_version v = Ok t ->
  increment_version v true
  = Ok (match format_version (carry t) with
        | Ok s => s
        | Raise _ => "1.0.1"
        end).
Proof.
  intros H. unfold increment_version. cbn [negb]. rewrite H. cbn [rbind].
  destruct (format_version_cases (carry t)) as [[F _] | [F _]]; rewrite F;
    reflexivity.
Qed.

(** The numbers of a version that parses are numbers [str] writes. *)
Lemma parse_version_within (v : string) (major minor patch : Z) :
  parse_version v = Ok (major, minor, patch) ->
  Z.abs major < 10 ^ MAX_STR_DIGITS
  /\ Z.abs minor < 10 ^ MAX_STR_DIGITS
  /\ Z.abs patch < 10 ^ MAX_STR_DIGITS.
Proof.
  intros P. apply parse_version_inv in P.
  destruct P as (a & b & c & _ & Ha & Hb & Hc).
  repeat split; eapply int_of_str_within; eassumption.
Qed.

(** After a change the result is the text of the carried numbers when
    the new major is below [10 ^ 4300], and the fallback otherwise. *)
Lemma increment_version_carried (v : string) (major minor patch : Z) :
  parse_version v = Ok (major, minor, patch) ->
  (increment_version v true = Ok (version_text (carry (major, minor, patch)))
   /\ parse_version (version_text (carry (major, minor, patch)))
      = Ok (carry (major, minor, patch))
   /\ (patch + 1 > 9 -> minor + 1 > 9 -> major + 1 < 10 ^ MAX_STR_DIGITS))
  \/ (increment_version v true = Ok "1.0.1"
      /\ patch + 1 > 9 /\ minor + 1 > 9
      /\ 10 ^ MAX_STR_DIGITS <= major + 1).
Proof.
  intros P. rewrite (increment_version_parsed _ _ P).
  destruct (parse_version_within _ _ _ _ P) as (HM & Hm & Hp).
  pose proof ten_within_limit as T.
  destruct (format_version_cases (carry (major, minor, patch)))
    as [[F R] | [F O]]; rewrite F.
  - left. split; [reflexivity|]. split; [exact R|].
    intros H1 H2.
    destruct (Z.lt_ge_cases (major + 1) (10 ^ MAX_STR_DIGITS)) as [|Hge];
      [assumption|].
    exfalso. unfold carry in F.
    destruct (Z.gtb_spec (patch + 1) 9); [|lia].
    destruct (Z.gtb_spec (minor + 1) 9); [|lia].
    unfold format_version in F.
    rewrite (str_of_int_over (major + 1)) in F by lia. discriminate F.
  - right. split; [reflexivity|]. unfold carry in O.
    destruct (Z.gtb_spec (patch + 1) 9); [destruct (Z.gtb_spec (minor + 1) 9)|];
      lia.
Qed.

Lemma carry_changes (t : Z * Z * Z) : carry t <> t.
Proof.
  destruct t as [[major minor] patch]. unfold carry.
  destruct (Z.gtb_spec (patch + 1) 9); [destruct (Z.gtb_spec (minor + 1) 9)|];
    intros E; injection E; lia.
Qed.

End VersionFacts.

(** The digits of a row of nines. *)
Lemma nines_digits (n : nat) :
  forall acc,
    PyStr.int_digits (nines n) true acc
    = Some ((acc + 1) * 10 ^ Z.of_nat n - 1).
Proof.
  induction n as [|n IH]; intros acc.
  - cbn [nines PyStr.int_digits]. change (10 ^ Z.of_nat 0) with 1. f_equal. lia.
  - cbn [nines PyStr.int_digits]. change (PyStr.digit_val "9") with (Some 9).
    cbv iota. rewrite IH, Nat2Z.inj_succ, Z.pow_succ_r by lia. f_equal. lia.
Qed.

Lemma nines_count (n : nat) : PyStr.count_digits (nines n) = Z.of_nat n.
Proof.
  induction n as [|n IH]; [reflexivity|].
  cbn [nines PyStr.count_digits]. change (PyStr.is_digit "9") with true.
  cbv iota. rewrite IH. lia.
Qed.

Lemma nines_all (p : ascii -> bool) (n : nat) :
  p "9"%char = true -> PyStr.all_chars p (nines n) = true.
Proof.
  intros H. induction n as [|n IH]; [reflexivity|].
  cbn [nines PyStr.all_chars]. rewrite H, IH. reflexivity.
Qed.

(** [int] reads a row of at most 4300 nines. *)
Lemma int_of_str_nines (n : nat) :
  Z.of_nat (S n) <= PyStr.MAX_STR_DIGITS ->
  PyStr.int_of_str (nines (S n)) = Some (10 ^ Z.of_nat (S n) - 1).
Proof.
  intros H. unfold PyStr.int_of_str, PyStr.strip.
  change (nines (S n)) with (String "9" (nines n)).
  rewrite PyStrFacts.lstrip_nonspace by reflexivity.
  rewrite PyStrFacts.rstrip_nonspace
    by (apply (nines_all _ (S n)); reflexivity).
  cbv iota. unfold PyStr.int_literal.
  change (String "9" (nines n)) with (nines (S n)).
  rewrite (nines_count (S n)).
  destruct (Z.ltb_spec PyStr.MAX_STR_DIGITS (Z.of_nat (S n))); [lia|].
  change (nines (S n)) with (String "9" (nines n)).
  cbn [PyStr.int_digits]. change (PyStr.digit_val "9") with (Some 9).
  cbv iota. rewrite nines_digits, Nat2Z.inj_succ, Z.pow_succ_r by lia.
  f_equal.
Qed.

Lemma count_digits_version_text (major minor patch : Z) :
  PyStr.count_digits (version_text (major, minor, patch))
  = PyStr.count_digits (PyStr.decimal major)
    + PyStr.count_digits (PyStr.decimal minor)
    + PyStr.count_digits (PyStr.decimal patch).
Proof.
  unfold version_text. rewrite !PyStrFacts.count_digits_app.
  change (PyStr.count_digits ".") with 0. lia.
Qed.

Lemma sample_long_version_parses :
  parse_version sample_long_version
  = Ok (10 ^ PyStr.MAX_STR_DIGITS - 1, 9, 9).
Proof.
  unfold parse_version, sample_long_version.
  change (nines 4300 ++ ".9.9")%string
    with (nines 4300 ++ String "." "9.9")%string.
  rewrite split_app_sep by (apply nines_all; reflexivity).
  change (PyStr.split "." "9.9") with ["9"; "9"]. cbn [map].
  change (PyStr.int_of_str "9") with (Some 9).
  change 4300%nat with (S 4299).
  rewrite int_of_str_nines by (vm_compute; discriminate).
  replace (Z.of_nat (S 4299)) with PyStr.MAX_STR_DIGITS
    by (vm_compute; reflexivity).
  reflexivity.
Qed.

(** Claim C2 fails where the carry makes the major 4301 digits long: a
    major of 4300 nines with minor and patch 9 is a version that parses,
    the f-string of line 325 cannot write [10 ^ 4300], and the handler
    of line 326 returns the fallback. *)
Lemma carry_fails_at_digit_limit : ~ advances_with_carry sample_long_version.
Proof.
  intros H. specialize (H _ _ _ sample_long_version_parses).
  pose proof sample_long_version_parses as P.
  destruct (increment_version_carried _ _ _ _ P) as [(_ & _ & W) | (E & _ & _ & _)].
  - specialize (W ltac:(lia) ltac:(lia)). lia.
  - rewrite E in H. change (9 + 1 <=? 9) with false in H. cbv iota in H.
    assert (H' : "1.0.1"
                 = version_text (10 ^ PyStr.MAX_STR_DIGITS - 1 + 1, 0, 0))
      by congruence.
    clear H.
    assert (C : PyStr.count_digits
                  (version_text (10 ^ PyStr.MAX_STR_DIGITS - 1 + 1, 0, 0)) = 3)
      by (rewrite <- H'; reflexivity).
    rewrite count_digits_version_text in C.
    assert (A : 0 < 10 ^ PyStr.MAX_STR_DIGITS)
      by (apply Z.pow_pos_nonneg; [lia | discriminate]).
    pose proof (PyStrFacts.count_digits_decimal_gt
                  (10 ^ PyStr.MAX_STR_DIGITS - 1 + 1) PyStr.MAX_STR_DIGITS
                  ltac:(discriminate) ltac:(lia)) as G.
    pose proof (PyStrFacts.count_digits_nonneg (PyStr.decimal 0)).
    assert (M : 3 < PyStr.MAX_STR_DIGITS) by reflexivity.
    lia.
Qed.

(** Claim C2, amended. When the previous version splits at the dots into
    three pieces that [int] reads as [major], [minor] and [patch],
    advancing with changes returns a version: with one more in the patch
    when that is at most 9; with patch 0 and one more in the minor when
    the patch went above 9 and the minor does not; with minor and patch
    0 and one more in the major when both went above 9 and the new major
    is below [10 ^ 4300], the largest number the f-string writes. The
    result is the text of these numbers and parses as them. When the new
    major is [10 ^ 4300], the result is the fallback "1.0.1". In
    particular "1.2.9" advances to "1.3.0" and "1.9.9" to "2.0.0". *)
Theorem increment_version_carry (v a b c : string) (major minor patch : Z) :
  PyStr.split "." v = [a; b; c] ->
  PyStr.int_of_str a = Some major ->
  PyStr.int_of_str b = Some minor ->
  PyStr.int_of_str c = Some patch ->
  (exists s,
      increment_version v true = Ok s
      /\ (patch + 1 <= 9 ->
          s = (PyStr.decimal major ++ "." ++ PyStr.decimal minor ++ "."
                 ++ PyStr.decimal (patch + 1))%string
          /\ parse_version s = Ok (major, minor, patch + 1))
      /\ (patch + 1 > 9 -> minor + 1 <= 9 ->
          s = (PyStr.decimal major ++ "." ++ PyStr.decimal (minor + 1)
                 ++ ".0")%string
          /\ parse_version s = Ok (major, minor + 1, 0))
      /\ (patch + 1 > 9 -> minor + 1 > 9 ->
          major + 1 < 10 ^ PyStr.MAX_STR_DIGITS ->
          s = (PyStr.decimal (major + 1) ++ ".0.0")%string
          /\ parse_version s = Ok (major + 1, 0, 0))
      /\ (patch + 1 > 9 -> minor + 1 > 9 ->
          10 ^ PyStr.MAX_STR_DIGITS <= major + 1 ->
          s = "1.0.1"))
  /\ increment_version "1.2.9" true = Ok "1.3.0"
  /\ increment_version "1.9.9" true = Ok "2.0.0".
Proof.
  intros Hs Ha Hb Hc.
  assert (P : parse_version v = Ok (major, minor, patch)).
  { apply parse_version_inv. exists a, b, c. auto. }
  split; [|split; reflexivity].
  destruct (increment_version_carried _ _ _ _ P)
    as [(E & R & W) | (E & O1 & O2 & O3)].
  - exists (version_text (carry (major, minor, patch))).
    split; [exact E|]. unfold carry in *.
    destruct (Z.gtb_spec (patch + 1) 9); [destruct (Z.gtb_spec (minor + 1) 9)|].
    + split; [lia|]. split; [lia|]. split; [|intros; exfalso; lia].
      intros _ _ _. split; [reflexivity | exact R].
    + split; [lia|]. split; [|split; intros; lia].
      intros _ _. split; [reflexivity | exact R].
    + split; [|split; [|split]]; try (intros; lia).
      intros _. split; [reflexivity | exact R].
  - exists "1.0.1". split; [exact E|].
    split; [lia|]. split; [lia|]. split; [intros; lia|].
    intros _ _ _. reflexivity.
Qed.

Lemma increment_version_carry_witness :
  PyStr.split "." "3.9.9" = ["3"; "9"; "9"]
  /\ PyStr.int_of_str "3" = Some 3
  /\ PyStr.int_of_str "9" = Some 9
  /\ 3 + 1 < 10 ^ PyStr.MAX_STR_DIGITS
  /\ increment_version "3.9.9" true = Ok "4.0.0"
  /\ parse_version "4.0.0" = Ok (3 + 1, 0, 0).
Proof.
  assert (L : 3 + 1 < 10 ^ PyStr.MAX_STR_DIGITS)
    by (pose proof ten_within_limit; lia).
  split; [reflexivity|]. split; [reflexivity|]. split; [reflexivity|].
  split; [exact L|].
  destruct (increment_version_carry "3.9.9" "3" "9" "9" 3 9 9
              eq_refl eq_refl eq_refl eq_refl)
    as [(s & Hs & _ & _ & H & _) _].
  destruct H as [Ht Hp]; [lia | lia | exact L |].
  subst s. split; [exact Hs | exact Hp].
Defined.

(** With changes, a version that parses never comes back unchanged. *)
Lemma increment_version_differs (v : string) (t : Z * Z * Z) :
  parse_version v = Ok t -> increment_version v true <> Ok v.
Proof.
  intros P E. destruct t as [[major minor] patch].
  destruct (increment_version_carried _ _ _ _ P)
    as [(E1 & R & _) | (E1 & _ & _ & O)].
  - assert (E' : version_text (carry (major, minor, patch)) = v) by congruence.
    rewrite E', P in R. apply (carry_changes (major, minor, patch)). congruence.
  - assert (E' : "1.0.1" = v) by congruence. subst v.
    change (parse_version "1.0.1") with (@Ok (Z * Z * Z) (1, 0, 1)) in P.
    assert (M : major = 1) by congruence.
    pose proof ten_within_limit. lia.
Qed.

(** A malformed version does not come back unchanged either: it is
    replaced by the fallback. *)
Lemma increment_version_always_changes (v : string) :
  increment_version v true <> Ok v.
Proof.
  destruct (parse_version v) as [t|e] eqn:P.
  - apply (increment_version_differs v t P).
  - unfold increment_version. cbn [negb]. rewrite P. cbn [rbind].
    unfold parse_version in P.
    destruct e; intros E; try discriminate E.
    injection E as <-. discriminate P.
Qed.



(** Claim C8. A previous version of the wrong shape (not three pieces
    between dots) or with a piece that [int] rejects does not raise when
    advanced with changes: the result is the fallback "1.0.1". *)
Theorem increment_version_malformed (v : string) :
  (List.length (PyStr.split "." v) <> 3%nat
   \/ exists piece, In piece (PyStr.split "." v) /\ PyStr.int_of_str piece = None) ->
  increment_version v true = Ok "1.0.1".
Proof.
  intros H. unfold increment_version. cbn [negb].
  rewrite (parse_version_malformed v H). reflexivity.
Qed.

Lemma increment_version_malformed_witness :
  (exists piece, In piece (PyStr.split "." "1.x.3") /\ PyStr.int_of_str piece = None)
  /\ increment_version "1.x.3" true = Ok "1.0.1"
  /\ List.length (PyStr.split "." "1.2") <> 3%nat
  /\ increment_version "1.2" true = Ok "1.0.1".
Proof.
  assert (H : exists piece,
             In piece (PyStr.split "." "1.x.3") /\ PyStr.int_of_str piece = None).
  { exists "x". split; [right; left; reflexivity | reflexivity]. }
  split; [exact H|]. split.
  - apply (increment_version_malformed "1.x.3"). right. exact H.
  - split; [discriminate|].
    apply (increment_version_malformed "1.2"). left. discriminate.
Defined.

(** Claim C9 fails at "9.9.9": the carry out of [minor] makes [major] 10,
    and nothing carries out of [major]. *)
Lemma single_digit_fails_at_999 : ~ stays_single_digit "9.9.9".
Proof.
  intros H.
  destruct (H 9 9 9 eq_refl) as (s & M & m & p & Hs & Hp & HM & _); try lia.
  change (increment_version "9.9.9" true) with (@Ok string "10.0.0") in Hs.
  injection Hs as <-.
  change (parse_version "10.0.0") with (@Ok (Z * Z * Z) (10, 0, 0)) in Hp.
  injection Hp as <- <- <-. lia.
Qed.

(** Claim C9, amended. From components in 0..9 the advanced version has
    minor and patch in 0..9 again; major stays in 0..9 except from 9.9.9,
    which advances to 10.0.0. *)
Theorem minor_patch_stay_single_digit (v : string) (major minor patch : Z) :
  parse_version v = Ok (major, minor, patch) ->
  0 <= major <= 9 -> 0 <= minor <= 9 -> 0 <= patch <= 9 ->
  exists s major' minor' patch',
    increment_version v true = Ok s
    /\ parse_version s = Ok (major', minor', patch')
    /\ 0 <= minor' <= 9 /\ 0 <= patch' <= 9
    /\ 0 <= major' <= 10
    /\ (major' = 10 <-> (major, minor, patch) = (9, 9, 9)).
Proof.
  intros P HM Hm Hp.
  exists (version_text (carry (major, minor, patch))).
  destruct (increment_version_carried _ _ _ _ P)
    as [(Hs & R & _) | (_ & _ & _ & O)];
    [|pose proof ten_within_limit; lia].
  destruct (carry (major, minor, patch)) as [[M' m'] p'] eqn:C.
  exists M', m', p'.
  split; [exact Hs|]. split; [exact R|]. clear Hs R.
  unfold carry in C.
  destruct (Z.gtb_spec (patch + 1) 9); [destruct (Z.gtb_spec (minor + 1) 9)|];
    injection C as <- <- <-; repeat split; try lia;
    try (intros E; injection E; lia); intros E; f_equal; try f_equal; lia.
Qed.

Lemma minor_patch_stay_single_digit_witness :
  parse_version "9.9.9" = Ok (9, 9, 9)
  /\ exists s major' minor' patch',
      increment_version "9.9.9" true = Ok s
      /\ parse_version s = Ok (major', minor', patch')
      /\ 0 <= minor' <= 9 /\ 0 <= patch' <= 9
      /\ 0 <= major' <= 10
      /\ (major' = 10 <-> (9, 9, 9) = (9, 9, 9)).
Proof.
  split; [reflexivity|].
  apply (minor_patch_stay_single_digit "9.9.9" 9 9 9); try reflexivity; lia.
Defined.

(* ------------------------------------------------------------------ *)
(** ** Facts about dictionaries *)

Module PyDictFacts.
Import PyDict.

Section Facts.
Context {V : Type}.
Implicit Types (d : dict V) (k : string) (v : V).

Lemma get_set_same d k v : get (set d k v) k = Some v.
Proof.
  induction d as [|[k' v'] d IH]; cbn [set get].
  - rewrite String.eqb_refl. reflexivity.
  - destruct (String.eqb_spec k' k) as [->|Hne]; cbn [get].
    + rewrite String.eqb_refl. reflexivity.
    + destruct (String.eqb_spec k' k); [contradiction | exact IH].
Qed.

Lemma get_set_other d k k0 v : k0 <> k -> get (set d k v) k0 = get d k0.
Proof.
  intros Hne. induction d as [|[k' v'] d IH]; cbn [set get].
  - destruct (String.eqb_spec k k0); [congruence | reflexivity].
  - destruct (String.eqb_spec k' k) as [->|Hk]; cbn [get].
    + destruct (String.eqb_spec k k0); [congruence | reflexivity].
    + rewrite IH. reflexivity.
Qed.

Lemma get_In_keys d k : get d k <> None <-> In k (keys d).
Proof.
  induction d as [|[k' v'] d IH]; cbn [get keys map fst In].
  - split; [congruence | tauto].
  - destruct (String.eqb_spec k' k) as [->|Hk].
    + split; [auto | congruence].
    + rewrite IH. unfold keys. tauto.
Qed.

Lemma contains_In_keys d k : contains d k = true <-> In k (keys d).
Proof.
  rewrite <- get_In_keys. unfold contains.
  destruct (get d k); split; congruence.
Qed.

Lemma contains_false_keys d k : contains d k = false <-> ~ In k (keys d).
Proof.
  rewrite <- contains_In_keys. destruct (contains d k); split; congruence.
Qed.

(** Assigning keeps the keys in place and appends a new one. *)
Lemma keys_set d k v :
  keys (set d k v) = if contains d k then keys d else keys d ++ [k].
Proof.
  induction d as [|[k' v'] d IH]; [reflexivity|].
  unfold contains in *. cbn [set get].
  destruct (String.eqb_spec k' k) as [->|Hk]; [reflexivity|].
  cbn [keys map fst]. fold (keys (set d k v)). rewrite IH.
  destruct (get d k); reflexivity.
Qed.

Lemma wf_set d k v : wf d -> wf (set d k v).
Proof.
  unfold wf. intros H. rewrite keys_set.
  destruct (contains d k) eqn:C; [exact H|].
  apply contains_false_keys in C.
  apply NoDup_rev in H. rewrite <- (rev_involutive (keys d ++ [k])).
  apply NoDup_rev. rewrite rev_app_distr. cbn [rev app].
  constructor; [rewrite <- in_rev; exact C | exact H].
Qed.

Lemma get_remove_other d k k0 : k0 <> k -> get (remove d k) k0 = get d k0.
Proof.
  intros Hne. induction d as [|[k' v'] d IH]; [reflexivity|].
  cbn [remove get]. destruct (String.eqb_spec k' k) as [->|Hk].
  - destruct (String.eqb_spec k k0); [congruence | reflexivity].
  - cbn [get]. rewrite IH. reflexivity.
Qed.

End Facts.
End PyDictFacts.

(* ------------------------------------------------------------------ *)
(** ** Version Manager: the history merge *)

Section HistoryFacts.
Import PyDict PyDictFacts.

Lemma pop_contains (e : entry) (k : string) :
  contains e k = true -> exists v, pop e k = Ok (v, remove e k).
Proof.
  unfold contains, pop. destruct (get e k) as [v|]; [|discriminate].
  intros _. exists v. reflexivity.
Qed.

Lemma standardize_entry_total (e : entry) :
  exists e', standardize_entry e = Ok e'.
Proof.
  unfold standardize_entry.
  destruct (contains e "current_version") eqn:C1.
  - destruct (pop_contains _ _ C1) as (v & ->). cbn. eauto.
  - destruct (contains e "n_version") eqn:C2; [|eauto].
    destruct (pop_contains _ _ C2) as (v & ->). cbn. eauto.
Qed.

(** An entry that already uses ["version"] is left alone. *)
Lemma standardize_entry_plain (e : entry) :
  contains e "current_version" = false ->
  contains e "n_version" = false ->
  standardize_entry e = Ok e.
Proof. unfold standardize_entry. intros -> ->. reflexivity. Qed.

Lemma standardize_total (loaded : list entry) :
  exists history,
    standardize loaded = Ok history
    /\ List.length history = List.length loaded.
Proof.
  induction loaded as [|e loaded (history & IH & L)]; [exists []; auto|].
  destruct (standardize_entry_total e) as (e' & He).
  exists (e' :: history). cbn [standardize]. rewrite He, IH. cbn.
  auto.
Qed.

Lemma standardize_plain (loaded : list entry) :
  Forall (fun e => contains e "current_version" = false
                   /\ contains e "n_version" = false) loaded ->
  standardize loaded = Ok loaded.
Proof.
  induction 1 as [|e loaded [H1 H2] _ IH]; [reflexivity|].
  cbn [standardize]. rewrite (standardize_entry_plain e H1 H2), IH.
  reflexivity.
Qed.

(** The renaming keeps what an entry held. *)
Lemma standardize_entry_kept (e e' : entry) :
  standardize_entry e = Ok e' -> kept_from e e'.
Proof.
  unfold standardize_entry, PyDict.pop, PyDict.contains, kept_from.
  destruct (get e "current_version") as [v1|] eqn:G1.
  - cbn [rbind fst snd]. intros H. injection H as <-. split.
    + intros k K1 K2 K3. rewrite get_set_other by congruence.
      apply get_remove_other. congruence.
    + apply get_set_same.
  - destruct (get e "n_version") as [v2|] eqn:G2.
    + cbn [rbind fst snd]. intros H. injection H as <-. split.
      * intros k K1 K2 K3. rewrite get_set_other by congruence.
        apply get_remove_other. congruence.
      * apply get_set_same.
    + intros H. injection H as <-. split; reflexivity.
Qed.

Lemma standardize_kept (loaded history : list entry) :
  standardize loaded = Ok history -> Forall2 kept_from loaded history.
Proof.
  revert history. induction loaded as [|e loaded IH]; intros history H.
  - cbn [standardize] in H. injection H as <-. constructor.
  - cbn [standardize] in H.
    destruct (standardize_entry e) as [e'|x] eqn:He; cbn [rbind] in H;
      [|discriminate H].
    destruct (standardize loaded) as [rest|x] eqn:Hr; cbn [rbind] in H;
      [|discriminate H].
    injection H as <-. constructor.
    + apply standardize_entry_kept, He.
    + apply IH. reflexivity.
Qed.

Lemma truncate_firstn (history : list entry) :
  (if (MAX_HISTORY <? List.length history)%nat
   then firstn MAX_HISTORY history else history)
  = firstn MAX_HISTORY history.
Proof.
  destruct (Nat.ltb_spec MAX_HISTORY (List.length history)); [reflexivity|].
  symmetry. apply firstn_all2. assumption.
Qed.

Lemma no_changes_int (new_entry : entry) (changes : dict pyval) (n : Z) :
  get new_entry "changes" = Some (PDict changes) ->
  get changes "total_changes" = Some (PInt n) ->
  no_changes new_entry = Ok (n =? 0).
Proof.
  intros H1 H2. unfold no_changes, get_default. rewrite H1.
  cbn [py_get rbind]. unfold get_default. rewrite H2. reflexivity.
Qed.

End HistoryFacts.

(** Claim C5. An entry whose change set counts at least one change is put
    in front of the history, and the result is cut to its first 50
    entries, so that the oldest are dropped; a history of 50 entries
    yields 50 entries with the new one first. The entries behind the new
    one are the old ones in their order: each holds the fields of the old
    entry, its version under the key ["version"], and a history that was
    written with that key only comes back as it was. *)
Theorem merge_changed_entry (loaded : list entry) (new_entry : entry)
  (changes : dict pyval) (n : Z) :
  PyDict.get new_entry "changes" = Some (PDict changes) ->
  PyDict.get changes "total_changes" = Some (PInt n) ->
  0 < n ->
  exists history result,
    standardize loaded = Ok history
    /\ List.length history = List.length loaded
    /\ save_version_history loaded new_entry = Ok result
    /\ result = firstn 50 (new_entry :: history)
    /\ hd_error result = Some new_entry
    /\ (List.length result <= 50)%nat
    /\ (List.length loaded = 50%nat -> List.length result = 50%nat)
    /\ Forall2 kept_from loaded history
    /\ (Forall no_legacy_key loaded ->
        history = loaded /\ result = firstn 50 (new_entry :: loaded)).
Proof.
  intros H1 H2 Hn.
  destruct (standardize_total loaded) as (history & Hs & Hl).
  exists history, (firstn 50 (new_entry :: history)).
  split; [exact Hs|]. split; [exact Hl|].
  split.
  - unfold save_version_history. rewrite Hs. cbn [rbind].
    rewrite (no_changes_int _ _ _ H1 H2). cbn [rbind].
    destruct (Z.eqb_spec n 0); [lia|]. cbn [rbind].
    rewrite truncate_firstn. reflexivity.
  - split; [reflexivity|]. split; [reflexivity|].
    split; [apply firstn_le_length|].
    split; [intros L; rewrite length_firstn; cbn [List.length]; lia|].
    split; [apply standardize_kept, Hs|].
    intros Hplain. rewrite (standardize_plain loaded Hplain) in Hs.
    injection Hs as <-. split; reflexivity.
Qed.

Lemma merge_changed_entry_witness :
  PyDict.get sample_changed_entry "changes" = Some (PDict [("total_changes", PInt 2)])
  /\ 0 < 2
  /\ exists history result,
      standardize sample_full_history = Ok history
      /\ List.length history = List.length sample_full_history
      /\ save_version_history sample_full_history sample_changed_entry = Ok result
      /\ result = firstn 50 (sample_changed_entry :: history)
      /\ hd_error result = Some sample_changed_entry
      /\ (List.length result <= 50)%nat
      /\ (List.length sample_full_history = 50%nat -> List.length result = 50%nat)
      /\ Forall2 kept_from sample_full_history history
      /\ (Forall no_legacy_key sample_full_history ->
          history = sample_full_history
          /\ result = firstn 50 (sample_changed_entry :: sample_full_history)).
Proof.
  split; [reflexivity|]. split; [lia|].
  apply (merge_changed_entry sample_full_history sample_changed_entry
           [("total_changes", PInt 2)] 2);
    [reflexivity | reflexivity | lia].
Defined.




(* ------------------------------------------------------------------ *)
(** ** Diff Engine *)

(** Induction on a tree: a folder's children may be assumed to have the
    property. *)
Lemma node_induction {F} (P : node F -> Prop) :
  (forall f, P (FileNode f)) ->
  (forall name id link descr fc dc sz lu children ft sd,
      Forall P children ->
      P (FolderNode name id link descr fc dc sz lu children ft sd)) ->
  forall n, P n.
Proof.
  intros Hfile Hfolder.
  fix IH 1. intros [f | name id link descr fc dc sz lu children ft sd].
  - apply Hfile.
  - apply Hfolder. induction children as [|c cs IHcs]; constructor.
    + apply IH.
    + exact IHcs.
Qed.

Section CountFacts.

Lemma flat_map_length_sum3 {A B C D} (f : A -> list B) (g : A -> list C)
  (h : A -> list D) (l : list A) :
  (forall x, In x l ->
     (List.length (f x) + List.length (g x) + List.length (h x) = 1)%nat) ->
  (List.length (flat_map f l) + List.length (flat_map g l)
   + List.length (flat_map h l) = List.length l)%nat.
Proof.
  induction l as [|x l IH]; intros H; [reflexivity|].
  cbn [flat_map List.length]. rewrite !length_app.
  pose proof (H x (or_introl eq_refl)).
  assert (IH' := IH (fun y Hy => H y (or_intror Hy))). lia.
Qed.

Lemma mem_In (l : list string) (x : string) : mem l x = true <-> In x l.
Proof.
  unfold mem. rewrite existsb_exists. split.
  - intros (y & Hy & E). apply String.eqb_eq in E. subst. exact Hy.
  - intros H. exists x. split; [exact H | apply String.eqb_refl].
Qed.

(** Two duplicate-free lists have as many elements of the one in the
    other as the other way round. *)
Lemma common_count (l1 l2 : list string) :
  NoDup l1 -> NoDup l2 ->
  List.length (filter (mem l2) l1) = List.length (filter (mem l1) l2).
Proof.
  intros N1 N2. apply Permutation_length, NoDup_Permutation.
  - apply NoDup_filter, N1.
  - apply NoDup_filter, N2.
  - intros x. rewrite !filter_In, !mem_In. tauto.
Qed.

Lemma filter_split_length {A} (p : A -> bool) (l : list A) :
  (List.length (filter p l) + List.length (filter (fun x => negb (p x)) l)
   = List.length l)%nat.
Proof.
  induction l as [|x l IH]; [reflexivity|].
  cbn [filter]. destruct (p x); cbn [negb List.length]; lia.
Qed.

End CountFacts.

Section SignatureMapFacts.
Import PyDict PyDictFacts.

Lemma contains_mem {V} (d : dict V) (k : string) :
  contains d k = mem (keys d) k.
Proof.
  unfold contains, mem. induction d as [|[k' v] d IH]; [reflexivity|].
  cbn [get keys map fst existsb]. rewrite (String.eqb_sym k k').
  destruct (String.eqb k' k); [reflexivity | exact IH].
Qed.

Lemma added_ids (cur prev : dict sig_info) :
  map ref_id (find_added cur prev)
  = filter (fun k => negb (contains prev k)) (keys cur).
Proof.
  unfold find_added. induction cur as [|[k v] cur IH]; [reflexivity|].
  cbn [flat_map keys map fst filter]. rewrite map_app, IH.
  destruct (contains prev k); reflexivity.
Qed.

Lemma deleted_ids (cur prev : dict sig_info) :
  map ref_id (find_deleted cur prev)
  = filter (fun k => negb (contains cur k)) (keys prev).
Proof.
  unfold find_deleted. induction prev as [|[k v] prev IH]; [reflexivity|].
  cbn [flat_map keys map fst filter]. rewrite map_app, IH.
  destruct (contains cur k); reflexivity.
Qed.

Lemma compare_infos_length (file_id : string) (c p : sig_info) :
  List.length (compare_infos file_id c p)
  = if String.eqb (sig_name c) (sig_name p)
       && (sig_size c =? sig_size p)
       && String.eqb (sig_modified c) (sig_modified p)
    then 0%nat else 1%nat.
Proof.
  unfold compare_infos.
  destruct (String.eqb (sig_name c) (sig_name p)),
    (sig_size c =? sig_size p),
    (String.eqb (sig_modified c) (sig_modified p)); reflexivity.
Qed.

(** Every file present in both maps is either unchanged or modified. *)
Lemma common_split (cur prev : dict sig_info) :
  (List.length (unchanged_ids cur prev) + List.length (find_modified cur prev)
   = List.length (filter (contains prev) (keys cur)))%nat.
Proof.
  unfold unchanged_ids, find_modified.
  induction cur as [|[k c] cur IH]; [reflexivity|].
  cbn [flat_map keys map fst filter]. rewrite !length_app.
  unfold contains at 1. destruct (get prev k) as [p|].
  - rewrite compare_infos_length. cbn [List.length].
    destruct (String.eqb (sig_name c) (sig_name p)
              && (sig_size c =? sig_size p)
              && String.eqb (sig_modified c) (sig_modified p));
      cbn [List.length]; unfold keys in IH; lia.
  - cbn [List.length]. unfold keys in IH. lia.
Qed.

Lemma unchanged_ids_spec (cur prev : dict sig_info) (file_id : string) :
  wf cur ->
  In file_id (unchanged_ids cur prev) <->
  exists c p,
    get cur file_id = Some c /\ get prev file_id = Some p
    /\ sig_name c = sig_name p /\ sig_size c = sig_size p
    /\ sig_modified c = sig_modified p.
Proof.
  unfold unchanged_ids, wf.
  induction cur as [|[k c] cur IH]; intros W.
  - cbn. split; [tauto|]. intros (c & p & H & _). discriminate H.
  - cbn [keys map fst] in W. inversion W as [|? ? Hnotin W']; subst.
    cbn [flat_map get]. rewrite in_app_iff, (IH W'). clear IH.
    destruct (String.eqb_spec k file_id) as [->|Hk].
    + split.
      * intros [H | (c' & p & Hc & _)].
        -- destruct (get prev file_id) as [p|]; [|destruct H].
           destruct (String.eqb_spec (sig_name c) (sig_name p)); [|destruct H].
           destruct (Z.eqb_spec (sig_size c) (sig_size p)); [|destruct H].
           destruct (String.eqb_spec (sig_modified c) (sig_modified p)); [|destruct H].
           exists c, p. auto.
        -- exfalso. apply Hnotin. apply get_In_keys. congruence.
      * intros (c' & p & Hc & Hp & E1 & E2 & E3). injection Hc as <-.
        left. rewrite Hp, E1, E2, E3, !String.eqb_refl, Z.eqb_refl.
        left. reflexivity.
    + split.
      * intros [H | H]; [|exact H]. exfalso.
        destruct (get prev k) as [p|]; [|destruct H].
        destruct (_ && _); [|destruct H].
        destruct H as [H | []]. contradiction.
      * intros H. right. exact H.
Qed.

End SignatureMapFacts.

Section DiffFacts.
Context {F : Type} {PF : PyFloat F}.
Variable md5_hexdigest : string -> string.
Variable frepr : F -> string.
Import PyDict PyDictFacts.

Lemma extract_item_wf (item : node F) :
  forall sigs, wf sigs -> wf (extract_item md5_hexdigest frepr item sigs).
Proof.
  induction item as [f | name id link descr fc dc sz lu children ft sd IH]
    using node_induction; intros sigs W.
  - cbn [extract_item]. apply wf_set, W.
  - cbn [extract_item]. revert sigs W.
    induction IH as [|c cs Hc _ IHcs]; intros sigs W; [exact W|].
    cbn [fold_left]. apply IHcs, Hc, W.
Qed.

(** The signature map of a tree has each id once. *)
Lemma extract_file_signatures_wf (data : folder_data F) :
  wf (extract_file_signatures md5_hexdigest frepr data).
Proof.
  unfold extract_file_signatures, extract_items.
  generalize (children data). intros items.
  assert (W : wf (@nil (string * sig_info))) by constructor.
  revert W. generalize (@nil (string * sig_info)).
  induction items as [|c cs IH]; intros sigs W; [exact W|].
  cbn [fold_left]. apply IH, extract_item_wf, W.
Qed.

End DiffFacts.

Section DiffClaims.
Context {F : Type} {PF : PyFloat F}.
Variable md5_hexdigest : string -> string.
Variable frepr : F -> string.

(** Claim C1. For a tree and a previous signature map with each id
    once, the ids of [added_files] are those of the current map that
    the previous one lacks, the ids of [deleted_files] those of the
    previous map that the current one lacks, and with the unchanged
    files (present in both, same name, size and modification time)
    [added + unchanged + modified] counts the current map and
    [deleted + unchanged + modified] the previous one. *)
Theorem detect_changes_partition (current_data : folder_data F)
  (previous_data : previous_scan) :
  PyDict.wf (previous_signatures previous_data) ->
  (forall file_id,
      In file_id (map ref_id
                    (added_files (detect_changes md5_hexdigest frepr
                                    current_data previous_data)))
      <-> In file_id (PyDict.keys
                        (extract_file_signatures md5_hexdigest frepr current_data))
          /\ ~ In file_id (PyDict.keys (previous_signatures previous_data)))
  /\ (forall file_id,
         In file_id (map ref_id
                       (deleted_files (detect_changes md5_hexdigest frepr
                                         current_data previous_data)))
         <-> In file_id (PyDict.keys (previous_signatures previous_data))
             /\ ~ In file_id (PyDict.keys
                                (extract_file_signatures md5_hexdigest frepr
                                   current_data)))
  /\ (forall file_id,
         In file_id (unchanged_ids
                       (extract_file_signatures md5_hexdigest frepr current_data)
                       (previous_signatures previous_data))
         <-> exists c p,
             PyDict.get (extract_file_signatures md5_hexdigest frepr current_data)
               file_id = Some c
             /\ PyDict.get (previous_signatures previous_data) file_id = Some p
             /\ sig_name c = sig_name p /\ sig_size c = sig_size p
             /\ sig_modified c = sig_modified p)
  /\ len (added_files (detect_changes md5_hexdigest frepr current_data previous_data))
     + len (unchanged_ids
              (extract_file_signatures md5_hexdigest frepr current_data)
              (previous_signatures previous_data))
     + len (modified_files (detect_changes md5_hexdigest frepr
                              current_data previous_data))
     = len (extract_file_signatures md5_hexdigest frepr current_data)
  /\ len (deleted_files (detect_changes md5_hexdigest frepr current_data previous_data))
     + len (unchanged_ids
              (extract_file_signatures md5_hexdigest frepr current_data)
              (previous_signatures previous_data))
     + len (modified_files (detect_changes md5_hexdigest frepr
                              current_data previous_data))
     = len (previous_signatures previous_data).
Proof.
  intros Wp.
  pose proof (extract_file_signatures_wf md5_hexdigest frepr current_data) as Wc.
  unfold detect_changes, diff_signatures.
  cbn [added_files deleted_files modified_files].
  set (cur := extract_file_signatures md5_hexdigest frepr current_data) in *.
  set (prev := previous_signatures previous_data) in *.
  assert (A : List.length (find_added cur prev)
              = List.length (filter (fun k => negb (PyDict.contains prev k))
                               (PyDict.keys cur)))
    by (rewrite <- added_ids; symmetry; apply length_map).
  assert (D : List.length (find_deleted cur prev)
              = List.length (filter (fun k => negb (PyDict.contains cur k))
                               (PyDict.keys prev)))
    by (rewrite <- deleted_ids; symmetry; apply length_map).
  pose proof (common_split cur prev) as C.
  split; [|split; [|split; [|split]]].
  - intros file_id. rewrite added_ids, filter_In, negb_true_iff.
    rewrite PyDictFacts.contains_false_keys. reflexivity.
  - intros file_id. rewrite deleted_ids, filter_In, negb_true_iff.
    rewrite PyDictFacts.contains_false_keys. reflexivity.
  - intros file_id. exact (unchanged_ids_spec cur prev file_id Wc).
  - pose proof (filter_split_length (PyDict.contains prev) (PyDict.keys cur)) as S.
    unfold len. unfold PyDict.keys in S at 3. rewrite length_map in S. lia.
  - pose proof (filter_split_length (PyDict.contains cur) (PyDict.keys prev)) as S.
    assert (X : List.length (filter (PyDict.contains prev) (PyDict.keys cur))
                = List.length (filter (PyDict.contains cur) (PyDict.keys prev))).
    { rewrite (filter_ext _ _ (contains_mem prev)),
        (filter_ext _ _ (contains_mem cur)).
      apply common_count; assumption. }
    unfold len. unfold PyDict.keys in S at 3. rewrite length_map in S. lia.
Qed.

End DiffClaims.

Lemma sample_previous_wf : PyDict.wf (previous_signatures sample_previous).
Proof.
  unfold PyDict.wf. cbn.
  repeat constructor; cbn; intuition discriminate.
Defined.

Lemma detect_changes_partition_witness :
  PyDict.wf (previous_signatures sample_previous)
  /\ map ref_id (added_files (detect_changes sample_md5 sample_repr
                                sample_tree sample_previous)) = ["C"]
  /\ map ref_id (deleted_files (detect_changes sample_md5 sample_repr
                                  sample_tree sample_previous)) = ["B"]
  /\ len (added_files (detect_changes sample_md5 sample_repr
                         sample_tree sample_previous))
     + len (unchanged_ids
              (extract_file_signatures sample_md5 sample_repr sample_tree)
              (previous_signatures sample_previous))
     + len (modified_files (detect_changes sample_md5 sample_repr
                              sample_tree sample_previous))
     = len (extract_file_signatures sample_md5 sample_repr sample_tree).
Proof.
  split; [exact sample_previous_wf|].
  split; [reflexivity|]. split; [reflexivity|].
  apply (detect_changes_partition sample_md5 sample_repr sample_tree
           sample_previous sample_previous_wf).
Defined.

(* ------------------------------------------------------------------ *)
(** ** Tree Scanner: the state monad *)

Section ScanMonadFacts.

Lemma bind_ok {A B} (m : scan A) (k : A -> scan B) (st st' : stats) (b : B) :
  bind m k st = Some (Ok b, st') ->
  exists a st1, m st = Some (Ok a, st1) /\ k a st1 = Some (Ok b, st').
Proof.
  unfold bind. destruct (m st) as [[[a|e] st1]|]; try discriminate.
  intros H. exists a, st1. auto.
Qed.

Lemma ret_ok {A} (a b : A) (st st' : stats) :
  ret a st = Some (Ok b, st') -> a = b /\ st = st'.
Proof. unfold ret. intros H. injection H as -> ->. auto. Qed.

Lemma lift_ok {A} (r : pyresult A) (a : A) (st st' : stats) :
  lift r st = Some (Ok a, st') -> r = Ok a /\ st = st'.
Proof. unfold lift. intros H. injection H as -> ->. auto. Qed.

Lemma modify_ok (f : stats -> stats) (u : unit) (st st' : stats) :
  modify f st = Some (Ok u, st') -> st' = f st.
Proof. unfold modify. intros H. injection H as _ <-. reflexivity. Qed.

End ScanMonadFacts.

(** Takes a successful run of a sequence of steps apart. *)
Ltac scan_inv H :=
  repeat match type of H with
    | bind _ _ _ = Some (Ok _, _) =>
        let a := fresh "a" in
        let st1 := fresh "st" in
        let H1 := fresh "Hstep" in
        apply bind_ok in H; destruct H as (a & st1 & H1 & H)
    end.

(* ------------------------------------------------------------------ *)
(** ** Tree Scanner: the retry loop *)

Section RetryFacts.
Variable maxRetries : Z.
Variable retryDelay : Z.

Lemma sleep_apiCallsCount (w : Z) (st : stats) :
  apiCallsCount (snd (sleep w st)) = apiCallsCount st.
Proof. unfold sleep. destruct (w <? 0); reflexivity. Qed.

(** No call is attempted more often than the loop has rounds. *)
Lemma retry_loop_attempts {R} (call : Z -> api_outcome R) (remaining : nat) :
  forall attempt st,
    apiCallsCount st
    <= apiCallsCount (snd (retry_loop maxRetries retryDelay call remaining attempt st))
    <= apiCallsCount st + Z.of_nat remaining.
Proof.
  induction remaining as [|remaining IH]; intros attempt st.
  - cbn. lia.
  - assert (K : forall w,
               apiCallsCount st
               <= apiCallsCount
                    (snd (match sleep w (count_api_call st) with
                          | (Ok _, st') =>
                              retry_loop maxRetries retryDelay call remaining
                                (attempt + 1) st'
                          | (Raise e, st') => (Raise e, st')
                          end))
               <= apiCallsCount st + Z.of_nat (S remaining)).
    { intros w. pose proof (sleep_apiCallsCount w (count_api_call st)) as E.
      destruct (sleep w (count_api_call st)) as [[u|e] st1]; cbn [snd] in *.
      - specialize (IH (attempt + 1) st1). cbn [apiCallsCount count_api_call] in E.
        lia.
      - cbn [apiCallsCount count_api_call] in E. lia. }
    cbn [retry_loop].
    destruct (call (apiCallsCount (count_api_call st))) as [r|status msg|msg].
    + cbn. lia.
    + destruct (status =? 429); [apply K|].
      destruct (status =? 403); [cbn; lia|].
      destruct (attempt =? maxRetries - 1); [cbn; lia | apply K].
    + destruct (attempt =? maxRetries - 1); [cbn; lia | apply K].
Qed.

(** At most [maxRetries] attempts per call. *)
Lemma make_api_call_attempts {R} (call : Z -> api_outcome R) (st : stats) :
  exists r st',
    make_api_call_with_retry maxRetries retryDelay call st = Some (r, st')
    /\ apiCallsCount st <= apiCallsCount st'
       <= apiCallsCount st + Z.max 0 maxRetries.
Proof.
  unfold make_api_call_with_retry.
  destruct (retry_loop maxRetries retryDelay call (Z.to_nat maxRetries) 0 st)
    as [r st'] eqn:E.
  exists r, st'. split; [reflexivity|].
  pose proof (retry_loop_attempts call (Z.to_nat maxRetries) 0 st) as B.
  rewrite E in B. cbn [snd] in B. lia.
Qed.

Lemma sleep_nonneg (w : Z) (st : stats) :
  0 <= w -> exists st', sleep w st = (Ok tt, st').
Proof.
  intros H. unfold sleep. destruct (Z.ltb_spec w 0); [lia|]. eauto.
Qed.

(** When every attempt meets the rate limit, the loop runs out and the
    call returns [None]: nothing is raised. *)
Lemma rate_limited_returns_none {R} (call : Z -> api_outcome R) :
  0 <= retryDelay ->
  (forall n, exists msg, call n = ApiHttpError 429 msg) ->
  forall remaining attempt st,
    fst (retry_loop maxRetries retryDelay call remaining attempt st) = Ok None.
Proof.
  intros Hdelay Hcall. induction remaining as [|remaining IH]; intros attempt st.
  - reflexivity.
  - cbn [retry_loop].
    destruct (Hcall (apiCallsCount (count_api_call st))) as (msg & ->).
    cbn [Z.eqb Pos.eqb].
    destruct (sleep_nonneg (retryDelay * 2 ^ attempt) (count_api_call st))
      as (st' & ->); [|apply IH].
    apply Z.mul_nonneg_nonneg; [exact Hdelay | apply Z.pow_nonneg; lia].
Qed.

(** When every attempt fails with a status other than 429 and 403, the
    last attempt raises. *)
Lemma server_error_raises {R} (call : Z -> api_outcome R) (status : Z) (msg : string) :
  0 <= retryDelay ->
  status <> 429 -> status <> 403 ->
  (forall n, call n = ApiHttpError status msg) ->
  forall remaining attempt st,
    (0 < remaining)%nat ->
    attempt + Z.of_nat remaining = maxRetries ->
    fst (retry_loop maxRetries retryDelay call remaining attempt st)
    = Raise (HttpError status msg).
Proof.
  intros Hdelay H429 H403 Hcall.
  induction remaining as [|remaining IH]; intros attempt st Hpos Hsum; [lia|].
  cbn [retry_loop]. rewrite Hcall.
  destruct (Z.eqb_spec status 429); [contradiction|].
  destruct (Z.eqb_spec status 403); [contradiction|].
  destruct (Z.eqb_spec attempt (maxRetries - 1)) as [_|Hne]; [reflexivity|].
  destruct (sleep_nonneg retryDelay (count_api_call st) Hdelay) as (st' & ->).
  apply IH; lia.
Qed.

End RetryFacts.

(** Claim C7, evaluated where the program departs from it. With three
    attempts allowed and a service that answers every listing with status
    429, the call gives up after three attempts and returns [None] without
    raising, and [get_folder_tree] returns an empty tree as if the folder
    were empty. Against a service that always answers 500 the same scan
    raises. *)
Theorem rate_limit_exhaustion_is_swallowed :
  make_api_call_with_retry 3 2
    (fun n => always_rate_limited n "'root' in parents and trashed = false" None)
    initial_stats
  = Some (Ok None,
          {| totalFiles := 0; totalFolders := 0; apiCallsCount := 3;
             errors := []; slept := [2; 4; 8] |})
  /\ get_folder_tree (PF := ExactFloat.exact_float) 3 2 always_rate_limited
       no_description 1 "root" "Unknown" initial_stats
     = Some (Ok {| fileCount := 0; folderCount := 0; totalSizeMB := 0%Q;
                   lastUpdated := "N/A"; children := []; fileTypes := [];
                   sizeDistribution :=
                     {| small := 0; medium := 0; large := 0; huge := 0 |} |},
             {| totalFiles := 0; totalFolders := 0; apiCallsCount := 3;
                errors := []; slept := [2; 4; 8] |})
  /\ get_folder_tree (PF := ExactFloat.exact_float) 3 2 always_server_error
       no_description 1 "root" "Unknown" initial_stats
     = Some (Raise (HttpError 500 "server error"),
             {| totalFiles := 0; totalFolders := 0; apiCallsCount := 3;
                errors := ["API Error: server error"]; slept := [2; 2] |}).
Proof. split; [|split]; vm_compute; reflexivity. Qed.

(* ------------------------------------------------------------------ *)
(** ** Tree Scanner: a file without a size *)

Section MissingSize.
Context {F : Type} {PF : PyFloat F}.
Variable maxRetries : Z.
Variable retryDelay : Z.
Variable remote_get : Z -> string -> api_outcome get_response.



End MissingSize.


(* ------------------------------------------------------------------ *)
(** ** Tree Scanner: the aggregation invariant *)

Section AggregateFacts.
Context {F : Type} {PF : PyFloat F}.
Import PyDict PyDictFacts.

Lemma sum_over_app {A} (f : A -> Z) (l : list A) (x : A) :
  sum_over f (l ++ [x]) = sum_over f l + f x.
Proof.
  induction l as [|y l IH]; cbn [app sum_over fold_right] in *.
  - lia.
  - fold (sum_over f (l ++ [x])). fold (sum_over f l). lia.
Qed.

Lemma sum_sizes_app (l : list (node F)) (x : node F) (s sx : F) :
  forall acc,
    sum_sizes l acc = Ok s -> child_size x = Ok sx ->
    sum_sizes (l ++ [x]) acc = Ok (fadd s sx).
Proof.
  induction l as [|y l IH]; intros acc Hl Hx; cbn [app sum_sizes] in *.
  - injection Hl as ->. rewrite Hx. reflexivity.
  - destruct (child_size y) as [sy|e]; cbn [rbind] in *; [|discriminate].
    apply IH; assumption.
Qed.

Lemma folder_in_app (d : folder_data F) (l : list (node F)) (x : node F) :
  folder_in d (l ++ [x]) -> folder_in d l \/ folder_in d [x].
Proof.
  induction l as [|y l IH]; cbn [app]; intros H; [auto|].
  inversion H as [n ns Hn | n ns d' Hn Hd' | n ns Hns]; subst.
  - left. apply folder_here. assumption.
  - left. eapply folder_below; eassumption.
  - destruct (IH Hns) as [Hl | Hx]; [left; apply folder_next; exact Hl | auto].
Qed.

Lemma folder_in_file (d : folder_data F) (f : file_node F) :
  ~ folder_in d [FileNode f].
Proof.
  intros H. inversion H as [n ns Hn | n ns d' Hn Hd' | n ns Hns]; subst;
    try discriminate. inversion Hns.
Qed.

Lemma node_data_folder_child (name id descr : string) (sub : folder_data F) :
  node_data (folder_child name id descr sub) = Some sub.
Proof. destruct sub. reflexivity. Qed.

Lemma folder_in_folder_child (d : folder_data F) (name id descr : string)
  (sub : folder_data F) :
  folder_in d [folder_child name id descr sub] -> folder_of_tree d sub.
Proof.
  intros H. inversion H as [n ns Hn | n ns d' Hn Hd' | n ns Hns]; subst.
  - rewrite node_data_folder_child in Hn. injection Hn as ->. left. reflexivity.
  - rewrite node_data_folder_child in Hn. injection Hn as ->. right. exact Hd'.
  - inversion Hns.
Qed.

Lemma get_default_set (ft : dict Z) (k c : string) (v : Z) :
  get_default (set ft k v) c 0
  = if String.eqb k c then v else get_default ft c 0.
Proof.
  unfold get_default. destruct (String.eqb_spec k c) as [->|Hne].
  - rewrite get_set_same. reflexivity.
  - rewrite get_set_other by congruence. reflexivity.
Qed.

Lemma get_default_absent (ft : dict Z) (c : string) :
  ~ In c (keys ft) -> get_default ft c 0 = 0.
Proof.
  intros H. unfold get_default. destruct (get ft c) eqn:E; [|reflexivity].
  exfalso. apply H, get_In_keys. congruence.
Qed.

(** Lines 448-449 add the two histograms key by key. *)
Lemma merge_fileTypes_get (from : dict Z) :
  wf from ->
  forall into c,
    get_default (merge_fileTypes into from) c 0
    = get_default into c 0 + get_default from c 0.
Proof.
  unfold wf, merge_fileTypes.
  induction from as [|[k v] from IH]; intros W into c.
  - cbn [fold_left]. change (get_default [] c 0) with 0. lia.
  - cbn [keys map fst] in W. inversion W as [|? ? Hnotin W']; subst.
    cbn [fold_left]. rewrite (IH W'), get_default_set.
    assert (E : get_default ((k, v) :: from) c 0
                = if String.eqb k c then v else get_default from c 0).
    { unfold get_default. cbn [get]. destruct (String.eqb k c); reflexivity. }
    rewrite E.
    destruct (String.eqb_spec k c) as [->|Hne].
    + rewrite (get_default_absent from c Hnotin). lia.
    + lia.
Qed.

Lemma merge_fileTypes_wf (from into : dict Z) :
  wf into -> wf (merge_fileTypes into from).
Proof.
  unfold merge_fileTypes. revert into.
  induction from as [|[k v] from IH]; intros into W; [exact W|].
  cbn [fold_left]. apply IH, wf_set, W.
Qed.

Lemma bucket_count_add (sd : size_distribution) (b x : bucket) (n : Z) :
  bucket_count (bucket_add sd b n) x
  = bucket_count sd x + (if bucket_eqb b x then n else 0).
Proof. destruct b, x; cbn; lia. Qed.

Lemma bucket_count_merge (a b : size_distribution) (x : bucket) :
  bucket_count (merge_sizeDistribution a b) x
  = bucket_count a x + bucket_count b x.
Proof. destruct x; reflexivity. Qed.

Lemma format_file_size_bytes (size_bytes : Z) (size : size_info F) :
  format_file_size (Some size_bytes) = Ok size -> bytes size = size_bytes.
Proof.
  unfold format_file_size.
  destruct (fdiv size_bytes 1024); cbn [rbind]; [|discriminate].
  destruct (fdiv size_bytes (1024 * 1024)); cbn [rbind]; [|discriminate].
  destruct (fdiv size_bytes (1024 * 1024 * 1024)); cbn [rbind]; [|discriminate].
  intros H. injection H as <-. reflexivity.
Qed.

End AggregateFacts.

Section ScannerInvariant.
Context {F : Type} {PF : PyFloat F}.
Variable maxRetries : Z.
Variable retryDelay : Z.
Variable remote_list : Z -> string -> option string -> api_outcome list_response.
Variable remote_get : Z -> string -> api_outcome get_response.

Lemma acc_good_initial : acc_good (initial_folder_stats, []).
Proof.
  unfold acc_good. cbn [fst snd initial_folder_stats fs_fileCount
                          fs_folderCount fs_fileTypes fs_sizeDistribution
                          fs_totalSizeMB].
  split; [reflexivity|]. split; [reflexivity|].
  split; [intros c; reflexivity|].
  split; [intros []; reflexivity|].
  split; [reflexivity|]. split; [constructor|].
  intros d H. inversion H.
Qed.

Lemma scan_folder_good (rec : string -> string -> scan (folder_data F))
  (item : remote_item) (acc acc' : folder_stats F * list (node F))
  (st st' : stats) :
  rec_good rec -> acc_good acc ->
  scan_folder maxRetries retryDelay remote_get rec item acc st
  = Some (Ok acc', st') ->
  acc_good acc'.
Proof.
  intros Hrec Hacc H. destruct acc as [fs ch].
  unfold scan_folder in H. scan_inv H.
  apply ret_ok in H. destruct H as [<- _].
  rename a0 into subtree. rename a1 into descr.
  pose proof (Hrec _ _ _ _ _ Hstep0) as Hsub.
  destruct (Hsub subtree (or_introl eq_refl)) as (Csub & Ssub & Wsub).
  destruct Hacc as (A1 & A2 & A3 & A4 & A5 & A6 & A7). cbn [fst snd] in *.
  unfold acc_good. cbn [fst snd fs_fileCount fs_folderCount fs_fileTypes
                          fs_sizeDistribution fs_totalSizeMB].
  assert (N : folder_child (r_name item) (r_id item) descr subtree
              = FolderNode (r_name item) (r_id item)
                  ("https://drive.google.com/drive/folders/" ++ r_id item)%string
                  descr (fileCount subtree) (folderCount subtree)
                  (totalSizeMB subtree) (lastUpdated subtree)
                  (children subtree) (fileTypes subtree)
                  (sizeDistribution subtree)) by reflexivity.
  split; [|split; [|split; [|split; [|split; [|split]]]]].
  - rewrite sum_over_app, N. cbn [child_fileCount]. lia.
  - rewrite sum_over_app, N. cbn [child_folderCount]. lia.
  - intros c. rewrite sum_over_app, N. cbn [child_category_count].
    rewrite merge_fileTypes_get by exact Wsub. rewrite A3. reflexivity.
  - intros b. rewrite sum_over_app, N. cbn [child_bucket_count].
    rewrite bucket_count_merge, A4. reflexivity.
  - apply sum_sizes_app; [exact A5 | rewrite N; reflexivity].
  - apply merge_fileTypes_wf, A6.
  - intros d Hd.
    destruct (folder_in_app _ _ _ Hd) as [Hl | Hx]; [apply A7, Hl|].
    apply folder_in_folder_child in Hx. apply Hsub, Hx.
Qed.

Lemma scan_file_good (item : remote_item)
  (acc acc' : folder_stats F * list (node F)) (st st' : stats) :
  acc_good acc ->
  scan_file item acc st = Some (Ok acc', st') ->
  acc_good acc'.
Proof.
  intros Hacc H. destruct acc as [fs ch].
  unfold scan_file in H. scan_inv H.
  apply ret_ok in H. destruct H as [<- _].
  apply lift_ok in Hstep0, Hstep1, Hstep2.
  destruct Hstep0 as [Hbytes _], Hstep1 as [Hmb _], Hstep2 as [Hsize _].
  rename a0 into size_bytes. rename a1 into size_mb. rename a2 into size.
  pose proof (format_file_size_bytes _ _ Hsize) as Hb.
  destruct Hacc as (A1 & A2 & A3 & A4 & A5 & A6 & A7). cbn [fst snd] in *.
  unfold acc_good. cbn [fst snd fs_fileCount fs_folderCount fs_fileTypes
                          fs_sizeDistribution fs_totalSizeMB].
  match goal with
  | |- context [ch ++ [FileNode ?f]] => set (file := f)
  end.
  assert (Cs : child_size (FileNode file) = Ok size_mb)
    by (cbn [child_size file f_size]; rewrite Hb; exact Hmb).
  split; [|split; [|split; [|split; [|split; [|split]]]]].
  - rewrite sum_over_app. cbn [child_fileCount]. lia.
  - rewrite sum_over_app. cbn [child_folderCount]. lia.
  - intros c. rewrite sum_over_app, get_default_set, <- A3.
    cbn [child_category_count file f_category].
    destruct (String.eqb_spec (categorize_file (r_mimeType item)) c) as [->|_];
      lia.
  - intros b. rewrite sum_over_app, bucket_count_add, A4.
    unfold child_bucket_count. rewrite Cs. reflexivity.
  - apply sum_sizes_app; [exact A5 | exact Cs].
  - apply PyDictFacts.wf_set, A6.
  - intros d Hd.
    destruct (folder_in_app _ _ _ Hd) as [Hl | Hx]; [apply A7, Hl|].
    exfalso. exact (folder_in_file _ _ Hx).
Qed.

Lemma scan_items_good (rec : string -> string -> scan (folder_data F))
  (items : list remote_item) :
  rec_good rec ->
  forall acc st acc' st',
    acc_good acc ->
    scan_items maxRetries retryDelay remote_get rec items acc st
    = Some (Ok acc', st') ->
    acc_good acc'.
Proof.
  intros Hrec. induction items as [|item items IH]; intros acc st acc' st' Hacc H.
  - apply ret_ok in H. destruct H as [<- _]. exact Hacc.
  - cbn [scan_items] in H. scan_inv H.
    refine (IH a _ _ _ _ H).
    destruct (String.eqb (r_mimeType item) FOLDER_MIME).
    + eapply scan_folder_good; eassumption.
    + eapply scan_file_good; eassumption.
Qed.

Lemma scan_pages_good (rec : string -> string -> scan (folder_data F))
  (query : string) (fuel : nat) :
  rec_good rec ->
  forall page_token acc st acc' st',
    acc_good acc ->
    scan_pages maxRetries retryDelay remote_list remote_get rec fuel query
      page_token acc st
    = Some (Ok acc', st') ->
    acc_good acc'.
Proof.
  intros Hrec. induction fuel as [|fuel IH];
    intros page_token acc st acc' st' Hacc H; [discriminate H|].
  cbn [scan_pages] in H. scan_inv H.
  destruct a as [response|].
  - scan_inv H.
    pose proof (scan_items_good rec _ Hrec _ _ _ _ Hacc Hstep0) as Hacc1.
    destruct (str_truthy (nextPageToken response)).
    + eapply IH; eassumption.
    + apply ret_ok in H. destruct H as [<- _]. exact Hacc1.
  - apply ret_ok in H. destruct H as [<- _]. exact Hacc.
Qed.

(** Every tree [get_folder_tree] returns is good at every folder. *)
Lemma get_folder_tree_good (fuel : nat) :
  rec_good (get_folder_tree maxRetries retryDelay remote_list remote_get fuel).
Proof.
  induction fuel as [|fuel IH]; intros id name st tree st' H; [discriminate H|].
  cbn [get_folder_tree] in H. scan_inv H.
  destruct a as [fs ch]. apply ret_ok in H. destruct H as [<- _].
  pose proof (scan_pages_good _ _ _ IH _ _ _ _ _ acc_good_initial Hstep) as Hacc.
  destruct Hacc as (A1 & A2 & A3 & A4 & A5 & A6 & A7). cbn [fst snd] in *.
  intros d [-> | Hd]; [|apply A7, Hd].
  split; [|split].
  - constructor; cbn [fileCount folderCount fileTypes sizeDistribution children];
      assumption.
  - exists (fs_totalSizeMB fs). split; [exact A5 | reflexivity].
  - exact A6.
Qed.

End ScannerInvariant.

(** Claim C4 fails for the total size. A folder with two files of 3000
    bytes gets [totalSizeMB = 0.01], the sum 6000 / 1048576 rounded to two
    decimals, which is not the sum; nor is it the sum of the [mb] fields
    stored on the two files, which are both 0. *)
Lemma rounded_total_is_not_the_sum :
  ~ scanner_aggregates_exact 3 2 two_small_files no_description
  /\ exists tree st s,
      get_folder_tree 3 2 two_small_files no_description 1 "root" "Unknown"
        initial_stats = Some (Ok tree, st)
      /\ sum_sizes (children tree) fzero = Ok s
      /\ (totalSizeMB tree == 1 # 100)%Q
      /\ (s == 6000 # 1048576)%Q
      /\ ~ (totalSizeMB tree == s)%Q
      /\ map (fun n => match n with
                       | FileNode f => Some (mb (f_size f))
                       | FolderNode _ _ _ _ _ _ _ _ _ _ _ => None
                       end) (children tree)
         = [Some 0%Q; Some 0%Q].
Proof.
  split.
  - intros H.
    destruct (H 1%nat "root" "Unknown" initial_stats _ _ eq_refl _
                (or_introl eq_refl)) as (_ & s & Hs & Ht).
    vm_compute in Hs. injection Hs as <-. vm_compute in Ht. discriminate Ht.
  - eexists. eexists. eexists.
    split; [vm_compute; reflexivity|].
    split; [vm_compute; reflexivity|].
    split; [reflexivity|]. split; [reflexivity|].
    split; [|reflexivity].
    intros E. vm_compute in E. discriminate E.
Qed.

(** Claim C4, amended. In every tree the scanner returns, every folder
    has [fileCount] equal to the file counts of its child folders plus the
    number of its files, [folderCount] equal to the folder counts of its
    child folders plus their number, each category and each size bucket
    counted as in its child folders plus its files of that category or
    bucket, and [totalSizeMB] equal to the sizes of its children (stored
    totals of folders, bytes over 1024 * 1024 of files) added in order and
    then rounded to two decimals. *)
Theorem folder_aggregates {F} {PF : PyFloat F} (maxRetries retryDelay : Z)
  (remote_list : Z -> string -> option string -> api_outcome list_response)
  (remote_get : Z -> string -> api_outcome get_response)
  (fuel : nat) (id name : string) (st st' : stats) (tree d : folder_data F) :
  get_folder_tree maxRetries retryDelay remote_list remote_get fuel id name st
  = Some (Ok tree, st') ->
  folder_of_tree d tree ->
  counts_aggregate d /\ size_is_rounded_sum d.
Proof.
  intros H Hd.
  destruct (get_folder_tree_good maxRetries retryDelay remote_list remote_get
              fuel id name st tree st' H d Hd) as (C & S & _).
  split; assumption.
Qed.

Lemma folder_aggregates_witness :
  exists tree st d,
    get_folder_tree 3 2 small_drive no_description 2 "root" "Unknown"
      initial_stats = Some (Ok tree, st)
    /\ folder_of_tree d tree
    /\ fileCount tree = 3 /\ fileCount d = 1
    /\ counts_aggregate d /\ size_is_rounded_sum d.
Proof.
  eexists. eexists. eexists.
  split; [vm_compute; reflexivity|].
  split; [right; apply folder_here; reflexivity|].
  split; [reflexivity|]. split; [reflexivity|].
  eapply (folder_aggregates 3 2 small_drive no_description 2 "root" "Unknown"
            initial_stats).
  - vm_compute. reflexivity.
  - right. apply folder_here. reflexivity.
Defined.

(* ================================================================== *)
(** * Further properties of the program *)

(* ------------------------------------------------------------------ *)
(** ** Version Manager *)

Lemma parse_version_raises_ValueError (v : string) (e : pyexn) :
  parse_version v = Raise e -> e = ValueError.
Proof.
  unfold parse_version.
  destruct (map PyStr.int_of_str (PyStr.split "." v)) as [|[a|] [|[b|] [|[c|] [|d l]]]];
    intros H; congruence.
Qed.

(** After a change the result is always a version that parses. *)
Lemma increment_version_returns (v : string) :
  exists s t, increment_version v true = Ok s /\ parse_version s = Ok t.
Proof.
  destruct (parse_version v) as [[[major minor] patch]|e] eqn:P.
  - destruct (increment_version_carried _ _ _ _ P) as [(E & R & _) | (E & _)].
    + eexists. eexists. split; [exact E | exact R].
    + exists "1.0.1", (1, 0, 1). split; [exact E | reflexivity].
  - apply parse_version_raises_ValueError in P as E. subst e.
    exists "1.0.1", (1, 0, 1). split; [|reflexivity].
    unfold increment_version. cbn [negb]. rewrite P. reflexivity.
Qed.

(** [increment_version] never raises, whatever the string and the flag,
    and what it returns after a change is always a version that parses
    again: three pieces that [int] accepts. *)
Theorem increment_version_total_and_well_formed (v : string) :
  (forall has_changes, exists s, increment_version v has_changes = Ok s)
  /\ exists s t, increment_version v true = Ok s /\ parse_version s = Ok t.
Proof.
  pose proof (increment_version_returns v) as W.
  split; [|exact W].
  intros [|].
  - destruct W as (s & _ & H & _). exists s. exact H.
  - exists v. reflexivity.
Qed.




(* ------------------------------------------------------------------ *)
(** ** Version Manager: more on the history merge *)

Section MoreDictFacts.
Context {V : Type}.
Import PyDict PyDictFacts.

Lemma get_remove_same (d : dict V) (k : string) :
  wf d -> get (remove d k) k = None.
Proof.
  unfold wf. induction d as [|[k' v'] d IH]; intros W; [reflexivity|].
  cbn [keys map fst] in W. inversion W as [|? ? Hnotin W']; subst.
  cbn [remove]. destruct (String.eqb_spec k' k) as [->|Hne].
  - destruct (get d k) eqn:E; [|reflexivity].
    exfalso. apply Hnotin, get_In_keys. congruence.
  - cbn [get]. destruct (String.eqb_spec k' k); [contradiction|]. apply IH, W'.
Qed.

Lemma keys_remove_incl (d : dict V) (k x : string) :
  In x (keys (remove d k)) -> In x (keys d).
Proof.
  induction d as [|[k' v'] d IH]; [auto|].
  cbn [remove]. destruct (String.eqb k' k); cbn [keys map fst In]; [auto|].
  intros [H | H]; [auto | right; apply IH, H].
Qed.

Lemma wf_remove (d : dict V) (k : string) : wf d -> wf (remove d k).
Proof.
  unfold wf. induction d as [|[k' v'] d IH]; intros W; [exact W|].
  cbn [keys map fst] in W. inversion W as [|? ? Hnotin W']; subst.
  cbn [remove]. destruct (String.eqb k' k); [exact W'|].
  cbn [keys map fst]. constructor; [|apply IH, W'].
  intros H. apply Hnotin. exact (keys_remove_incl _ _ _ H).
Qed.

Lemma contains_set (d : dict V) (k k0 : string) (v : V) :
  contains (set d k v) k0 = String.eqb k k0 || contains d k0.
Proof.
  unfold contains. destruct (String.eqb_spec k k0) as [->|Hne].
  - rewrite get_set_same. reflexivity.
  - rewrite get_set_other by congruence. reflexivity.
Qed.

Lemma contains_remove_other (d : dict V) (k k0 : string) :
  k0 <> k -> contains (remove d k) k0 = contains d k0.
Proof. intros H. unfold contains. rewrite get_remove_other by exact H. reflexivity. Qed.

End MoreDictFacts.

(** What the renaming of lines 281-285 leaves in an entry with each key
    once: no ["current_version"]; a ["version"] exactly when the entry had
    a version under one of the three names, with the value of
    ["current_version"] before that of ["n_version"] before the one
    already under ["version"]; and an ["n_version"] only when the entry
    had both old keys. *)
Theorem standardize_entry_keys (e e' : entry) :
  PyDict.wf e ->
  standardize_entry e = Ok e' ->
  PyDict.wf e'
  /\ PyDict.contains e' "current_version" = false
  /\ PyDict.get e' "version"
     = match PyDict.get e "current_version" with
       | Some v => Some v
       | None =>
           match PyDict.get e "n_version" with
           | Some v => Some v
           | None => PyDict.get e "version"
           end
       end
  /\ PyDict.contains e' "n_version"
     = PyDict.contains e "current_version" && PyDict.contains e "n_version".
Proof.
  intros W. unfold standardize_entry, PyDict.pop, PyDict.contains.
  destruct (PyDict.get e "current_version") as [v1|] eqn:G1.
  - cbn [rbind fst snd]. intros H. injection H as <-.
    split; [apply PyDictFacts.wf_set, wf_remove, W|].
    split.
    { fold (PyDict.contains
              (PyDict.set (PyDict.remove e "current_version") "version" v1)
              "current_version").
      rewrite contains_set. cbn [String.eqb Ascii.eqb Bool.eqb orb].
      unfold PyDict.contains. rewrite (get_remove_same e _ W). reflexivity. }
    split; [apply PyDictFacts.get_set_same|].
    rewrite PyDictFacts.get_set_other by discriminate.
    rewrite PyDictFacts.get_remove_other by discriminate.
    reflexivity.
  - destruct (PyDict.get e "n_version") as [v2|] eqn:G2.
    + cbn [rbind fst snd]. intros H. injection H as <-.
      split; [apply PyDictFacts.wf_set, wf_remove, W|].
      split.
      { rewrite PyDictFacts.get_set_other by discriminate.
        rewrite PyDictFacts.get_remove_other by discriminate.
        rewrite G1. reflexivity. }
      split; [apply PyDictFacts.get_set_same|].
      rewrite PyDictFacts.get_set_other by discriminate.
      rewrite (get_remove_same e _ W). reflexivity.
    + intros H. injection H as <-.
      split; [exact W|]. rewrite G1, G2. auto.
Qed.

Lemma standardize_entry_keys_witness :
  PyDict.wf [("version", PStr "3"); ("n_version", PStr "2");
             ("current_version", PStr "1")]
  /\ exists e',
      standardize_entry [("version", PStr "3"); ("n_version", PStr "2");
                         ("current_version", PStr "1")] = Ok e'
      /\ PyDict.get e' "version" = Some (PStr "1")
      /\ PyDict.contains e' "n_version" = true.
Proof.
  assert (W : PyDict.wf [("version", PStr "3"); ("n_version", PStr "2");
                         ("current_version", PStr "1")]).
  { unfold PyDict.wf. cbn. repeat constructor; cbn; intuition discriminate. }
  split; [exact W|].
  eexists. split; [reflexivity|].
  destruct (standardize_entry_keys _ _ W eq_refl) as (_ & _ & Hv & Hn).
  split; [exact Hv | exact Hn].
Defined.

Lemma merge_result_shape (loaded : list entry) (new_entry : entry)
  (result : list entry) :
  save_version_history loaded new_entry = Ok result ->
  exists history, result = firstn MAX_HISTORY history.
Proof.
  unfold save_version_history.
  destruct (standardize loaded) as [history|e]; cbn [rbind]; [|discriminate].
  destruct (no_changes new_entry) as [unchanged|e]; cbn [rbind]; [|discriminate].
  match goal with
  | |- rbind ?m _ = _ -> _ => destruct m as [h|e]; cbn [rbind]; [|discriminate]
  end.
  rewrite truncate_firstn. intros H. exists h. congruence.
Qed.

(** Whatever was loaded, also more than 50 entries, and whatever the new
    entry: a merge that returns holds at most 50 entries. *)
Theorem merged_history_bounded (loaded : list entry) (new_entry : entry)
  (result : list entry) :
  save_version_history loaded new_entry = Ok result ->
  (List.length result <= 50)%nat.
Proof.
  intros H. destruct (merge_result_shape _ _ _ H) as (history & ->).
  apply firstn_le_length.
Qed.

Lemma merged_history_bounded_witness :
  save_version_history (sample_changed_entry :: sample_full_history)
    sample_changed_entry
  = Ok (sample_changed_entry
          :: firstn 49 (sample_changed_entry
                          :: repeat [("version", PStr "1.0.0")] 50))
  /\ (List.length
        (sample_changed_entry
           :: firstn 49 (sample_changed_entry
                           :: repeat [("version", PStr "1.0.0")] 50)) <= 50)%nat.
Proof.
  split; [vm_compute; reflexivity|].
  apply (merged_history_bounded (sample_changed_entry :: sample_full_history)
           sample_changed_entry).
  vm_compute. reflexivity.
Defined.

Lemma no_changes_missing (new_entry : entry) :
  PyDict.get new_entry "changes" = None
  \/ (exists changes,
         PyDict.get new_entry "changes" = Some (PDict changes)
         /\ PyDict.get changes "total_changes" = None) ->
  no_changes new_entry = Ok true.
Proof.
  unfold no_changes, PyDict.get_default.
  intros [-> | (changes & -> & H)]; cbn [py_get rbind];
    unfold PyDict.get_default; [reflexivity|]. rewrite H. reflexivity.
Qed.

Lemma merge_refresh (loaded : list entry) (new_entry : entry) (scan_date : pyval) :
  loaded <> [] ->
  no_changes new_entry = Ok true ->
  PyDict.get new_entry "scan_date" = Some scan_date ->
  exists top rest,
    standardize loaded = Ok (top :: rest)
    /\ save_version_history loaded new_entry
       = Ok (firstn 50
               (match PyDict.get new_entry "stats" with
                | Some new_stats =>
                    PyDict.set (PyDict.set top "scan_date" scan_date)
                      "stats" new_stats
                | None => PyDict.set top "scan_date" scan_date
                end :: rest)).
Proof.
  intros Hne Hno Hd.
  destruct (standardize_total loaded) as (history & Hs & Hl).
  destruct history as [|top rest].
  { destruct loaded; [congruence | discriminate Hl]. }
  exists top, rest. split; [exact Hs|].
  unfold save_version_history. rewrite Hs. cbn [rbind].
  rewrite Hno. cbn [rbind].
  unfold PyDict.getitem, PyDict.contains. rewrite Hd. cbn [rbind].
  destruct (PyDict.get new_entry "stats"); cbn [rbind];
    rewrite truncate_firstn; reflexivity.
Qed.

(** An entry that has no ["changes"], or whose changes have no
    ["total_changes"], counts as a scan without changes: merged into a
    non-empty history it is not inserted. The result is the renamed
    history cut to 50 entries, whose head has received the ["scan_date"]
    and keeps its other fields apart from ["stats"]. *)
Theorem entry_without_change_count_refreshes (loaded : list entry)
  (new_entry : entry) (scan_date : pyval) :
  loaded <> [] ->
  PyDict.get new_entry "changes" = None
  \/ (exists changes,
         PyDict.get new_entry "changes" = Some (PDict changes)
         /\ PyDict.get changes "total_changes" = None) ->
  PyDict.get new_entry "scan_date" = Some scan_date ->
  exists top rest top',
    standardize loaded = Ok (top :: rest)
    /\ save_version_history loaded new_entry = Ok (firstn 50 (top' :: rest))
    /\ PyDict.get top' "scan_date" = Some scan_date
    /\ (forall k, k <> "scan_date" -> k <> "stats" ->
                  PyDict.get top' k = PyDict.get top k)
    /\ (List.length (firstn 50 (top' :: rest)) <= List.length loaded)%nat.
Proof.
  intros Hne Hc Hd.
  destruct (merge_refresh loaded new_entry scan_date Hne
              (no_changes_missing _ Hc) Hd) as (top & rest & Hs & H).
  destruct (standardize_total loaded) as (history & Hs' & Hl).
  rewrite Hs in Hs'. injection Hs' as <-.
  exists top, rest. eexists. split; [exact Hs|]. split; [exact H|].
  split; [|split].
  - destruct (PyDict.get new_entry "stats").
    + rewrite PyDictFacts.get_set_other by discriminate.
      apply PyDictFacts.get_set_same.
    + apply PyDictFacts.get_set_same.
  - intros k K1 K2. destruct (PyDict.get new_entry "stats").
    + rewrite !PyDictFacts.get_set_other by assumption. reflexivity.
    + rewrite PyDictFacts.get_set_other by assumption. reflexivity.
  - rewrite length_firstn, <- Hl. apply Nat.le_min_r.
Qed.

Lemma entry_without_change_count_refreshes_witness :
  sample_legacy_history <> []
  /\ PyDict.get [("scan_date", PStr "2024-01-03")] "changes" = None
  /\ exists top rest top',
      standardize sample_legacy_history = Ok (top :: rest)
      /\ save_version_history sample_legacy_history
           [("scan_date", PStr "2024-01-03")]
         = Ok (firstn 50 (top' :: rest))
      /\ PyDict.get top' "scan_date" = Some (PStr "2024-01-03")
      /\ (forall k, k <> "scan_date" -> k <> "stats" ->
                    PyDict.get top' k = PyDict.get top k)
      /\ (List.length (firstn 50 (top' :: rest))
          <= List.length sample_legacy_history)%nat.
Proof.
  split; [discriminate|]. split; [reflexivity|].
  apply (entry_without_change_count_refreshes sample_legacy_history
           [("scan_date", PStr "2024-01-03")] (PStr "2024-01-03"));
    [discriminate | left; reflexivity | reflexivity].
Defined.

(** How the merge fails. When ["changes"] is present but not a
    dictionary, [AttributeError] leaves the function, whatever the
    history. When the entry counts as unchanged, the history is not
    empty and the entry has no ["scan_date"], it is [KeyError]. *)
Theorem merge_errors (loaded : list entry) (new_entry : entry) :
  (forall v, PyDict.get new_entry "changes" = Some v ->
             (forall d, v <> PDict d) ->
             save_version_history loaded new_entry = Raise AttributeError)
  /\ (loaded <> [] ->
      no_changes new_entry = Ok true ->
      PyDict.get new_entry "scan_date" = None ->
      save_version_history loaded new_entry = Raise (KeyError "scan_date")).
Proof.
  destruct (standardize_total loaded) as (history & Hs & Hl).
  unfold save_version_history. rewrite Hs. cbn [rbind]. split.
  - intros v Hv Hd. unfold no_changes, PyDict.get_default. rewrite Hv.
    destruct v; try reflexivity. exfalso. exact (Hd _ eq_refl).
  - intros Hne Hno Hk. rewrite Hno. cbn [rbind].
    destruct history as [|top rest].
    { destruct loaded; [congruence | discriminate Hl]. }
    unfold PyDict.getitem. rewrite Hk. reflexivity.
Qed.

Lemma merge_errors_witness :
  PyDict.get [("changes", PStr "none")] "changes" = Some (PStr "none")
  /\ save_version_history [] [("changes", PStr "none")] = Raise AttributeError
  /\ sample_legacy_history <> []
  /\ no_changes [("version", PStr "1.0.0")] = Ok true
  /\ save_version_history sample_legacy_history [("version", PStr "1.0.0")]
     = Raise (KeyError "scan_date").
Proof.
  split; [reflexivity|]. split.
  - apply (proj1 (merge_errors [] [("changes", PStr "none")]) (PStr "none"));
      [reflexivity | discriminate].
  - split; [discriminate|]. split; [reflexivity|].
    apply (proj2 (merge_errors sample_legacy_history [("version", PStr "1.0.0")]));
      [discriminate | reflexivity | reflexivity].
Defined.

(** Into an empty history an entry is inserted whenever the merge can
    read its change set, that is when its ["changes"] is absent or a
    dictionary, also when it reports no change: the first scan then
    leaves one entry. With any other value under ["changes"] the merge
    raises [AttributeError] and there is no history. *)
Theorem first_entry_is_inserted (new_entry : entry) :
  (PyDict.get new_entry "changes" = None
   \/ (exists changes, PyDict.get new_entry "changes" = Some (PDict changes)) ->
   save_version_history [] new_entry = Ok [new_entry])
  /\ (forall v,
         PyDict.get new_entry "changes" = Some v ->
         (forall changes, v <> PDict changes) ->
         save_version_history [] new_entry = Raise AttributeError).
Proof.
  unfold save_version_history. cbn [standardize rbind]. split.
  - intros H.
    assert (N : exists b, no_changes new_entry = Ok b).
    { unfold no_changes, PyDict.get_default.
      destruct H as [-> | (changes & ->)]; cbn [py_get rbind]; eauto. }
    destruct N as (b & ->). cbn [rbind]. destruct b; reflexivity.
  - intros v Hv Hd. unfold no_changes, PyDict.get_default. rewrite Hv.
    destruct v; try reflexivity. exfalso. exact (Hd _ eq_refl).
Qed.

Lemma first_entry_is_inserted_witness :
  (exists changes,
      PyDict.get sample_unchanged_entry "changes" = Some (PDict changes))
  /\ save_version_history [] sample_unchanged_entry = Ok [sample_unchanged_entry]
  /\ PyDict.get [("changes", PNone)] "changes" = Some PNone
  /\ save_version_history [] [("changes", PNone)] = Raise AttributeError.
Proof.
  assert (H : exists changes,
             PyDict.get sample_unchanged_entry "changes" = Some (PDict changes))
    by (eexists; reflexivity).
  split; [exact H|]. split.
  - apply (proj1 (first_entry_is_inserted sample_unchanged_entry)). right. exact H.
  - split; [reflexivity|].
    apply (proj2 (first_entry_is_inserted [("changes", PNone)]) PNone);
      [reflexivity | discriminate].
Defined.

(* ------------------------------------------------------------------ *)
(** ** Diff Engine: more on the change set *)

Section MoreSignatureMapFacts.
Import PyDict PyDictFacts.

Lemma flat_map_nil {A B} (f : A -> list B) (l : list A) :
  flat_map f l = [] <-> forall x, In x l -> f x = [].
Proof.
  induction l as [|x l IH]; cbn [flat_map In].
  - split; [intros _ y [] | reflexivity].
  - split.
    + intros H. apply app_eq_nil in H. destruct H as [Hx Hl].
      intros y [<- | Hy]; [exact Hx | apply IH; assumption].
    + intros H. rewrite (H x (or_introl eq_refl)).
      apply IH. intros y Hy. apply H. right. exact Hy.
Qed.

Lemma get_In {V} (d : dict V) (k : string) (v : V) :
  get d k = Some v -> In (k, v) d.
Proof.
  induction d as [|[k' v'] d IH]; cbn [get In]; [discriminate|].
  destruct (String.eqb_spec k' k) as [->|Hne].
  - intros H. injection H as ->. left. reflexivity.
  - intros H. right. apply IH, H.
Qed.

Lemma In_get {V} (d : dict V) (k : string) (v : V) :
  wf d -> In (k, v) d -> get d k = Some v.
Proof.
  unfold wf. induction d as [|[k' v'] d IH]; intros W; [intros []|].
  cbn [keys map fst] in W. inversion W as [|? ? Hnotin W']; subst.
  cbn [get In]. intros [E | H].
  - injection E as -> ->. rewrite String.eqb_refl. reflexivity.
  - destruct (String.eqb_spec k' k) as [->|Hne]; [|apply IH; assumption].
    exfalso. apply Hnotin. change k with (fst (k, v)). apply in_map, H.
Qed.

Lemma compare_infos_nil (file_id : string) (c p : sig_info) :
  compare_infos file_id c p = [] <->
  sig_name c = sig_name p /\ sig_size c = sig_size p
  /\ sig_modified c = sig_modified p.
Proof.
  unfold compare_infos.
  destruct (String.eqb_spec (sig_name c) (sig_name p)) as [E1|N1];
    destruct (Z.eqb_spec (sig_size c) (sig_size p)) as [E2|N2];
    destruct (String.eqb_spec (sig_modified c) (sig_modified p)) as [E3|N3];
    cbn [negb orb]; split; intros H; try discriminate H; try tauto;
    destruct H as (H1 & H2 & H3); contradiction.
Qed.

Lemma find_added_nil (cur prev : dict sig_info) :
  find_added cur prev = [] <-> forall k, In k (keys cur) -> In k (keys prev).
Proof.
  unfold find_added. rewrite flat_map_nil. split.
  - intros H k Hk. apply in_map_iff in Hk. destruct Hk as ([k' v] & <- & Hin).
    specialize (H _ Hin). cbn in H |- *.
    destruct (contains prev k') eqn:C; [|discriminate H].
    apply contains_In_keys, C.
  - intros H [k v] Hin.
    assert (C : contains prev k = true).
    { apply contains_In_keys, H. change k with (fst (k, v)). apply in_map, Hin. }
    rewrite C. reflexivity.
Qed.

Lemma find_deleted_nil (cur prev : dict sig_info) :
  find_deleted cur prev = [] <-> forall k, In k (keys prev) -> In k (keys cur).
Proof.
  unfold find_deleted. rewrite flat_map_nil. split.
  - intros H k Hk. apply in_map_iff in Hk. destruct Hk as ([k' v] & <- & Hin).
    specialize (H _ Hin). cbn in H |- *.
    destruct (contains cur k') eqn:C; [|discriminate H].
    apply contains_In_keys, C.
  - intros H [k v] Hin.
    assert (C : contains cur k = true).
    { apply contains_In_keys, H. change k with (fst (k, v)). apply in_map, Hin. }
    rewrite C. reflexivity.
Qed.

Lemma find_modified_nil (cur prev : dict sig_info) :
  wf cur ->
  find_modified cur prev = [] <->
  forall k c p,
    get cur k = Some c -> get prev k = Some p ->
    sig_name c = sig_name p /\ sig_size c = sig_size p
    /\ sig_modified c = sig_modified p.
Proof.
  intros W. unfold find_modified. rewrite flat_map_nil. split.
  - intros H k c p Hc Hp. specialize (H _ (get_In _ _ _ Hc)). cbn in H.
    rewrite Hp in H. apply compare_infos_nil in H. exact H.
  - intros H [k c] Hin. destruct (get prev k) as [p|] eqn:Hp; [|reflexivity].
    apply compare_infos_nil. apply (H k c p); [apply In_get; assumption | exact Hp].
Qed.

Lemma len_zero {A} (l : list A) : len l = 0 <-> l = [].
Proof.
  unfold len. destruct l; cbn [List.length]; split; intros H;
    try reflexivity; try discriminate H; lia.
Qed.

Lemma len_nonneg {A} (l : list A) : 0 <= len l.
Proof. unfold len. lia. Qed.

Lemma total_changes_zero (cur prev : dict sig_info) :
  total_changes (diff_signatures cur prev) = 0 <->
  find_added cur prev = [] /\ find_deleted cur prev = []
  /\ find_modified cur prev = [].
Proof.
  unfold diff_signatures. cbn [total_changes].
  pose proof (len_nonneg (find_added cur prev)).
  pose proof (len_nonneg (find_deleted cur prev)).
  pose proof (len_nonneg (find_modified cur prev)).
  rewrite <- !len_zero. lia.
Qed.

End MoreSignatureMapFacts.

Section MoreDiffClaims.
Context {F : Type} {PF : PyFloat F}.
Variable md5_hexdigest : string -> string.
Variable frepr : F -> string.

(** The scan reports no change exactly when the tree and the previous
    map have the same file ids and every file has the name, size and
    modification time it had. The stored fingerprint plays no part: a
    previous map with other fingerprints but the same three fields is no
    change. *)
Theorem no_change_iff_same_metadata (current_data : folder_data F)
  (previous_data : previous_scan) :
  total_changes (detect_changes md5_hexdigest frepr current_data previous_data) = 0
  <->
  (forall file_id,
      In file_id (PyDict.keys
                    (extract_file_signatures md5_hexdigest frepr current_data))
      <-> In file_id (PyDict.keys (previous_signatures previous_data)))
  /\ (forall file_id c p,
         PyDict.get (extract_file_signatures md5_hexdigest frepr current_data)
           file_id = Some c ->
         PyDict.get (previous_signatures previous_data) file_id = Some p ->
         sig_name c = sig_name p /\ sig_size c = sig_size p
         /\ sig_modified c = sig_modified p).
Proof.
  unfold detect_changes.
  pose proof (extract_file_signatures_wf md5_hexdigest frepr current_data) as W.
  set (cur := extract_file_signatures md5_hexdigest frepr current_data) in *.
  set (prev := previous_signatures previous_data).
  rewrite total_changes_zero, find_added_nil, find_deleted_nil,
    (find_modified_nil cur prev W).
  split.
  - intros (A & D & M). split; [|exact M]. intros k. split; auto.
  - intros (K & M). split; [|split; [|exact M]]; intros k Hk; apply K, Hk.
Qed.

End MoreDiffClaims.

Lemma no_change_iff_same_metadata_witness :
  total_changes (detect_changes sample_md5 sample_repr sample_tree
                   sample_same_previous) = 0
  /\ forall file_id,
      In file_id (PyDict.keys
                    (extract_file_signatures sample_md5 sample_repr sample_tree))
      <-> In file_id (PyDict.keys (previous_signatures sample_same_previous)).
Proof.
  split; [reflexivity|].
  apply (proj1 (no_change_iff_same_metadata sample_md5 sample_repr sample_tree
                  sample_same_previous)).
  reflexivity.
Defined.

Section ChangeLists.
Import PyDict PyDictFacts.

Lemma modified_ids_in (cur prev : dict sig_info) (file_id : string) :
  In file_id (map m_id (find_modified cur prev)) ->
  In file_id (keys cur) /\ In file_id (keys prev).
Proof.
  unfold find_modified. induction cur as [|[k c] cur IH]; [intros []|].
  cbn [flat_map]. rewrite map_app, in_app_iff. intros [H | H].
  - destruct (get prev k) as [p|] eqn:Hp; [|destruct H].
    unfold compare_infos in H. destruct (_ || _); [|destruct H].
    destruct H as [<- | []]. cbn [m_id keys map fst In]. split; [auto|].
    apply get_In_keys. congruence.
  - destruct (IH H) as [H1 H2]. split; [right; exact H1 | exact H2].
Qed.

Lemma modified_ids_NoDup (cur prev : dict sig_info) :
  wf cur -> NoDup (map m_id (find_modified cur prev)).
Proof.
  unfold wf, find_modified. induction cur as [|[k c] cur IH]; intros W.
  - constructor.
  - cbn [keys map fst] in W. inversion W as [|? ? Hnotin W']; subst.
    cbn [flat_map]. rewrite map_app.
    assert (T : NoDup (map m_id
                         (flat_map
                            (fun '(file_id, current_info) =>
                               match get prev file_id with
                               | Some previous_info =>
                                   compare_infos file_id current_info previous_info
                               | None => []
                               end) cur))) by exact (IH W').
    destruct (get prev k) as [p|]; [|exact T].
    unfold compare_infos. destruct (_ || _); [|exact T].
    cbn [map app m_id]. constructor; [|exact T].
    intros H. apply Hnotin. exact (proj1 (modified_ids_in cur prev k H)).
Qed.

End ChangeLists.

Section ChangeListsClaims.
Context {F : Type} {PF : PyFloat F}.
Variable md5_hexdigest : string -> string.
Variable frepr : F -> string.

(** No file is reported twice: when the previous map has each id once,
    no id occurs twice in [added_files], in [deleted_files] or in
    [modified_files], and no id occurs in two of the three lists. *)
Theorem change_lists_disjoint (current_data : folder_data F)
  (previous_data : previous_scan) :
  PyDict.wf (previous_signatures previous_data) ->
  NoDup (map ref_id (added_files (detect_changes md5_hexdigest frepr
                                    current_data previous_data)))
  /\ NoDup (map ref_id (deleted_files (detect_changes md5_hexdigest frepr
                                         current_data previous_data)))
  /\ NoDup (map m_id (modified_files (detect_changes md5_hexdigest frepr
                                        current_data previous_data)))
  /\ forall file_id,
      ~ (In file_id (map ref_id (added_files
                                   (detect_changes md5_hexdigest frepr
                                      current_data previous_data)))
         /\ In file_id (map ref_id (deleted_files
                                      (detect_changes md5_hexdigest frepr
                                         current_data previous_data))))
      /\ ~ (In file_id (map ref_id (added_files
                                      (detect_changes md5_hexdigest frepr
                                         current_data previous_data)))
            /\ In file_id (map m_id (modified_files
                                       (detect_changes md5_hexdigest frepr
                                          current_data previous_data))))
      /\ ~ (In file_id (map ref_id (deleted_files
                                      (detect_changes md5_hexdigest frepr
                                         current_data previous_data)))
            /\ In file_id (map m_id (modified_files
                                       (detect_changes md5_hexdigest frepr
                                          current_data previous_data)))).
Proof.
  intros Wp.
  pose proof (extract_file_signatures_wf md5_hexdigest frepr current_data) as Wc.
  unfold detect_changes, diff_signatures.
  cbn [added_files deleted_files modified_files].
  set (cur := extract_file_signatures md5_hexdigest frepr current_data) in *.
  set (prev := previous_signatures previous_data) in *.
  rewrite added_ids, deleted_ids.
  split; [apply NoDup_filter, Wc|].
  split; [apply NoDup_filter, Wp|].
  split; [apply modified_ids_NoDup, Wc|].
  intros file_id. rewrite !filter_In, !negb_true_iff.
  rewrite !PyDictFacts.contains_false_keys.
  split; [|split].
  - intros [[H1 H2] [H3 H4]]. contradiction.
  - intros [[H1 H2] H3]. apply modified_ids_in in H3. destruct H3. contradiction.
  - intros [[H1 H2] H3]. apply modified_ids_in in H3. destruct H3. contradiction.
Qed.

End ChangeListsClaims.

Lemma change_lists_disjoint_witness :
  PyDict.wf (previous_signatures sample_previous)
  /\ NoDup (map ref_id (added_files (detect_changes sample_md5 sample_repr
                                       sample_tree sample_previous)))
  /\ map m_id (modified_files (detect_changes sample_md5 sample_repr
                                 sample_tree sample_previous)) = ["A"].
Proof.
  split; [exact sample_previous_wf|]. split; [|reflexivity].
  apply (change_lists_disjoint sample_md5 sample_repr sample_tree
           sample_previous sample_previous_wf).
Defined.

Section ModifiedEntries.
Import PyDict PyDictFacts.

Lemma compare_infos_In (file_id : string) (c p : sig_info) (m : modified_entry) :
  In m (compare_infos file_id c p) ->
  m_id m = file_id
  /\ m_name m = sig_name c /\ m_old_name m = sig_name p
  /\ m_new_size m = sig_size c /\ m_old_size m = sig_size p
  /\ m_new_modified m = sig_modified c /\ m_old_modified m = sig_modified p
  /\ (sig_name c <> sig_name p \/ sig_size c <> sig_size p
      \/ sig_modified c <> sig_modified p)
  /\ m_change_type m = PyStrMore.join ", " (tags_of m).
Proof.
  unfold compare_infos, tags_of.
  destruct (String.eqb_spec (sig_name c) (sig_name p)) as [E1|N1];
    destruct (Z.eqb_spec (sig_size c) (sig_size p)) as [E2|N2];
    destruct (String.eqb_spec (sig_modified c) (sig_modified p)) as [E3|N3];
    cbn [negb orb]; intros H; try (destruct H; fail);
    destruct H as [<- | []];
    cbn [m_id m_name m_old_name m_new_size m_old_size m_new_modified
           m_old_modified m_change_type];
    repeat match goal with
      | |- context [String.eqb ?a ?b] => destruct (String.eqb_spec a b)
      | |- context [Z.eqb ?a ?b] => destruct (Z.eqb_spec a b)
      end; try contradiction; try congruence;
    repeat split; auto.
Qed.

Lemma find_modified_In (cur prev : dict sig_info) (m : modified_entry) :
  wf cur ->
  In m (find_modified cur prev) ->
  exists c p,
    get cur (m_id m) = Some c /\ get prev (m_id m) = Some p
    /\ In m (compare_infos (m_id m) c p).
Proof.
  intros W. unfold find_modified. rewrite in_flat_map.
  intros ([k c] & Hin & H).
  destruct (get prev k) as [p|] eqn:Hp; [|destruct H].
  pose proof (compare_infos_In _ _ _ _ H) as (E & _). subst k.
  exists c, p. split; [apply In_get; assumption|]. auto.
Qed.

Lemma find_modified_complete (cur prev : dict sig_info) (k : string)
  (c p : sig_info) :
  get cur k = Some c -> get prev k = Some p ->
  (sig_name c <> sig_name p \/ sig_size c <> sig_size p
   \/ sig_modified c <> sig_modified p) ->
  In k (map m_id (find_modified cur prev)).
Proof.
  intros Hc Hp Hd. apply in_map_iff.
  destruct (compare_infos k c p) as [|m l] eqn:E.
  - apply compare_infos_nil in E. destruct E as (E1 & E2 & E3).
    destruct Hd as [H | [H | H]]; contradiction.
  - exists m. assert (Hm : In m (compare_infos k c p)) by (rewrite E; left; reflexivity).
    split; [exact (proj1 (compare_infos_In _ _ _ _ Hm))|].
    unfold find_modified. apply in_flat_map. exists (k, c).
    split; [apply get_In, Hc|]. rewrite Hp. exact Hm.
Qed.

End ModifiedEntries.

Section ModifiedClaims.
Context {F : Type} {PF : PyFloat F}.
Variable md5_hexdigest : string -> string.
Variable frepr : F -> string.

(** What [modified_files] holds. Every entry names a file present in both
    maps with at least one of name, size and modification time changed;
    its new values are those of the current map, its old values those of
    the previous map, and its change type lists, in the order renamed,
    resized, modified, exactly the fields whose old and new values
    differ. Conversely every file present in both maps with a changed
    field has an entry. *)
Theorem modified_files_spec (current_data : folder_data F)
  (previous_data : previous_scan) :
  (forall m,
      In m (modified_files (detect_changes md5_hexdigest frepr
                              current_data previous_data)) ->
      exists c p,
        PyDict.get (extract_file_signatures md5_hexdigest frepr current_data)
          (m_id m) = Some c
        /\ PyDict.get (previous_signatures previous_data) (m_id m) = Some p
        /\ m_name m = sig_name c /\ m_old_name m = sig_name p
        /\ m_new_size m = sig_size c /\ m_old_size m = sig_size p
        /\ m_new_modified m = sig_modified c
        /\ m_old_modified m = sig_modified p
        /\ (sig_name c <> sig_name p \/ sig_size c <> sig_size p
            \/ sig_modified c <> sig_modified p)
        /\ m_change_type m = PyStrMore.join ", " (tags_of m))
  /\ (forall file_id c p,
         PyDict.get (extract_file_signatures md5_hexdigest frepr current_data)
           file_id = Some c ->
         PyDict.get (previous_signatures previous_data) file_id = Some p ->
         (sig_name c <> sig_name p \/ sig_size c <> sig_size p
          \/ sig_modified c <> sig_modified p) ->
         In file_id (map m_id (modified_files
                                 (detect_changes md5_hexdigest frepr
                                    current_data previous_data)))).
Proof.
  pose proof (extract_file_signatures_wf md5_hexdigest frepr current_data) as W.
  unfold detect_changes, diff_signatures. cbn [modified_files]. split.
  - intros m Hm. destruct (find_modified_In _ _ _ W Hm) as (c & p & Hc & Hp & Hin).
    exists c, p. split; [exact Hc|]. split; [exact Hp|].
    exact (proj2 (compare_infos_In _ _ _ _ Hin)).
  - intros file_id c p. apply find_modified_complete.
Qed.

End ModifiedClaims.

Lemma modified_files_spec_witness :
  PyDict.get (extract_file_signatures sample_md5 sample_repr sample_tree) "A"
  = Some {| signature := sample_md5 "A-a.txt-{'bytes': 700, 'kb': 0.0, 'mb': 0.0, 'gb': 0.0}-2024-01-02";
            sig_name := "a.txt"; sig_size := 700; sig_modified := "2024-01-02" |}
  /\ map m_change_type (modified_files (detect_changes sample_md5 sample_repr
                                          sample_tree sample_previous))
     = ["resized"]
  /\ In "A" (map m_id (modified_files (detect_changes sample_md5 sample_repr
                                         sample_tree sample_previous))).
Proof.
  split; [reflexivity|]. split; [reflexivity|].
  eapply (proj2 (modified_files_spec sample_md5 sample_repr sample_tree
                   sample_previous) "A").
  - reflexivity.
  - reflexivity.
  - right. left. cbn. discriminate.
Defined.

Section SummaryFacts.
Import PyStr PyStrFacts.

Lemma decimal_first_digit (n : Z) :
  0 <= n -> exists d, 0 <= d <= 9 /\ first_char (decimal n) = Some (digit_char d).
Proof.
  intros Hn. unfold decimal. destruct (Z.ltb_spec n 0); [lia|].
  unfold str_of_nonneg.
  destruct (str_digits_head (Z.to_nat (Z.log2 n)) n EmptyString) as (d & r & Hd & E).
  rewrite E. exists d. auto.
Qed.

Lemma first_char_app (a b : string) (c : ascii) :
  first_char a = Some c -> first_char (a ++ b) = Some c.
Proof. destruct a; [discriminate|]. auto. Qed.

Lemma first_char_join (sep p : string) (rest : list string) (c : ascii) :
  first_char p = Some c -> first_char (PyStrMore.join sep (p :: rest)) = Some c.
Proof.
  intros H. cbn [PyStrMore.join]. destruct rest; [exact H|].
  apply first_char_app, H.
Qed.

Lemma digit_char_not_N (d : Z) : 0 <= d <= 9 -> digit_char d <> "N"%char.
Proof.
  revert d. apply (digit_char_cases (fun c => c <> "N"%char)); discriminate.
Qed.

Lemma count_part_first_digit {A} (l : list A) (suffix : string) :
  exists d, 0 <= d <= 9
            /\ first_char (decimal (len l) ++ suffix) = Some (digit_char d).
Proof.
  destruct (decimal_first_digit (len l) (len_nonneg l)) as (d & Hd & E).
  exists d. split; [exact Hd | apply first_char_app, E].
Qed.

(** The summary is the fixed text exactly when all three lists are
    empty. *)
Lemma make_summary_no_changes (added deleted : list file_ref)
  (modified : list modified_entry) :
  make_summary added deleted modified = "No changes detected"
  <-> added = [] /\ deleted = [] /\ modified = [].
Proof.
  split.
  - intros H.
    assert (K : forall (p : string) (rest : list string) (d : Z),
               0 <= d <= 9 -> first_char p = Some (digit_char d) ->
               PyStrMore.join ", " (p :: rest) <> "No changes detected").
    { intros p rest d Hd Hp E.
      pose proof (first_char_join ", " p rest _ Hp) as X. rewrite E in X.
      cbn in X. injection X as X. exact (digit_char_not_N d Hd (eq_sym X)). }
    unfold make_summary in H.
    destruct added as [|a added].
    + destruct deleted as [|b deleted].
      * destruct modified as [|m modified]; [auto|].
        exfalso. cbn [app] in H.
        destruct (count_part_first_digit (m :: modified) " files modified")
          as (d & Hd & E).
        exact (K _ _ d Hd E H).
      * exfalso. cbn [app] in H.
        destruct (count_part_first_digit (b :: deleted) " files deleted")
          as (d & Hd & E).
        exact (K _ _ d Hd E H).
    + exfalso. cbn [app] in H.
      destruct (count_part_first_digit (a :: added) " files added")
        as (d & Hd & E).
      exact (K _ _ d Hd E H).
  - intros (-> & -> & ->). reflexivity.
Qed.

End SummaryFacts.

Section SummaryClaims.
Context {F : Type} {PF : PyFloat F}.
Variable md5_hexdigest : string -> string.
Variable frepr : F -> string.

(** The summary and the count agree: the summary of a change set is the
    text "No changes detected" exactly when its [total_changes] is 0. *)
Theorem summary_agrees_with_total (current_data : folder_data F)
  (previous_data : previous_scan) :
  summary (detect_changes md5_hexdigest frepr current_data previous_data)
  = "No changes detected"
  <-> total_changes (detect_changes md5_hexdigest frepr current_data
                       previous_data) = 0.
Proof.
  unfold detect_changes. rewrite total_changes_zero.
  unfold diff_signatures. cbn [summary]. apply make_summary_no_changes.
Qed.

(** The two ends of a history of scans. Against a previous scan without
    signatures (the first scan) every file of the tree is added, in the
    order of the signature map, and nothing is deleted or modified.
    With an empty tree every known file is deleted and nothing is added
    or modified. *)
Theorem first_and_emptied_scan (current_data : folder_data F)
  (previous_data : previous_scan) :
  (previous_signatures previous_data = [] ->
   map ref_id (added_files (detect_changes md5_hexdigest frepr
                              current_data previous_data))
   = PyDict.keys (extract_file_signatures md5_hexdigest frepr current_data)
   /\ deleted_files (detect_changes md5_hexdigest frepr
                       current_data previous_data) = []
   /\ modified_files (detect_changes md5_hexdigest frepr
                        current_data previous_data) = [])
  /\ (children current_data = [] ->
      added_files (detect_changes md5_hexdigest frepr
                     current_data previous_data) = []
      /\ map ref_id (deleted_files (detect_changes md5_hexdigest frepr
                                      current_data previous_data))
         = PyDict.keys (previous_signatures previous_data)
      /\ modified_files (detect_changes md5_hexdigest frepr
                           current_data previous_data) = []).
Proof.
  unfold detect_changes, diff_signatures.
  cbn [added_files deleted_files modified_files]. split.
  - intros ->. rewrite added_ids. split; [|split].
    + apply forallb_filter_id. apply forallb_forall. reflexivity.
    + reflexivity.
    + apply flat_map_nil. intros [k c] _. reflexivity.
  - intros E. unfold extract_file_signatures, extract_items. rewrite E.
    cbn [fold_left]. rewrite deleted_ids. split; [reflexivity|]. split; [|reflexivity].
    apply forallb_filter_id. apply forallb_forall. reflexivity.
Qed.

End SummaryClaims.

(* ------------------------------------------------------------------ *)
(** ** Fingerprint Extractor: what the signature map holds *)

Section ExtractFacts.
Context {F : Type} {PF : PyFloat F}.
Variable md5_hexdigest : string -> string.
Variable frepr : F -> string.
Import PyDict PyDictFacts.

(** The walk stores the files of [node_files] one after the other. *)
Lemma extract_item_as_fold (item : node F) :
  forall sigs,
    extract_item md5_hexdigest frepr item sigs
    = fold_left (store_file md5_hexdigest frepr) (node_files item) sigs.
Proof.
  induction item as [f | name id link descr fc dc sz lu children ft sd IH]
    using node_induction; intros sigs.
  - reflexivity.
  - cbn [extract_item node_files]. revert sigs.
    induction IH as [|c cs Hc _ IHcs]; intros sigs; [reflexivity|].
    cbn [fold_left flat_map]. rewrite fold_left_app, <- Hc. apply IHcs.
Qed.

Lemma extract_as_fold (data : folder_data F) :
  extract_file_signatures md5_hexdigest frepr data
  = fold_left (store_file md5_hexdigest frepr) (tree_files data) [].
Proof.
  unfold extract_file_signatures, extract_items, tree_files.
  generalize (@nil (string * sig_info)).
  induction (children data) as [|c cs IH]; intros sigs; [reflexivity|].
  cbn [fold_left flat_map]. rewrite fold_left_app, <- extract_item_as_fold.
  apply IH.
Qed.

Lemma find_app {A} (p : A -> bool) (l1 l2 : list A) :
  find p (l1 ++ l2)
  = match find p l1 with Some x => Some x | None => find p l2 end.
Proof.
  induction l1 as [|x l1 IH]; [reflexivity|].
  cbn [app find]. destruct (p x); [reflexivity | exact IH].
Qed.

Lemma get_fold_store (fs : list (file_node F)) (k : string) :
  forall sigs,
    get (fold_left (store_file md5_hexdigest frepr) fs sigs) k
    = match find (fun f => String.eqb (f_id f) k) (rev fs) with
      | Some f => Some (signature_entry md5_hexdigest frepr f)
      | None => get sigs k
      end.
Proof.
  induction fs as [|f fs IH]; intros sigs; [reflexivity|].
  cbn [fold_left rev]. rewrite IH, find_app.
  destruct (find (fun f0 => String.eqb (f_id f0) k) (rev fs)); [reflexivity|].
  cbn [find]. unfold store_file.
  destruct (String.eqb_spec (f_id f) k) as [<-|Hne].
  - apply get_set_same.
  - apply get_set_other. congruence.
Qed.

End ExtractFacts.

Section ExtractClaims.
Context {F : Type} {PF : PyFloat F}.
Variable md5_hexdigest : string -> string.
Variable frepr : F -> string.

(** What the signature map of a tree holds under an id: the name, size in
    bytes and modification time of the last file with that id in the
    order of the walk, at whatever depth it lies, with its fingerprint;
    nothing when no file has the id. Folders have no entries of their
    own. *)
Theorem extract_file_signatures_lookup (data : folder_data F) (file_id : string) :
  PyDict.get (extract_file_signatures md5_hexdigest frepr data) file_id
  = option_map (signature_entry md5_hexdigest frepr)
      (find (fun f => String.eqb (f_id f) file_id) (rev (tree_files data))).
Proof.
  rewrite extract_as_fold, get_fold_store.
  destruct (find _ _); reflexivity.
Qed.

Lemma extract_lookup (data : folder_data F) (file_id : string) :
  PyDict.get (extract_file_signatures md5_hexdigest frepr data) file_id
  = option_map (signature_entry md5_hexdigest frepr)
      (find (fun f => String.eqb (f_id f) file_id) (rev (tree_files data))).
Proof.
  rewrite extract_as_fold, get_fold_store.
  destruct (find _ _); reflexivity.
Qed.

Lemma extract_keys (data : folder_data F) (file_id : string) :
  In file_id (PyDict.keys (extract_file_signatures md5_hexdigest frepr data))
  <-> In file_id (map f_id (tree_files data)).
Proof.
  rewrite <- PyDictFacts.get_In_keys, extract_lookup.
  split.
  - destruct (find _ _) as [f|] eqn:E; [|intros H; exfalso; apply H; reflexivity].
    intros _. apply find_some in E. destruct E as [Hin Heq].
    apply String.eqb_eq in Heq. subst file_id.
    apply in_map. apply in_rev. exact Hin.
  - intros H. apply in_map_iff in H. destruct H as (f & <- & Hin).
    destruct (find _ _) as [g|] eqn:E; [discriminate|].
    apply in_rev in Hin. pose proof (find_none _ _ E f Hin) as X.
    cbn in X. rewrite String.eqb_refl in X. discriminate X.
Qed.

(** When the files of a tree have distinct ids, the signature map has one
    entry for each file, holding that file's name, size and modification
    time. *)
Theorem extract_file_signatures_distinct (data : folder_data F) :
  NoDup (map f_id (tree_files data)) ->
  len (extract_file_signatures md5_hexdigest frepr data) = len (tree_files data)
  /\ forall f,
      In f (tree_files data) ->
      PyDict.get (extract_file_signatures md5_hexdigest frepr data) (f_id f)
      = Some (signature_entry md5_hexdigest frepr f).
Proof.
  intros N. split.
  - unfold len. f_equal.
    rewrite <- (length_map f_id (tree_files data)).
    rewrite <- (length_map fst (extract_file_signatures md5_hexdigest frepr data)).
    apply Permutation_length, NoDup_Permutation.
    + apply extract_file_signatures_wf.
    + exact N.
    + apply extract_keys.
  - intros f Hf. rewrite extract_lookup.
    destruct (find _ _) as [g|] eqn:E.
    + apply find_some in E. destruct E as [Hg Heq]. apply String.eqb_eq in Heq.
      apply in_rev in Hg. cbn [option_map]. do 2 f_equal.
      clear - N Hf Hg Heq. induction (tree_files data) as [|x l IH]; [destruct Hf|].
      cbn [map] in N. inversion N as [|? ? Hnotin N']; subst.
      destruct Hf as [-> | Hf], Hg as [-> | Hg]; auto.
      * exfalso. apply Hnotin. rewrite <- Heq. apply in_map, Hg.
      * exfalso. apply Hnotin. rewrite Heq. apply in_map, Hf.
    + apply in_rev in Hf. pose proof (find_none _ _ E f Hf) as X.
      cbn in X. rewrite String.eqb_refl in X. discriminate X.
Qed.

End ExtractClaims.

Lemma sample_tree_ids_distinct : NoDup (map f_id (tree_files sample_tree)).
Proof. cbn. repeat constructor; cbn; intuition discriminate. Defined.

Lemma extract_file_signatures_distinct_witness :
  NoDup (map f_id (tree_files sample_tree))
  /\ len (extract_file_signatures sample_md5 sample_repr sample_tree) = 3
  /\ len (extract_file_signatures sample_md5 sample_repr sample_tree)
     = len (tree_files sample_tree).
Proof.
  split; [exact sample_tree_ids_distinct|]. split; [reflexivity|].
  apply (extract_file_signatures_distinct sample_md5 sample_repr sample_tree
           sample_tree_ids_distinct).
Defined.

(* ------------------------------------------------------------------ *)
(** ** Tree Scanner: more on the retry loop *)

Section MoreRetryFacts.
Variable maxRetries : Z.
Variable retryDelay : Z.






End MoreRetryFacts.


Section RetryOutcomes.
Variable maxRetries : Z.
Variable retryDelay : Z.



Lemma first_attempt_refused {R} (call : Z -> api_outcome R) (msg : string)
  (st : stats) :
  0 < maxRetries ->
  call (apiCallsCount st + 1) = ApiHttpError 403 msg ->
  make_api_call_with_retry maxRetries retryDelay call st
  = Some (Ok None,
          {| totalFiles := totalFiles st; totalFolders := totalFolders st;
             apiCallsCount := apiCallsCount st + 1;
             errors := errors st ++ [("Access forbidden: " ++ msg)%string];
             slept := slept st |}).
Proof.
  intros Hmax Hcall. unfold make_api_call_with_retry.
  assert (E : Z.to_nat maxRetries = S (Z.to_nat (maxRetries - 1))) by lia.
  rewrite E. cbn [retry_loop]. cbn [apiCallsCount count_api_call].
  rewrite Hcall. reflexivity.
Qed.

(** A refusal is not retried. When the first attempt of a call is
    answered with status 403 and [maxRetries] is positive, the call
    returns [None] after that one attempt, without waiting, and records
    the refusal. *)
Theorem refusal_returns_none {R} (call : Z -> api_outcome R) (msg : string)
  (st : stats) :
  0 < maxRetries ->
  call (apiCallsCount st + 1) = ApiHttpError 403 msg ->
  make_api_call_with_retry maxRetries retryDelay call st
  = Some (Ok None,
          {| totalFiles := totalFiles st; totalFolders := totalFolders st;
             apiCallsCount := apiCallsCount st + 1;
             errors := errors st ++ [("Access forbidden: " ++ msg)%string];
             slept := slept st |}).
Proof.
  intros Hmax Hcall. exact (first_attempt_refused call msg st Hmax Hcall).
Qed.

(** Without a retry budget nothing is asked. When [maxRetries] is zero or
    negative, a call returns [None] without a single attempt and leaves
    the state as it was. *)
Lemma no_budget_no_call {R} (call : Z -> api_outcome R) (st : stats) :
  maxRetries <= 0 ->
  make_api_call_with_retry maxRetries retryDelay call st = Some (Ok None, st).
Proof.
  intros H. unfold make_api_call_with_retry.
  assert (E : Z.to_nat maxRetries = 0%nat) by lia. rewrite E. reflexivity.
Qed.

End RetryOutcomes.


Lemma refusal_returns_none_witness :
  0 < 3
  /\ make_api_call_with_retry 3 2
       (fun n => always_forbidden n "q" None) initial_stats
     = Some (Ok None,
             {| totalFiles := 0; totalFolders := 0; apiCallsCount := 0 + 1;
                errors := [] ++ ["Access forbidden: forbidden"];
                slept := [] |}).
Proof.
  split; [lia|].
  apply (refusal_returns_none 3 2 (fun n => always_forbidden n "q" None)
           "forbidden" initial_stats); [lia | reflexivity].
Defined.

Lemma no_budget_no_call_witness :
  0 <= 0
  /\ make_api_call_with_retry 0 2
       (fun n => always_server_error n "q" None) initial_stats
     = Some (Ok None, initial_stats).
Proof.
  split; [lia|].
  apply (no_budget_no_call 0 2 (fun n => always_server_error n "q" None)
           initial_stats). lia.
Defined.

Section RetryCounters.
Variable maxRetries : Z.
Variable retryDelay : Z.

Lemma sleep_counters (w : Z) (st : stats) :
  totalFiles (snd (sleep w st)) = totalFiles st
  /\ totalFolders (snd (sleep w st)) = totalFolders st.
Proof. unfold sleep. destruct (w <? 0); auto. Qed.

Lemma retry_loop_counters {R} (call : Z -> api_outcome R) (remaining : nat) :
  forall attempt st,
    totalFiles (snd (retry_loop maxRetries retryDelay call remaining attempt st))
    = totalFiles st
    /\ totalFolders (snd (retry_loop maxRetries retryDelay call remaining attempt st))
       = totalFolders st.
Proof.
  induction remaining as [|remaining IH]; intros attempt st; [auto|].
  assert (K : forall w,
             totalFiles
               (snd (match sleep w (count_api_call st) with
                     | (Ok _, st') =>
                         retry_loop maxRetries retryDelay call remaining
                           (attempt + 1) st'
                     | (Raise e, st') => (Raise e, st')
                     end)) = totalFiles st
             /\ totalFolders
                  (snd (match sleep w (count_api_call st) with
                        | (Ok _, st') =>
                            retry_loop maxRetries retryDelay call remaining
                              (attempt + 1) st'
                        | (Raise e, st') => (Raise e, st')
                        end)) = totalFolders st).
  { intros w. pose proof (sleep_counters w (count_api_call st)) as [E1 E2].
    destruct (sleep w (count_api_call st)) as [[u|e] st1]; cbn [snd] in *.
    - destruct (IH (attempt + 1) st1) as [I1 I2]. rewrite I1, I2. auto.
    - auto. }
  cbn [retry_loop].
  destruct (call (apiCallsCount (count_api_call st))) as [r|status msg|msg].
  - auto.
  - destruct (status =? 429); [apply K|].
    destruct (status =? 403); [auto|].
    destruct (attempt =? maxRetries - 1); [auto | apply K].
  - destruct (attempt =? maxRetries - 1); [auto | apply K].
Qed.

Lemma make_api_call_counters {R} (call : Z -> api_outcome R) (st st' : stats)
  (r : pyresult (option R)) :
  make_api_call_with_retry maxRetries retryDelay call st = Some (r, st') ->
  totalFiles st' = totalFiles st /\ totalFolders st' = totalFolders st.
Proof.
  unfold make_api_call_with_retry. intros H. injection H as H.
  pose proof (retry_loop_counters call (Z.to_nat maxRetries) 0 st) as C.
  rewrite H in C. exact C.
Qed.

Lemma get_folder_description_counters
  (remote_get : Z -> string -> api_outcome get_response)
  (folder_id : string) (st st' : stats) (r : pyresult string) :
  get_folder_description maxRetries retryDelay remote_get folder_id st
  = Some (r, st') ->
  totalFiles st' = totalFiles st /\ totalFolders st' = totalFolders st.
Proof.
  unfold get_folder_description.
  destruct (make_api_call_with_retry maxRetries retryDelay
              (fun n => remote_get n folder_id) st) as [[res st1]|] eqn:E;
    [|discriminate].
  apply make_api_call_counters in E.
  destruct res as [[meta|]|e]; intros H; injection H as _ <-; exact E.
Qed.

End RetryCounters.

(* ------------------------------------------------------------------ *)
(** ** Tree Scanner: folders that cannot be listed *)

Section UnlistedFolders.
Context {F : Type} {PF : PyFloat F}.
Variable maxRetries : Z.
Variable retryDelay : Z.
Variable remote_list : Z -> string -> option string -> api_outcome list_response.
Variable remote_get : Z -> string -> api_outcome get_response.

Lemma unlisted_folder (fuel : nat) (folder_id folder_name : string)
  (st st' : stats) :
  make_api_call_with_retry maxRetries retryDelay
    (fun n => remote_list n (children_query folder_id) None) st
  = Some (Ok None, st') ->
  get_folder_tree maxRetries retryDelay remote_list remote_get (S fuel)
    folder_id folder_name st
  = Some (Ok empty_folder_data, st').
Proof.
  intros H. cbn [get_folder_tree scan_pages]. unfold bind at 1. unfold bind at 1.
  fold (children_query folder_id). rewrite H. cbn [ret].
  unfold empty_folder_data. cbn. rewrite fround_zero. reflexivity.
Qed.

(** A folder whose listing is refused is scanned as an empty folder:
    when [maxRetries] is positive and the first listing attempt is
    answered with status 403, [get_folder_tree] returns the tree of an
    empty folder after this one attempt and records the refusal instead
    of raising. *)
Theorem refused_folder_is_empty (fuel : nat) (folder_id folder_name msg : string)
  (st : stats) :
  0 < maxRetries ->
  remote_list (apiCallsCount st + 1) (children_query folder_id) None
  = ApiHttpError 403 msg ->
  get_folder_tree maxRetries retryDelay remote_list remote_get (S fuel)
    folder_id folder_name st
  = Some (Ok empty_folder_data,
          {| totalFiles := totalFiles st; totalFolders := totalFolders st;
             apiCallsCount := apiCallsCount st + 1;
             errors := errors st ++ [("Access forbidden: " ++ msg)%string];
             slept := slept st |}).
Proof.
  intros Hmax Hcall. apply unlisted_folder.
  apply (first_attempt_refused maxRetries retryDelay
           (fun n => remote_list n (children_query folder_id) None) msg st Hmax Hcall).
Qed.

(** Without a retry budget every scan is empty: when [maxRetries] is zero
    or negative, [get_folder_tree] returns the tree of an empty folder
    for every folder, asks the service nothing and leaves the counters as
    they were. *)
Theorem no_budget_scan_is_empty (fuel : nat) (folder_id folder_name : string)
  (st : stats) :
  maxRetries <= 0 ->
  get_folder_tree maxRetries retryDelay remote_list remote_get (S fuel)
    folder_id folder_name st
  = Some (Ok empty_folder_data, st).
Proof.
  intros H. apply unlisted_folder. apply no_budget_no_call, H.
Qed.

(** [get_folder_description] never fails: whatever the service does, it
    returns a string, leaves the file and folder counters alone and makes
    at most [maxRetries] attempts; the string is empty unless an attempt
    returned a response with that description. *)
Theorem get_folder_description_never_raises (folder_id : string) (st : stats) :
  exists descr st',
    get_folder_description maxRetries retryDelay remote_get folder_id st
    = Some (Ok descr, st')
    /\ totalFiles st' = totalFiles st /\ totalFolders st' = totalFolders st
    /\ apiCallsCount st <= apiCallsCount st'
       <= apiCallsCount st + Z.max 0 maxRetries
    /\ (descr <> "" ->
        exists n meta,
          remote_get n folder_id = ApiReturn (Some meta)
          /\ description meta = Some descr).
Proof.
  assert (C : forall r st',
             get_folder_description maxRetries retryDelay remote_get folder_id st
             = Some (r, st') ->
             totalFiles st' = totalFiles st /\ totalFolders st' = totalFolders st)
    by (intros r st'; apply get_folder_description_counters).
  revert C.
  unfold get_folder_description, make_api_call_with_retry.
  pose proof (retry_loop_attempts maxRetries retryDelay
                (fun n => remote_get n folder_id) (Z.to_nat maxRetries) 0 st) as B.
  assert (P : forall remaining attempt s meta,
             fst (retry_loop maxRetries retryDelay
                    (fun n => remote_get n folder_id) remaining attempt s)
             = Ok (Some meta) ->
             exists n, remote_get n folder_id = ApiReturn (Some meta)).
  { induction remaining as [|remaining IH]; intros attempt s meta H;
      [discriminate H|].
    cbn [retry_loop] in H.
    destruct (remote_get (apiCallsCount (count_api_call s)) folder_id)
      as [r|status m|m] eqn:E.
    - cbn [fst] in H. injection H as ->. eauto.
    - destruct (status =? 429).
      + destruct (sleep _ _) as [[u|e] s1]; [eapply IH; exact H | discriminate H].
      + destruct (status =? 403); [discriminate H|].
        destruct (attempt =? maxRetries - 1); [discriminate H|].
        destruct (sleep _ _) as [[u|e] s1]; [eapply IH; exact H | discriminate H].
    - destruct (attempt =? maxRetries - 1); [discriminate H|].
      destruct (sleep _ _) as [[u|e] s1]; [eapply IH; exact H | discriminate H]. }
  specialize (P (Z.to_nat maxRetries) 0 st).
  destruct (retry_loop maxRetries retryDelay (fun n => remote_get n folder_id)
              (Z.to_nat maxRetries) 0 st) as [[[meta|]|e] st'];
    cbn [snd fst] in *; intros C.
  - eexists. exists st'. split; [reflexivity|].
    destruct (C _ _ eq_refl) as [C1 C2].
    split; [exact C1|]. split; [exact C2|]. split; [lia|].
    intros Hne. destruct (P meta eq_refl) as (n & Hn).
    exists n, meta. split; [exact Hn|].
    destruct (description meta); [reflexivity | contradiction].
  - exists "", st'. split; [reflexivity|].
    destruct (C _ _ eq_refl) as [C1 C2].
    split; [exact C1|]. split; [exact C2|]. split; [lia|].
    intros Hne. contradiction.
  - exists "", st'. split; [reflexivity|].
    destruct (C _ _ eq_refl) as [C1 C2].
    split; [exact C1|]. split; [exact C2|]. split; [lia|].
    intros Hne. contradiction.
Qed.

End UnlistedFolders.

Lemma refused_folder_is_empty_witness :
  0 < 3
  /\ get_folder_tree 3 2 always_forbidden no_description 1 "root" "Unknown"
       initial_stats
     = Some (Ok (empty_folder_data (F := Q)),
             {| totalFiles := 0; totalFolders := 0; apiCallsCount := 0 + 1;
                errors := [] ++ ["Access forbidden: forbidden"];
                slept := [] |}).
Proof.
  split; [lia|].
  apply (refused_folder_is_empty 3 2 always_forbidden no_description 0
           "root" "Unknown" "forbidden" initial_stats); [lia | reflexivity].
Defined.

Lemma no_budget_scan_is_empty_witness :
  0 <= 0
  /\ get_folder_tree 0 2 small_drive no_description 1 "root" "Unknown"
       initial_stats
     = Some (Ok (empty_folder_data (F := Q)), initial_stats).
Proof.
  split; [lia|].
  apply (no_budget_scan_is_empty 0 2 small_drive no_description 0
           "root" "Unknown" initial_stats). lia.
Defined.

(* ------------------------------------------------------------------ *)
(** ** Tree Scanner: the counters of a scan *)

Section CounterFacts.
Context {F : Type} {PF : PyFloat F}.
Import PyDict PyDictFacts.

Lemma dict_total_set (d : dict Z) (k : string) (n : Z) :
  dict_total (set d k (get_default d k 0 + n)) = dict_total d + n.
Proof.
  unfold get_default.
  induction d as [|[k' v'] d IH]; cbn [set get dict_total fold_right snd].
  - lia.
  - destruct (String.eqb_spec k' k) as [->|Hne];
      cbn [dict_total fold_right snd].
    + lia.
    + fold (dict_total (set d k (match get d k with Some v => v | None => 0 end + n))).
      fold (dict_total d). rewrite IH. lia.
Qed.

Lemma dict_total_merge (from : dict Z) :
  forall into, dict_total (merge_fileTypes into from)
               = dict_total into + dict_total from.
Proof.
  unfold merge_fileTypes.
  induction from as [|[k v] from IH]; intros into; cbn [fold_left].
  - cbn. lia.
  - rewrite IH, dict_total_set. cbn [dict_total fold_right snd].
    fold (dict_total from). lia.
Qed.

Lemma bucket_total_add (sd : size_distribution) (b : bucket) (n : Z) :
  bucket_total (bucket_add sd b n) = bucket_total sd + n.
Proof. destruct b; unfold bucket_total; cbn; lia. Qed.

Lemma bucket_total_merge (a b : size_distribution) :
  bucket_total (merge_sizeDistribution a b) = bucket_total a + bucket_total b.
Proof. unfold bucket_total. cbn. lia. Qed.

Lemma node_files_folder_child (name id descr : string) (sub : folder_data F) :
  node_files (folder_child name id descr sub) = tree_files sub.
Proof. reflexivity. Qed.

Lemma node_folders_folder_child (name id descr : string) (sub : folder_data F) :
  node_folders (folder_child name id descr sub) = sub :: tree_folders sub.
Proof. destruct sub. reflexivity. Qed.

End CounterFacts.


Section ScannerCounts.
Context {F : Type} {PF : PyFloat F}.
Variable maxRetries : Z.
Variable retryDelay : Z.
Variable remote_list : Z -> string -> option string -> api_outcome list_response.
Variable remote_get : Z -> string -> api_outcome get_response.

Lemma len_app {A} (l1 l2 : list A) : len (l1 ++ l2) = len l1 + len l2.
Proof. unfold len. rewrite length_app. lia. Qed.

Lemma scan_folder_counts (rec : string -> string -> scan (folder_data F))
  (item : remote_item) (acc acc' : folder_stats F * list (node F))
  (st0 st st' : stats) :
  rec_counts rec -> acc_counts st0 acc st ->
  scan_folder maxRetries retryDelay remote_get rec item acc st
  = Some (Ok acc', st') ->
  acc_counts st0 acc' st'.
Proof.
  intros Hrec Hacc H. destruct acc as [fs ch].
  unfold scan_folder in H. scan_inv H.
  apply ret_ok in H. destruct H as [<- <-].
  apply modify_ok in Hstep. subst st1.
  rename a0 into subtree. rename a1 into descr.
  destruct (Hrec _ _ _ _ _ Hstep0) as (T1 & T2 & T3).
  destruct (T3 subtree (or_introl eq_refl)) as (S1 & S2 & S3 & S4).
  destruct (get_folder_description_counters _ _ _ _ _ _ _ Hstep1) as [D1 D2].
  destruct Hacc as (A1 & A2 & A3 & A4 & A5 & A6 & A7). cbn [fst snd] in *.
  unfold acc_counts.
  cbn [fst snd fs_fileCount fs_folderCount fs_fileTypes fs_sizeDistribution].
  rewrite !flat_map_app, !len_app. cbn [flat_map]. rewrite !app_nil_r.
  rewrite node_files_folder_child, node_folders_folder_child.
  cbn [totalFiles totalFolders count_folder] in T1, T2.
  split; [|split; [|split; [|split; [|split; [|split]]]]].
  - lia.
  - lia.
  - rewrite dict_total_merge. lia.
  - rewrite bucket_total_merge. lia.
  - lia.
  - change (len (subtree :: tree_folders subtree))
      with (Z.of_nat (S (List.length (tree_folders subtree)))).
    unfold len in S4. lia.
  - intros d Hd.
    destruct (folder_in_app _ _ _ Hd) as [Hl | Hx]; [apply A7, Hl|].
    apply folder_in_folder_child in Hx. apply T3, Hx.
Qed.

Lemma scan_file_counts (item : remote_item)
  (acc acc' : folder_stats F * list (node F)) (st0 st st' : stats) :
  acc_counts st0 acc st ->
  scan_file item acc st = Some (Ok acc', st') ->
  acc_counts st0 acc' st'.
Proof.
  intros Hacc H. destruct acc as [fs ch].
  unfold scan_file in H. scan_inv H.
  apply ret_ok in H. destruct H as [<- <-].
  apply modify_ok in Hstep. subst st1.
  apply lift_ok in Hstep0, Hstep1, Hstep2.
  destruct Hstep0 as [_ <-], Hstep1 as [_ <-], Hstep2 as [_ <-].
  destruct Hacc as (A1 & A2 & A3 & A4 & A5 & A6 & A7). cbn [fst snd] in *.
  unfold acc_counts.
  cbn [fst snd fs_fileCount fs_folderCount fs_fileTypes fs_sizeDistribution
         totalFiles totalFolders count_file].
  rewrite !flat_map_app, !len_app. cbn [flat_map node_files node_folders app].
  split; [|split; [|split; [|split; [|split; [|split]]]]].
  - lia.
  - lia.
  - rewrite dict_total_set. lia.
  - rewrite bucket_total_add. lia.
  - unfold len in *. cbn [List.length]. lia.
  - unfold len in *. cbn [List.length]. lia.
  - intros d Hd.
    destruct (folder_in_app _ _ _ Hd) as [Hl | Hx]; [apply A7, Hl|].
    exfalso. exact (folder_in_file _ _ Hx).
Qed.

Lemma scan_items_counts (rec : string -> string -> scan (folder_data F))
  (items : list remote_item) (st0 : stats) :
  rec_counts rec ->
  forall acc st acc' st',
    acc_counts st0 acc st ->
    scan_items maxRetries retryDelay remote_get rec items acc st
    = Some (Ok acc', st') ->
    acc_counts st0 acc' st'.
Proof.
  intros Hrec. induction items as [|item items IH]; intros acc st acc' st' Hacc H.
  - apply ret_ok in H. destruct H as [<- <-]. exact Hacc.
  - cbn [scan_items] in H. scan_inv H.
    refine (IH a st1 _ _ _ H).
    destruct (String.eqb (r_mimeType item) FOLDER_MIME).
    + eapply scan_folder_counts; eassumption.
    + eapply scan_file_counts; eassumption.
Qed.

Lemma scan_pages_counts (rec : string -> string -> scan (folder_data F))
  (query : string) (fuel : nat) (st0 : stats) :
  rec_counts rec ->
  forall page_token acc st acc' st',
    acc_counts st0 acc st ->
    scan_pages maxRetries retryDelay remote_list remote_get rec fuel query
      page_token acc st
    = Some (Ok acc', st') ->
    acc_counts st0 acc' st'.
Proof.
  intros Hrec. induction fuel as [|fuel IH];
    intros page_token acc st acc' st' Hacc H; [discriminate H|].
  cbn [scan_pages] in H. scan_inv H.
  destruct (make_api_call_counters _ _ _ _ _ _ Hstep) as [C1 C2].
  assert (Hacc1 : acc_counts st0 acc st1).
  { destruct Hacc as (A1 & A2 & A). unfold acc_counts.
    rewrite C1, C2. auto. }
  destruct a as [response|].
  - scan_inv H.
    pose proof (scan_items_counts rec _ st0 Hrec _ _ _ _ Hacc1 Hstep0) as Hacc2.
    destruct (str_truthy (nextPageToken response)).
    + eapply IH; eassumption.
    + apply ret_ok in H. destruct H as [<- <-]. exact Hacc2.
  - apply ret_ok in H. destruct H as [<- <-]. exact Hacc1.
Qed.

Lemma get_folder_tree_counts (fuel : nat) :
  rec_counts (get_folder_tree maxRetries retryDelay remote_list remote_get fuel).
Proof.
  induction fuel as [|fuel IH]; intros id name st tree st' H; [discriminate H|].
  cbn [get_folder_tree] in H. scan_inv H.
  destruct a as [fs ch]. apply ret_ok in H. destruct H as [<- <-].
  assert (I : acc_counts st (initial_folder_stats (F := F), []) st).
  { unfold acc_counts. cbn.
    split; [lia|]. split; [lia|]. split; [reflexivity|]. split; [reflexivity|].
    split; [reflexivity|]. split; [reflexivity|]. intros d Hd. inversion Hd. }
  pose proof (scan_pages_counts _ _ _ st IH _ _ _ _ _ I Hstep) as Hacc.
  destruct Hacc as (A1 & A2 & A3 & A4 & A5 & A6 & A7). cbn [fst snd] in *.
  split; [exact A1|]. split; [exact A2|].
  intros d [-> | Hd]; [|apply A7, Hd].
  unfold folder_counts, tree_files, tree_folders.
  cbn [fileTypes sizeDistribution fileCount folderCount children]. auto.
Qed.

(** The counters of a scan agree with one another and with the tree. In
    every folder of a returned tree, [fileCount] is the number of files
    at any depth below it and [folderCount] the number of folders below
    it; and the scan raises [totalFiles] and [totalFolders] of the
    scanner's statistics by the root's [fileCount] and [folderCount]. *)
Theorem scan_counts_agree (fuel : nat) (id name : string) (st st' : stats)
  (tree : folder_data F) :
  get_folder_tree maxRetries retryDelay remote_list remote_get fuel id name st
  = Some (Ok tree, st') ->
  totalFiles st' = totalFiles st + fileCount tree
  /\ totalFolders st' = totalFolders st + folderCount tree
  /\ forall d,
      folder_of_tree d tree ->
      fileCount d = len (tree_files d) /\ folderCount d = len (tree_folders d).
Proof.
  intros H. destruct (get_folder_tree_counts fuel _ _ _ _ _ H) as (T1 & T2 & T3).
  split; [exact T1|]. split; [exact T2|].
  intros d Hd. destruct (T3 d Hd) as (_ & _ & C1 & C2). auto.
Qed.

(** Every file is counted once in each histogram: in every folder of a
    returned tree the counts of the categories add up to [fileCount], and
    so do the counts of the four size buckets. *)
Theorem histograms_add_up (fuel : nat) (id name : string) (st st' : stats)
  (tree d : folder_data F) :
  get_folder_tree maxRetries retryDelay remote_list remote_get fuel id name st
  = Some (Ok tree, st') ->
  folder_of_tree d tree ->
  dict_total (fileTypes d) = fileCount d
  /\ small (sizeDistribution d) + medium (sizeDistribution d)
     + large (sizeDistribution d) + huge (sizeDistribution d) = fileCount d.
Proof.
  intros H Hd. destruct (get_folder_tree_counts fuel _ _ _ _ _ H) as (_ & _ & T3).
  destruct (T3 d Hd) as (C1 & C2 & _). auto.
Qed.

End ScannerCounts.

Lemma scan_counts_agree_witness :
  exists tree st',
    get_folder_tree 3 2 small_drive no_description 2 "root" "Unknown"
      initial_stats = Some (Ok tree, st')
    /\ fileCount tree = 3 /\ folderCount tree = 1
    /\ totalFiles st' = totalFiles initial_stats + fileCount tree
    /\ totalFolders st' = totalFolders initial_stats + folderCount tree.
Proof.
  edestruct (scan_counts_agree 3 2 small_drive no_description 2 "root" "Unknown"
               initial_stats) as (T1 & T2 & _).
  { vm_compute. reflexivity. }
  eexists. eexists.
  split; [vm_compute; reflexivity|].
  split; [reflexivity|]. split; [reflexivity|].
  split; [exact T1 | exact T2].
Defined.

Lemma histograms_add_up_witness :
  exists tree st' d,
    get_folder_tree 3 2 small_drive no_description 2 "root" "Unknown"
      initial_stats = Some (Ok tree, st')
    /\ folder_of_tree d tree
    /\ fileTypes d = [("documents", 2); ("images", 1)]
    /\ dict_total (fileTypes d) = fileCount d
    /\ small (sizeDistribution d) + medium (sizeDistribution d)
       + large (sizeDistribution d) + huge (sizeDistribution d) = fileCount d.
Proof.
  eexists. eexists. eexists.
  split; [vm_compute; reflexivity|].
  split; [left; reflexivity|].
  split; [reflexivity|].
  eapply (histograms_add_up 3 2 small_drive no_description 2 "root" "Unknown"
            initial_stats).
  - vm_compute. reflexivity.
  - left. reflexivity.
Defined.

Lemma summary_agrees_with_total_witness :
  total_changes (detect_changes sample_md5 sample_repr sample_tree
                   sample_same_previous) = 0
  /\ summary (detect_changes sample_md5 sample_repr sample_tree
                sample_same_previous) = "No changes detected"
  /\ summary (detect_changes sample_md5 sample_repr sample_tree sample_previous)
     = "1 files added, 1 files deleted, 1 files modified".
Proof.
  split; [reflexivity|]. split; [|reflexivity].
  apply (proj2 (summary_agrees_with_total sample_md5 sample_repr sample_tree
                  sample_same_previous)).
  reflexivity.
Defined.

Lemma first_and_emptied_scan_witness :
  previous_signatures sample_first_previous = []
  /\ map ref_id (added_files (detect_changes sample_md5 sample_repr sample_tree
                                sample_first_previous))
     = ["A"; "D"; "C"]
  /\ map ref_id (added_files (detect_changes sample_md5 sample_repr sample_tree
                                sample_first_previous))
     = PyDict.keys (extract_file_signatures sample_md5 sample_repr sample_tree)
  /\ children sample_empty_tree = []
  /\ map ref_id (deleted_files (detect_changes sample_md5 sample_repr
                                  sample_empty_tree sample_previous))
     = PyDict.keys (previous_signatures sample_previous).
Proof.
  split; [reflexivity|]. split; [reflexivity|]. split.
  - apply (proj1 (first_and_emptied_scan sample_md5 sample_repr sample_tree
                    sample_first_previous)).
    reflexivity.
  - split; [reflexivity|].
    apply (proj2 (first_and_emptied_scan sample_md5 sample_repr
                    sample_empty_tree sample_previous)).
    reflexivity.
Defined.

(* ------------------------------------------------------------------ *)
(** ** Tree Scanner: a listing that stays rate-limited *)

Section RateLimitExhaustion.
Context {F : Type} {PF : PyFloat F}.
Variable maxRetries : Z.
Variable retryDelay : Z.
Variable remote_list : Z -> string -> option string -> api_outcome list_response.
Variable remote_get : Z -> string -> api_outcome get_response.



End RateLimitExhaustion.


(* ------------------------------------------------------------------ *)
(** ** Tree Scanner: the children of a folder *)

Section ChildrenShape.
Context {F : Type} {PF : PyFloat F}.
Variable maxRetries : Z.
Variable retryDelay : Z.
Variable remote_list : Z -> string -> option string -> api_outcome list_response.
Variable remote_get : Z -> string -> api_outcome get_response.

Lemma same_entries_app (n1 n2 : list (node F)) (i1 i2 : list remote_item) :
  same_entries n1 i1 -> same_entries n2 i2 -> same_entries (n1 ++ n2) (i1 ++ i2).
Proof.
  unfold same_entries. intros (A1 & A2 & A3) (B1 & B2 & B3).
  rewrite !map_app, A1, A2, A3, B1, B2, B3. auto.
Qed.

Lemma scan_items_shape (rec : string -> string -> scan (folder_data F))
  (items : list remote_item) :
  forall acc st acc' st',
    scan_items maxRetries retryDelay remote_get rec items acc st
    = Some (Ok acc', st') ->
    exists added, snd acc' = snd acc ++ added /\ same_entries added items.
Proof.
  induction items as [|item items IH]; intros acc st acc' st' H.
  - apply ret_ok in H. destruct H as [<- _]. exists [].
    split; [symmetry; apply app_nil_r | repeat split].
  - cbn [scan_items] in H. scan_inv H.
    destruct (IH _ _ _ _ H) as (added & E & S).
    assert (X : exists x, snd a = snd acc ++ [x] /\ same_entries [x] [item]).
    { destruct acc as [fs ch].
      destruct (String.eqb (r_mimeType item) FOLDER_MIME) eqn:M.
      - unfold scan_folder in Hstep. scan_inv Hstep.
        apply ret_ok in Hstep. destruct Hstep as [<- _].
        eexists. split; [reflexivity|].
        unfold same_entries, item_is_folder. cbn. rewrite M. auto.
      - unfold scan_file in Hstep. scan_inv Hstep.
        apply ret_ok in Hstep. destruct Hstep as [<- _].
        eexists. split; [reflexivity|].
        unfold same_entries, item_is_folder. cbn. rewrite M. auto. }
    destruct X as (x & Ex & Sx).
    exists (x :: added). split.
    + rewrite E, Ex, <- app_assoc. reflexivity.
    + exact (same_entries_app [x] added [item] items Sx S).
Qed.

(** A request that is answered at once costs one call. *)
Lemma first_attempt_returns {R} (call : Z -> api_outcome R) (r : option R)
  (st : stats) :
  0 < maxRetries ->
  call (apiCallsCount st + 1) = ApiReturn r ->
  make_api_call_with_retry maxRetries retryDelay call st
  = Some (Ok r, count_api_call st).
Proof.
  intros Hmax Hcall. unfold make_api_call_with_retry.
  assert (X : Z.to_nat maxRetries = S (Z.to_nat (maxRetries - 1))) by lia.
  rewrite X. cbn [retry_loop]. cbn [apiCallsCount count_api_call].
  rewrite Hcall. reflexivity.
Qed.

Lemma scan_pages_shape (rec : string -> string -> scan (folder_data F))
  (query : string) (page_token : option string) (pages : list list_response) :
  0 < maxRetries ->
  page_chain remote_list query page_token pages ->
  forall fuel acc st acc' st',
    scan_pages maxRetries retryDelay remote_list remote_get rec fuel query
      page_token acc st = Some (Ok acc', st') ->
    exists added,
      snd acc' = snd acc ++ added
      /\ same_entries added (flat_map response_files pages).
Proof.
  intros Hmax Hchain.
  induction Hchain as [tok r Hcall Htok | tok r rs Hcall Htok Hrest IH];
    intros [|fuel] acc st acc' st' H; try discriminate H.
  - cbn [scan_pages] in H. scan_inv H.
    rewrite (first_attempt_returns (fun n => remote_list n query tok) (Some r) st
               Hmax (Hcall _)) in Hstep.
    injection Hstep as <- <-. scan_inv H. rewrite Htok in H.
    apply ret_ok in H. destruct H as [<- _].
    cbn [flat_map]. rewrite app_nil_r.
    exact (scan_items_shape _ _ _ _ _ _ Hstep).
  - cbn [scan_pages] in H. scan_inv H.
    rewrite (first_attempt_returns (fun n => remote_list n query tok) (Some r) st
               Hmax (Hcall _)) in Hstep.
    injection Hstep as <- <-. scan_inv H. rewrite Htok in H.
    destruct (scan_items_shape _ _ _ _ _ _ Hstep) as (added1 & E1 & S1).
    destruct (IH _ _ _ _ _ H) as (added2 & E2 & S2).
    exists (added1 ++ added2). split.
    + rewrite E2, E1, app_assoc. reflexivity.
    + cbn [flat_map]. apply same_entries_app; assumption.
Qed.

(** The children of a folder are its listed entries. When the service
    answers the listing of a folder page by page, each page but the last
    naming the next, and the scan of the folder returns, the children of
    the tree carry the ids and names of the entries of all pages, in the
    order of the pages and of the entries in them; a child is a folder
    exactly when the MIME type of its entry is the folder type. No entry
    is dropped, repeated or moved. *)
Theorem children_follow_listing (fuel : nat) (folder_id folder_name : string)
  (pages : list list_response) (st st' : stats) (tree : folder_data F) :
  0 < maxRetries ->
  page_chain remote_list (children_query folder_id) None pages ->
  get_folder_tree maxRetries retryDelay remote_list remote_get fuel
    folder_id folder_name st = Some (Ok tree, st') ->
  same_entries (children tree) (flat_map response_files pages).
Proof.
  intros Hmax Hchain H. destruct fuel as [|fuel]; [discriminate H|].
  cbn [get_folder_tree] in H. fold (children_query folder_id) in H.
  scan_inv H. destruct a as [fs ch]. apply ret_ok in H. destruct H as [<- _].
  cbn [children].
  destruct (scan_pages_shape _ _ _ _ Hmax Hchain _ _ _ _ _ Hstep)
    as (added & Ea & Sa).
  cbn [snd app] in Ea. subst ch. exact Sa.
Qed.

End ChildrenShape.

Lemma children_follow_listing_witness :
  exists tree st',
    0 < 3
    /\ page_chain paged_drive (children_query "root") None
         [paged_drive_first; paged_drive_last]
    /\ get_folder_tree 3 2 paged_drive no_description 2 "root" "Unknown"
         initial_stats = Some (Ok tree, st')
    /\ map node_id (children tree) = ["A"; "S"; "B"]
    /\ map node_is_folder (children tree) = [false; true; false]
    /\ same_entries (children tree)
         (flat_map response_files [paged_drive_first; paged_drive_last]).
Proof.
  assert (C : page_chain paged_drive (children_query "root") None
                [paged_drive_first; paged_drive_last]).
  { apply chain_more; [reflexivity | reflexivity|].
    apply chain_last; reflexivity. }
  eexists. eexists. split; [lia|]. split; [exact C|].
  split; [vm_compute; reflexivity|]. split; [reflexivity|].
  split; [reflexivity|].
  eapply (children_follow_listing 3 2 paged_drive no_description 2 "root"
            "Unknown" [paged_drive_first; paged_drive_last] initial_stats).
  - lia.
  - exact C.
  - vm_compute. reflexivity.
Defined.

(* ------------------------------------------------------------------ *)
(** ** File categories *)

Section CategorizeFacts.

Lemma str_in_In (s : string) (l : list string) : str_in s l = true <-> In s l.
Proof.
  unfold str_in. rewrite existsb_exists. split.
  - intros (x & Hx & E). apply String.eqb_eq in E. subst x. exact Hx.
  - intros H. exists s. split; [exact H | apply String.eqb_refl].
Qed.

(** Every listed type is classified under the category that lists it:
    no type is listed twice and none is empty. *)
Lemma FILE_CATEGORIES_classified :
  forallb (fun cm => forallb (fun m => String.eqb (categorize_file m) (fst cm))
                       (snd cm))
    FILE_CATEGORIES = true.
Proof. vm_compute. reflexivity. Qed.

Lemma FILE_CATEGORIES_entry (category : string) (mime_types : list string) :
  In (category, mime_types) FILE_CATEGORIES <->
  PyDict.get FILE_CATEGORIES category = Some mime_types.
Proof.
  split.
  - intros H. cbn in H.
    repeat (destruct H as [H|H]; [injection H as <- <-; reflexivity|]).
    contradiction.
  - intros H. unfold FILE_CATEGORIES in *. cbn [PyDict.get] in H.
    repeat match type of H with
           | (if String.eqb ?k category then _ else _) = _ =>
               destruct (String.eqb_spec k category) as [<-|_];
               [injection H as <-; cbn; tauto|]
           end.
    discriminate H.
Qed.

Lemma categorize_file_found (mime_type : string) :
  categorize_file mime_type = "others"
  \/ exists mime_types,
       In (categorize_file mime_type, mime_types) FILE_CATEGORIES
       /\ In mime_type mime_types.
Proof.
  unfold categorize_file.
  destruct (String.eqb mime_type ""); [left; reflexivity|].
  destruct (find _ FILE_CATEGORIES) as [[category mime_types]|] eqn:E;
    [|left; reflexivity].
  apply find_some in E. destruct E as [E1 E2]. cbn [snd] in E2.
  right. exists mime_types. split; [exact E1 | apply str_in_In, E2].
Qed.

(** The category of a file is read off the table: a type is put in a
    category of [FILE_CATEGORIES] exactly when the table lists it under
    that category, and in ["others"] exactly when no category lists it
    (the empty type among them). So the result is always one of the
    seven categories or ["others"], and no type listed in the table is
    shadowed by an earlier category. *)
Theorem categorize_file_spec (mime_type : string) :
  (forall category mime_types,
      PyDict.get FILE_CATEGORIES category = Some mime_types ->
      (categorize_file mime_type = category <-> In mime_type mime_types))
  /\ (categorize_file mime_type = "others" <->
      forall category mime_types,
        PyDict.get FILE_CATEGORIES category = Some mime_types ->
        ~ In mime_type mime_types).
Proof.
  assert (B : forall category mime_types,
             PyDict.get FILE_CATEGORIES category = Some mime_types ->
             In mime_type mime_types -> categorize_file mime_type = category).
  { intros category mime_types G H.
    apply FILE_CATEGORIES_entry in G.
    pose proof FILE_CATEGORIES_classified as C.
    rewrite forallb_forall in C. specialize (C _ G). cbn [fst snd] in C.
    rewrite forallb_forall in C. apply String.eqb_eq, C, H. }
  split.
  - intros category mime_types G. split; [|apply B, G].
    intros E. destruct (categorize_file_found mime_type) as [O | (l & H1 & H2)].
    + rewrite O in E. subst category. discriminate G.
    + rewrite E in H1. apply FILE_CATEGORIES_entry in H1.
      rewrite G in H1. injection H1 as ->. exact H2.
  - split.
    + intros O category mime_types G H.
      rewrite (B _ _ G H) in O. subst category. discriminate G.
    + intros N. destruct (categorize_file_found mime_type) as [O | (l & H1 & H2)];
        [exact O|].
      apply FILE_CATEGORIES_entry in H1. exfalso. exact (N _ _ H1 H2).
Qed.

End CategorizeFacts.

Lemma categorize_file_spec_witness :
  PyDict.get FILE_CATEGORIES "images"
  = Some ["image/jpeg"; "image/png"; "image/gif"; "image/bmp"; "image/svg+xml"]
  /\ (categorize_file "image/webp" = "images" <->
      In "image/webp"
        ["image/jpeg"; "image/png"; "image/gif"; "image/bmp"; "image/svg+xml"])
  /\ categorize_file "image/webp" = "others".
Proof.
  split; [reflexivity|]. split; [|reflexivity].
  apply (proj1 (categorize_file_spec "image/webp") "images"). reflexivity.
Defined.

(* ------------------------------------------------------------------ *)
(** ** Timestamps *)

Section DatetimeFacts.
Import PyStr PyStrMore.

Lemma append_assoc (a b c : string) : ((a ++ b) ++ c = a ++ (b ++ c))%string.
Proof. induction a as [|x a IH]; cbn; [reflexivity | rewrite IH; reflexivity]. Qed.

Lemma all_chars_app (p : ascii -> bool) (a b : string) :
  all_chars p (a ++ b)%string = all_chars p a && all_chars p b.
Proof.
  induction a as [|x a IH]; cbn [all_chars String.append]; [reflexivity|].
  rewrite IH. apply andb_assoc.
Qed.

Lemma all_chars_weaken (p q : ascii -> bool) (s : string) :
  (forall c, p c = true -> q c = true) ->
  all_chars p s = true -> all_chars q s = true.
Proof.
  intros Hpq. induction s as [|x s IH]; cbn [all_chars]; [reflexivity|].
  intros H. apply andb_prop in H. destruct H as [Hx Hs].
  rewrite (Hpq _ Hx), (IH Hs). reflexivity.
Qed.

Lemma prefix_first_differs (c x : ascii) (old s : string) :
  Ascii.eqb x c = false -> String.prefix (String c old) (String x s) = false.
Proof.
  intros H. cbn [String.prefix]. destruct (ascii_dec c x) as [E|_]; [|reflexivity].
  subst x. rewrite Ascii.eqb_refl in H. discriminate H.
Qed.

Lemma prefix_app (old s : string) : String.prefix old (old ++ s)%string = true.
Proof.
  revert s. induction old as [|c old IH]; intros s; [destruct s; reflexivity|].
  cbn [String.append String.prefix]. destruct (ascii_dec c c); [apply IH | congruence].
Qed.

(** Before the first character of [old] occurs, nothing is replaced. *)
Lemma replace_from_app_absent (c : ascii) (old new a b : string) :
  all_chars (fun x => negb (Ascii.eqb x c)) a = true ->
  replace_from (String c old) new (a ++ b)%string 0
  = (a ++ replace_from (String c old) new b 0)%string.
Proof.
  induction a as [|x a IH]; cbn [all_chars String.append]; [reflexivity|].
  intros H. apply andb_prop in H. destruct H as [Hx Ha].
  apply negb_true_iff in Hx.
  cbn [replace_from]. rewrite (prefix_first_differs c x old _ Hx), (IH Ha).
  reflexivity.
Qed.

Lemma replace_from_absent (c : ascii) (old new a : string) :
  all_chars (fun x => negb (Ascii.eqb x c)) a = true ->
  replace_from (String c old) new a 0 = a.
Proof.
  intros H. pose proof (replace_from_app_absent c old new a "" H) as E.
  assert (N : forall s : string, (s ++ "")%string = s).
  { induction s as [|x s IH]; cbn; [reflexivity | rewrite IH; reflexivity]. }
  rewrite N in E. rewrite E. cbn [replace_from]. apply N.
Qed.

Lemma replace_from_skip (old new a s : string) :
  replace_from old new (a ++ s)%string (String.length a)
  = replace_from old new s 0.
Proof.
  induction a as [|x a IH]; [reflexivity|].
  cbn [String.append String.length replace_from]. exact IH.
Qed.

(** An occurrence at the front is replaced and the scan goes on behind
    it. *)
Lemma replace_from_hit (c : ascii) (old new s : string) :
  replace_from (String c old) new (String c old ++ s)%string 0
  = (new ++ replace_from (String c old) new s 0)%string.
Proof.
  pose proof (prefix_app (String c old) s) as P.
  cbn [String.append] in *. cbn [replace_from]. rewrite P.
  cbn [String.length Nat.sub]. rewrite Nat.sub_0_r, replace_from_skip.
  reflexivity.
Qed.

Lemma plain_not (c : ascii) (s : string) :
  (c = "T" \/ c = "Z" \/ c = ".")%char ->
  all_chars plain_time_char s = true ->
  all_chars (fun x => negb (Ascii.eqb x c)) s = true.
Proof.
  intros Hc. apply all_chars_weaken. intros x Hx. unfold plain_time_char in Hx.
  apply andb_prop in Hx. destruct Hx as [Hx H3].
  apply andb_prop in Hx. destruct Hx as [H1 H2].
  destruct Hc as [-> | [-> | ->]]; assumption.
Qed.

Lemma append_nil_r (s : string) : (s ++ "")%string = s.
Proof. induction s as [|x s IH]; cbn; [reflexivity | rewrite IH; reflexivity]. Qed.

(** One occurrence, nothing of it before or behind. *)
Lemma replace_one (c : ascii) (old new a b s : string) :
  s = (a ++ String c old ++ b)%string ->
  all_chars (fun x => negb (Ascii.eqb x c)) a = true ->
  all_chars (fun x => negb (Ascii.eqb x c)) b = true ->
  replace s (String c old) new = (a ++ new ++ b)%string.
Proof.
  intros -> Ha Hb. unfold replace.
  rewrite (replace_from_app_absent c old new a _ Ha), replace_from_hit,
    (replace_from_absent c old new b Hb).
  reflexivity.
Qed.

Lemma replace_none (c : ascii) (old new s : string) :
  all_chars (fun x => negb (Ascii.eqb x c)) s = true ->
  replace s (String c old) new = s.
Proof. apply replace_from_absent. Qed.

(** A dot that does not start [".000"] stays. *)
Lemma replace_other_fraction (a frac : string) :
  all_chars (fun x => negb (Ascii.eqb x ".")) a = true ->
  all_chars (fun x => negb (Ascii.eqb x ".")) frac = true ->
  String.prefix "000" frac = false ->
  replace (a ++ "." ++ frac) ".000" "" = (a ++ "." ++ frac)%string.
Proof.
  intros Ha Hf Hp. unfold replace.
  rewrite (replace_from_app_absent "." "000" "" a _ Ha).
  cbn [String.append replace_from].
  assert (P : String.prefix ".000" (String "." frac) = false).
  { cbn [String.prefix]. destruct (ascii_dec "." "."); [exact Hp | reflexivity]. }
  rewrite P, (replace_from_absent "." "000" "" frac Hf). reflexivity.
Qed.

Ltac norm_append :=
  repeat rewrite append_assoc; cbn [String.append];
  repeat rewrite append_nil_r.

Ltac plain_chars :=
  repeat rewrite all_chars_app;
  repeat first [ rewrite (plain_not "T") by auto
               | rewrite (plain_not "Z") by auto
               | rewrite (plain_not ".") by auto ];
  repeat match goal with
         | H : all_chars _ _ = true |- _ => rewrite H
         end;
  reflexivity.

(** A timestamp as the service writes it comes out as date, blank and
    time of day. For a date [d] and a time [t] that hold none of the
    characters ["T"], ["Z"] and ["."], the timestamp [d ++ "T" ++ t]
    followed by [".000Z"] or by ["Z"] is formatted as [d ++ " " ++ t];
    with another fraction of a second, the fraction stays. *)
Theorem safe_datetime_format_timestamp (d t : string) :
  all_chars plain_time_char d = true ->
  all_chars plain_time_char t = true ->
  safe_datetime_format (Some (d ++ "T" ++ t ++ ".000Z")%string)
  = (d ++ " " ++ t)%string
  /\ safe_datetime_format (Some (d ++ "T" ++ t ++ "Z")%string)
     = (d ++ " " ++ t)%string
  /\ forall frac,
       all_chars plain_time_char frac = true ->
       String.prefix "000" frac = false ->
       safe_datetime_format (Some (d ++ "T" ++ t ++ "." ++ frac ++ "Z")%string)
       = (d ++ " " ++ t ++ "." ++ frac)%string.
Proof.
  intros Hd Ht.
  assert (N : forall tail, String.eqb (d ++ "T" ++ tail) "" = false)
    by (intros tail; destruct d; reflexivity).
  assert (T : forall tail,
             all_chars (fun x => negb (Ascii.eqb x "T")) tail = true ->
             replace (d ++ "T" ++ t ++ tail) "T" " "
             = (d ++ " " ++ t ++ tail)%string).
  { intros tail Htail.
    apply (replace_one "T" "" " " d (t ++ tail)); [reflexivity| |]; plain_chars. }
  assert (Z : forall x,
             all_chars (fun c => negb (Ascii.eqb c "Z")) x = true ->
             replace (d ++ " " ++ t ++ x ++ "Z") "Z" ""
             = (d ++ " " ++ t ++ x)%string).
  { intros x Hx.
    rewrite (replace_one "Z" "" "" (d ++ " " ++ t ++ x) "");
      [now norm_append | now norm_append | | reflexivity].
    change (" " ++ t ++ x)%string with (String " " (t ++ x)).
    rewrite all_chars_app. cbn [all_chars]. rewrite all_chars_app, Hx.
    rewrite (plain_not "Z" d), (plain_not "Z" t); auto. }
  unfold safe_datetime_format. split; [|split].
  - rewrite N. change (".000Z") with (".000" ++ "Z")%string.
    rewrite (T (".000" ++ "Z")%string eq_refl), (Z ".000" eq_refl).
    rewrite (replace_one "." "000" "" (d ++ " " ++ t) "");
      [now norm_append | now norm_append | | reflexivity].
    change (" " ++ t)%string with (String " " t).
    rewrite all_chars_app. cbn [all_chars].
    rewrite (plain_not "." d), (plain_not "." t); auto.
  - rewrite N, (T "Z" eq_refl).
    change (t ++ "Z")%string with (t ++ "" ++ "Z")%string.
    rewrite (Z "" eq_refl).
    rewrite append_nil_r. apply replace_none.
    change (" " ++ t)%string with (String " " t).
    rewrite all_chars_app. cbn [all_chars].
    rewrite (plain_not "." d), (plain_not "." t); auto.
  - intros frac Hf Hp. rewrite N.
    assert (E : ((d ++ "T" ++ t ++ "." ++ frac ++ "Z")
                 = d ++ "T" ++ t ++ (("." ++ frac) ++ "Z"))%string) by reflexivity.
    rewrite E, T.
    + rewrite (Z ("." ++ frac)%string).
      * assert (E2 : ((d ++ " " ++ t ++ "." ++ frac)
                      = (d ++ " " ++ t) ++ "." ++ frac)%string) by now norm_append.
        rewrite E2. apply replace_other_fraction; [|apply (plain_not "."); auto|exact Hp].
        change (" " ++ t)%string with (String " " t).
        rewrite all_chars_app. cbn [all_chars].
        rewrite (plain_not "." d), (plain_not "." t); auto.
      * cbn [String.append all_chars]. rewrite (plain_not "Z" frac); auto.
    + cbn [String.append all_chars]. rewrite all_chars_app.
      rewrite (plain_not "T" frac); auto.
Qed.

End DatetimeFacts.

Lemma safe_datetime_format_timestamp_witness :
  PyStr.all_chars plain_time_char "2024-01-15" = true
  /\ PyStr.all_chars plain_time_char "10:30:00" = true
  /\ safe_datetime_format (Some "2024-01-15T10:30:00.000Z") = "2024-01-15 10:30:00".
Proof.
  split; [reflexivity|]. split; [reflexivity|].
  exact (proj1 (safe_datetime_format_timestamp "2024-01-15" "10:30:00"
                  eq_refl eq_refl)).
Defined.

(* ------------------------------------------------------------------ *)
(** ** One run: detection, version and history together *)

Lemma increment_version_with_changes (v : string) :
  exists s, increment_version v true = Ok s /\ s <> v.
Proof.
  destruct (increment_version_returns v) as (s & _ & Hs & _). exists s. split; [exact Hs|].
  intros ->. exact (increment_version_always_changes v Hs).
Qed.

Section RunFacts.
Context {F : Type} {PF : PyFloat F}.
Variable md5_hexdigest : string -> string.
Variable frepr : F -> string.
Variable fval : F -> Q.

Lemma detect_changes_total_nonneg (scan_data : folder_data F)
  (previous_data : previous_scan) :
  0 <= total_changes (detect_changes md5_hexdigest frepr scan_data previous_data).
Proof.
  unfold detect_changes, diff_signatures. cbn [total_changes].
  repeat match goal with |- context [len ?l] =>
    lazymatch goal with
    | _ : 0 <= len l |- _ => fail
    | _ => pose proof (len_nonneg l)
    end
  end.
  lia.
Qed.

Lemma no_changes_history_entry (version ph_time : string) (changes : change_set)
  (st : stats) (total : F) :
  no_changes (history_entry fval version ph_time changes st total)
  = Ok (total_changes changes =? 0).
Proof.
  apply (no_changes_int _
           [ ("added_files", PList (map file_ref_value (added_files changes)));
             ("deleted_files", PList (map file_ref_value (deleted_files changes)));
             ("modified_files",
                PList (map modified_entry_value (modified_files changes)));
             ("total_changes", PInt (total_changes changes));
             ("summary", PStr (summary changes)) ]);
    reflexivity.
Qed.

(** What one run does to the version and to the history. The entry that
    the program builds never makes the merge fail. The history that is
    merged is the loaded one with its old version keys renamed: each
    entry holds the fields of the loaded entry and its version under
    ["version"], and a history written with that key only is the loaded
    one. When the scan differs from the previous one, the version
    changes and an entry with the new version, the time of the scan and
    the change set is put in front of that history, which is cut to 50
    entries. When nothing differs, the version stays; a history that is
    not empty keeps the entries of that history, the first one with the
    new scan date and statistics in place of its own, and an empty
    history receives the entry of this scan. *)
Theorem run_records_the_scan (current_version : string)
  (previous_data : previous_scan) (loaded : list entry) (ph_time : string)
  (scan_data : folder_data F) (st : stats) :
  exists history,
    standardize loaded = Ok history
    /\ Forall2 kept_from loaded history
    /\ (Forall no_legacy_key loaded -> history = loaded)
    /\ (total_changes (detect_changes md5_hexdigest frepr scan_data previous_data)
        <> 0 ->
        exists new_version,
          increment_version current_version true = Ok new_version
          /\ new_version <> current_version
          /\ run_version_history md5_hexdigest frepr fval current_version
               previous_data loaded ph_time scan_data st
             = Ok (new_version,
                   detect_changes md5_hexdigest frepr scan_data previous_data,
                   firstn 50
                     (history_entry fval new_version ph_time
                        (detect_changes md5_hexdigest frepr scan_data previous_data)
                        st (totalSizeMB scan_data)
                      :: history)))
    /\ (total_changes (detect_changes md5_hexdigest frepr scan_data previous_data)
        = 0 ->
        run_version_history md5_hexdigest frepr fval current_version
          previous_data loaded ph_time scan_data st
        = Ok (current_version,
              detect_changes md5_hexdigest frepr scan_data previous_data,
              match history with
              | [] =>
                  [ history_entry fval current_version ph_time
                      (detect_changes md5_hexdigest frepr scan_data previous_data)
                      st (totalSizeMB scan_data) ]
              | top :: rest =>
                  firstn 50
                    (PyDict.set (PyDict.set top "scan_date" (PStr ph_time))
                       "stats" (stats_value fval st (totalSizeMB scan_data))
                     :: rest)
              end)).
Proof.
  destruct (standardize_total loaded) as (history & Hs & _).
  exists history. split; [exact Hs|].
  split; [apply standardize_kept, Hs|].
  split.
  { intros Hplain. rewrite (standardize_plain loaded Hplain) in Hs.
    congruence. }
  pose proof (detect_changes_total_nonneg scan_data previous_data) as Hn.
  unfold run_version_history.
  set (changes := detect_changes md5_hexdigest frepr scan_data previous_data) in *.
  split.
  - intros Hc. destruct (increment_version_with_changes current_version)
      as (new_version & Hv & Hne).
    exists new_version. split; [exact Hv|]. split; [exact Hne|].
    assert (E : (0 <? total_changes changes) = true) by (apply Z.ltb_lt; lia).
    rewrite E, Hv. cbn [rbind]. unfold save_version_history.
    rewrite Hs. cbn [rbind]. rewrite no_changes_history_entry.
    assert (E0 : (total_changes changes =? 0) = false) by (apply Z.eqb_neq; exact Hc).
    rewrite E0. cbn [rbind]. rewrite truncate_firstn. reflexivity.
  - intros Hc.
    assert (E : (0 <? total_changes changes) = false) by (apply Z.ltb_ge; lia).
    rewrite E. unfold increment_version. cbn [negb rbind].
    unfold save_version_history. rewrite Hs. cbn [rbind].
    rewrite no_changes_history_entry.
    assert (E0 : (total_changes changes =? 0) = true) by (apply Z.eqb_eq; exact Hc).
    rewrite E0. cbn [rbind]. destruct history as [|top rest].
    + reflexivity.
    + change (PyDict.getitem (history_entry fval current_version ph_time changes st
                                (totalSizeMB scan_data)) "scan_date")
        with (@Ok pyval (PStr ph_time)).
      cbn [rbind].
      change (PyDict.contains (history_entry fval current_version ph_time changes st
                                 (totalSizeMB scan_data)) "stats") with true.
      cbn iota.
      change (PyDict.getitem (history_entry fval current_version ph_time changes st
                                (totalSizeMB scan_data)) "stats")
        with (@Ok pyval (stats_value fval st (totalSizeMB scan_data))).
      cbn [rbind]. rewrite truncate_firstn. reflexivity.
Qed.

End RunFacts.

Lemma run_records_the_scan_witness :
  total_changes (detect_changes sample_md5 sample_repr sample_tree sample_previous)
  <> 0
  /\ total_changes (detect_changes sample_md5 sample_repr sample_tree
                      sample_same_previous) = 0
  /\ (exists changes history,
        run_version_history sample_md5 sample_repr (fun q => q) "1.4.9"
          sample_previous sample_legacy_history "2024-03-01T08:00:00+08:00"
          sample_tree initial_stats
        = Ok ("1.5.0", changes, history)
        /\ total_changes changes = 3
        /\ map (fun e => PyDict.get e "version") history
           = [Some (PStr "1.5.0"); Some (PStr "1.0.0")])
  /\ (exists changes history,
        run_version_history sample_md5 sample_repr (fun q => q) "1.4.9"
          sample_same_previous sample_legacy_history "2024-03-01T08:00:00+08:00"
          sample_tree initial_stats
        = Ok ("1.4.9", changes, history)
        /\ map (fun e => PyDict.get e "version") history = [Some (PStr "1.0.0")]
        /\ map (fun e => PyDict.get e "scan_date") history
           = [Some (PStr "2024-03-01T08:00:00+08:00")]).
Proof.
  split; [discriminate|]. split; [reflexivity|]. split.
  - destruct (run_records_the_scan sample_md5 sample_repr (fun q => q) "1.4.9"
                sample_previous sample_legacy_history
                "2024-03-01T08:00:00+08:00" sample_tree initial_stats)
      as (history & Hs & _ & _ & Hch & _).
    destruct Hch as (new_version & Hv & _ & Hrun); [discriminate|].
    vm_compute in Hv. injection Hv as <-.
    vm_compute in Hs. injection Hs as <-.
    eexists. eexists. split; [exact Hrun|]. split; reflexivity.
  - destruct (run_records_the_scan sample_md5 sample_repr (fun q => q) "1.4.9"
                sample_same_previous sample_legacy_history
                "2024-03-01T08:00:00+08:00" sample_tree initial_stats)
      as (history & Hs & _ & _ & _ & Hno).
    vm_compute in Hs. injection Hs as <-.
    eexists. eexists. split; [exact (Hno eq_refl)|]. split; reflexivity.
Defined.

(* ------------------------------------------------------------------ *)
(** ** Tree Scanner: the time of the last update *)

Section ScannerStamps.
Context {F : Type} {PF : PyFloat F}.
Variable maxRetries : Z.
Variable retryDelay : Z.
Variable remote_list : Z -> string -> option string -> api_outcome list_response.
Variable remote_get : Z -> string -> api_outcome get_response.

(** The larger of two times is one of them. *)
Lemma watermark_cases (lastModified : option string) (t s : string) :
  watermark lastModified t = Some s -> s = t \/ lastModified = Some s.
Proof.
  unfold watermark, PyStrMore.max, str_or.
  destruct lastModified as [x|].
  - destruct (String.eqb x "").
    + destruct (String.ltb t t); intros H; injection H as <-; auto.
    + destruct (String.ltb x t); intros H; injection H as <-; auto.
  - destruct (String.ltb t t); intros H; injection H as <-; auto.
Qed.

Lemma file_times_app (l1 l2 : list (node F)) :
  file_times (l1 ++ l2) = file_times l1 ++ file_times l2.
Proof. unfold file_times. rewrite flat_map_app, map_app. reflexivity. Qed.

Lemma scan_folder_stamps (rec : string -> string -> scan (folder_data F))
  (item : remote_item) (acc acc' : folder_stats F * list (node F))
  (st st' : stats) :
  rec_stamps rec -> acc_stamps acc ->
  scan_folder maxRetries retryDelay remote_get rec item acc st
  = Some (Ok acc', st') ->
  acc_stamps acc'.
Proof.
  intros Hrec [A1 A2] H. destruct acc as [fs ch].
  unfold scan_folder in H. scan_inv H.
  apply ret_ok in H. destruct H as [<- _].
  rename a0 into subtree. rename a1 into descr.
  pose proof (Hrec _ _ _ _ _ Hstep0) as T.
  destruct (T subtree (or_introl eq_refl)) as [S1 S2].
  cbn [fst snd] in *. split; cbn [fst snd fs_lastModified].
  - intros s Hs. rewrite file_times_app. apply in_or_app.
    assert (E : file_times [folder_child (r_name item) (r_id item) descr subtree]
                = file_times (children subtree)).
    { unfold file_times. cbn [flat_map]. rewrite app_nil_r. reflexivity. }
    rewrite E.
    destruct (String.eqb (lastUpdated subtree) "N/A") eqn:N;
      [rewrite andb_false_r in Hs; left; apply A1, Hs|].
    destruct (String.eqb (lastUpdated subtree) "");
      [left; apply A1, Hs|].
    cbn [negb andb] in Hs.
    destruct (watermark_cases _ _ _ Hs) as [-> | Hold]; [|left; apply A1, Hold].
    right. destruct S2 as [S2 | S2]; [|exact S2].
    rewrite S2 in N. discriminate N.
  - intros d Hd.
    destruct (folder_in_app _ _ _ Hd) as [Hl | Hx]; [apply A2, Hl|].
    apply folder_in_folder_child in Hx. apply T, Hx.
Qed.

Lemma scan_file_stamps (item : remote_item)
  (acc acc' : folder_stats F * list (node F)) (st st' : stats) :
  acc_stamps acc ->
  scan_file item acc st = Some (Ok acc', st') ->
  acc_stamps acc'.
Proof.
  intros [A1 A2] H. destruct acc as [fs ch].
  unfold scan_file in H. scan_inv H.
  apply ret_ok in H. destruct H as [<- _].
  cbn [fst snd] in *. split; cbn [fst snd fs_lastModified].
  - intros s Hs. rewrite file_times_app. apply in_or_app.
    destruct (str_truthy (str_or (r_modifiedTime item) (r_createdTime item)));
      [|left; apply A1, Hs].
    destruct (watermark_cases _ _ _ Hs) as [-> | Hold]; [|left; apply A1, Hold].
    right. left. reflexivity.
  - intros d Hd.
    destruct (folder_in_app _ _ _ Hd) as [Hl | Hx]; [apply A2, Hl|].
    exfalso. exact (folder_in_file _ _ Hx).
Qed.

Lemma scan_items_stamps (rec : string -> string -> scan (folder_data F))
  (items : list remote_item) :
  rec_stamps rec ->
  forall acc st acc' st',
    acc_stamps acc ->
    scan_items maxRetries retryDelay remote_get rec items acc st
    = Some (Ok acc', st') ->
    acc_stamps acc'.
Proof.
  intros Hrec. induction items as [|item items IH]; intros acc st acc' st' Hacc H.
  - apply ret_ok in H. destruct H as [<- _]. exact Hacc.
  - cbn [scan_items] in H. scan_inv H.
    refine (IH _ _ _ _ _ H).
    destruct (String.eqb (r_mimeType item) FOLDER_MIME).
    + eapply scan_folder_stamps; eassumption.
    + eapply scan_file_stamps; eassumption.
Qed.

Lemma scan_pages_stamps (rec : string -> string -> scan (folder_data F))
  (query : string) (fuel : nat) :
  rec_stamps rec ->
  forall page_token acc st acc' st',
    acc_stamps acc ->
    scan_pages maxRetries retryDelay remote_list remote_get rec fuel query
      page_token acc st
    = Some (Ok acc', st') ->
    acc_stamps acc'.
Proof.
  intros Hrec. induction fuel as [|fuel IH];
    intros page_token acc st acc' st' Hacc H; [discriminate H|].
  cbn [scan_pages] in H. scan_inv H.
  destruct a as [response|].
  - scan_inv H.
    pose proof (scan_items_stamps rec _ Hrec _ _ _ _ Hacc Hstep0) as Hacc2.
    destruct (str_truthy (nextPageToken response)).
    + eapply IH; eassumption.
    + apply ret_ok in H. destruct H as [<- _]. exact Hacc2.
  - apply ret_ok in H. destruct H as [<- _]. exact Hacc.
Qed.

Lemma get_folder_tree_stamps (fuel : nat) :
  rec_stamps (get_folder_tree maxRetries retryDelay remote_list remote_get fuel).
Proof.
  induction fuel as [|fuel IH]; intros id name st tree st' H; [discriminate H|].
  cbn [get_folder_tree] in H. scan_inv H.
  destruct a as [fs ch]. apply ret_ok in H. destruct H as [<- _].
  assert (I : acc_stamps (initial_folder_stats (F := F), [])).
  { split; [intros s Hs; discriminate Hs | intros d Hd; inversion Hd]. }
  destruct (scan_pages_stamps _ _ _ IH _ _ _ _ _ I Hstep) as [A1 A2].
  cbn [fst snd] in *.
  intros d [-> | Hd]; [|apply A2, Hd].
  unfold folder_stamp. cbn [lastUpdated children].
  destruct (fs_lastModified fs) as [s|]; cbn [str_or].
  - destruct (String.eqb_spec s "") as [->|Hne].
    + split; [discriminate | left; reflexivity].
    + split; [exact Hne | right; apply A1; reflexivity].
  - split; [discriminate | left; reflexivity].
Qed.

(** The time of the last update is never made up. In every folder of a
    returned tree, ["lastUpdated"] is not empty, and it is ["N/A"] or
    the ["modifiedTime"] shown by a file at some depth below the folder;
    a folder without files below it shows ["N/A"]. *)
Theorem lastUpdated_is_a_file_time (fuel : nat) (id name : string)
  (st st' : stats) (tree d : folder_data F) :
  get_folder_tree maxRetries retryDelay remote_list remote_get fuel id name st
  = Some (Ok tree, st') ->
  folder_of_tree d tree ->
  lastUpdated d <> ""
  /\ (lastUpdated d = "N/A"
      \/ exists f, In f (tree_files d) /\ f_modifiedTime f = lastUpdated d)
  /\ (tree_files d = [] -> lastUpdated d = "N/A").
Proof.
  intros H Hd. destruct (get_folder_tree_stamps fuel _ _ _ _ _ H d Hd) as [S1 S2].
  unfold file_times in S2. fold (tree_files d) in S2.
  split; [exact S1|]. split.
  - destruct S2 as [S2 | S2]; [left; exact S2 | right].
    apply in_map_iff in S2. destruct S2 as (f & E & Hf). exists f. auto.
  - intros E. rewrite E in S2. destruct S2 as [S2 | []]. exact S2.
Qed.

End ScannerStamps.

Lemma lastUpdated_is_a_file_time_witness :
  exists tree st',
    get_folder_tree 3 2 small_drive no_description 2 "root" "Unknown"
      initial_stats = Some (Ok tree, st')
    /\ lastUpdated tree = "2024-01-02 03:04:05"
    /\ lastUpdated tree <> ""
    /\ (lastUpdated tree = "N/A"
        \/ exists f, In f (tree_files tree) /\ f_modifiedTime f = lastUpdated tree)
    /\ (tree_files tree = [] -> lastUpdated tree = "N/A").
Proof.
  eexists. eexists. split; [vm_compute; reflexivity|]. split; [reflexivity|].
  eapply (lastUpdated_is_a_file_time 3 2 small_drive no_description 2 "root"
            "Unknown" initial_stats).
  - vm_compute. reflexivity.
  - left. reflexivity.
Defined.

(* ------------------------------------------------------------------ *)
(** ** Tree Scanner: a size that is not a number *)

Section BadSize.
Context {F : Type} {PF : PyFloat F}.
Variable maxRetries : Z.
Variable retryDelay : Z.
Variable remote_list : Z -> string -> option string -> api_outcome list_response.
Variable remote_get : Z -> string -> api_outcome get_response.

Lemma bind_assoc {A B C} (m : scan A) (k : A -> scan B) (h : B -> scan C)
  (st : stats) :
  bind (bind m k) h st = bind m (fun a => bind (k a) h) st.
Proof. unfold bind. destruct (m st) as [[[a|e] st1]|]; reflexivity. Qed.

Lemma bind_ext {A B} (m : scan A) (k k' : A -> scan B) (st : stats) :
  (forall a st1, k a st1 = k' a st1) -> bind m k st = bind m k' st.
Proof.
  intros H. unfold bind. destruct (m st) as [[[a|e] st1]|]; auto.
Qed.

Lemma scan_items_app (rec : string -> string -> scan (folder_data F))
  (l1 l2 : list remote_item) :
  forall acc st,
    scan_items maxRetries retryDelay remote_get rec (l1 ++ l2) acc st
    = bind (scan_items maxRetries retryDelay remote_get rec l1 acc)
        (scan_items maxRetries retryDelay remote_get rec l2) st.
Proof.
  induction l1 as [|item l1 IH]; intros acc st; [reflexivity|].
  cbn [app scan_items]. rewrite bind_assoc. apply bind_ext. exact IH.
Qed.

(** A size that [int] rejects ends the scan. The scanner has no handler
    around [int(item.get('size', 0) or 0)]: when the first listing
    attempt of a folder returns a page and the entries before some file
    are scanned, a size of that file for which the conversion raises
    makes [get_folder_tree] raise the same exception, the file being
    already counted in [totalFiles]; the entries behind it are not
    looked at. *)
Theorem bad_size_aborts_scan (fuel : nat) (folder_id folder_name : string)
  (response : list_response) (before after : list remote_item)
  (item : remote_item) (e : pyexn)
  (acc : folder_stats F * list (node F)) (st st1 : stats) :
  0 < maxRetries ->
  remote_list (apiCallsCount st + 1) (children_query folder_id) None
  = ApiReturn (Some response) ->
  files response = Some (before ++ item :: after) ->
  scan_items maxRetries retryDelay remote_get
    (get_folder_tree maxRetries retryDelay remote_list remote_get fuel)
    before (initial_folder_stats, []) (count_api_call st)
  = Some (Ok acc, st1) ->
  r_mimeType item <> FOLDER_MIME ->
  item_size_bytes item = Raise e ->
  get_folder_tree maxRetries retryDelay remote_list remote_get (S fuel)
    folder_id folder_name st
  = Some (Raise e, count_file st1).
Proof.
  intros Hmax Hcall Hfiles Hbefore Hmime Hsize.
  cbn [get_folder_tree scan_pages]. fold (children_query folder_id).
  unfold bind at 1. unfold bind at 1.
  rewrite (first_attempt_returns maxRetries retryDelay
             (fun n => remote_list n (children_query folder_id) None)
             (Some response) st Hmax Hcall).
  rewrite Hfiles. unfold bind at 1. rewrite scan_items_app.
  unfold bind at 1. rewrite Hbefore. cbn [scan_items].
  destruct (String.eqb_spec (r_mimeType item) FOLDER_MIME) as [E|_];
    [contradiction|].
  destruct acc as [fs ch]. unfold scan_file, bind, modify, lift.
  rewrite Hsize. reflexivity.
Qed.

End BadSize.

Lemma bad_size_aborts_scan_witness :
  0 < 3
  /\ item_size_bytes (sample_item "B" "b.txt" "text/plain" (Some (PStr "12 MB")))
     = Raise ValueError
  /\ exists st1,
       totalFiles st1 = 1
       /\ get_folder_tree 3 2 drive_with_bad_size no_description 2 "root" "Unknown"
            initial_stats
          = Some (@Raise (folder_data Q) ValueError, count_file st1).
Proof.
  split; [lia|]. split; [reflexivity|].
  eexists. split; [|
    refine ((bad_size_aborts_scan 3 2 drive_with_bad_size no_description 1
              "root" "Unknown"
              {| files := Some [ sample_item "A" "a.txt" "text/plain"
                                   (Some (PStr "10"));
                                 sample_item "B" "b.txt" "text/plain"
                                   (Some (PStr "12 MB")) ];
                 nextPageToken := None |}
              [sample_item "A" "a.txt" "text/plain" (Some (PStr "10"))] []
              (sample_item "B" "b.txt" "text/plain" (Some (PStr "12 MB")))
              ValueError _ initial_stats _ _ eq_refl eq_refl _ _ eq_refl));
    [lia | vm_compute; reflexivity | discriminate] ].
  reflexivity.
Defined.

(** The limit on digits at work: [int] reads 4300 nines and refuses 4301,
    so a size of 4301 digits is one of the sizes that end the scan. *)
Example size_over_digit_limit :
  PyStr.int_of_str (nines 4300) = Some (10 ^ PyStr.MAX_STR_DIGITS - 1)
  /\ PyStr.int_of_str (nines 4301) = None
  /\ item_size_bytes
       (sample_item "B" "b.txt" "text/plain" (Some (PStr (nines 4301))))
     = Raise ValueError.
Proof.
  split; [|split; vm_compute; reflexivity].
  change 4300%nat with (S 4299).
  rewrite int_of_str_nines by (vm_compute; discriminate).
  replace (Z.of_nat (S 4299)) with PyStr.MAX_STR_DIGITS
    by (vm_compute; reflexivity).
  reflexivity.
Qed.
